(** * The system builder: selection state, toggles, summary and cart submission

    A shallow embedding of the two [SystemBuilder] web components of the
    repository:

    - [Builder] follows the component with several shaft variants per size,
      shaft types shared between sports and per-line quantities;
    - [Legacy] follows [assets/system-builder.js], the older component with
      one shaft per size, one sport per shaft type and no quantities.

    Both keep [this.state] (the three chip choices) and
    [this.selectedProducts] (a JavaScript object used as an insertion-ordered
    map from slot key to product).  The parts of the document tree that the
    handlers read or that decide what can be clicked next are kept in the
    state as well. *)

From Stdlib Require Import ZArith List String Ascii Bool Lia.
Import ListNotations.

Open Scope string_scope.
Open Scope Z_scope.

(* ------------------------------------------------------------------------- *)
(** ** JavaScript values used by the component *)
(* ------------------------------------------------------------------------- *)

Module Js.

(** Numbers.  Every number the component handles comes out of
    [parseInt(_, 10)] or out of sums and products of such numbers, so a
    number is an integer or [NaN].  Integers are exact here. *)
Inductive num : Type :=
| Num (z : Z)
| NaN.

(** [ToBoolean] on a number: [0] and [NaN] are falsy. *)
Definition truthy (n : num) : bool :=
  match n with
  | Num z => negb (z =? 0)
  | NaN => false
  end.

(** [a || b] on numbers. *)
Definition or_else (a b : num) : num := if truthy a then a else b.

Definition add (a b : num) : num :=
  match a, b with
  | Num x, Num y => Num (x + y)
  | _, _ => NaN
  end.

Definition mul (a b : num) : num :=
  match a, b with
  | Num x, Num y => Num (x * y)
  | _, _ => NaN
  end.

(** [a === b] on numbers: [NaN] equals nothing, itself included. *)
Definition strict_eq (a b : num) : bool :=
  match a, b with
  | Num x, Num y => x =? y
  | _, _ => false
  end.

(** [a < b] on numbers: false as soon as one side is [NaN]. *)
Definition lt (a b : num) : bool :=
  match a, b with
  | Num x, Num y => x <? y
  | _, _ => false
  end.

(** A string that may be [undefined] (a missing [dataset] entry, the result
    of an optional chain). *)
Definition str := option string.

(** [ToBoolean] on such a value: [undefined] and [''] are falsy. *)
Definition truthy_str (s : str) : bool :=
  match s with
  | Some (String _ _) => true
  | _ => false
  end.

(** [a || b] with a string default. *)
Definition or_str (a : str) (b : string) : string :=
  match a with
  | Some (String c r) => String c r
  | _ => b
  end.

(** [a || b || ''] style chains keep the first truthy operand. *)
Definition or_chain (a b : str) : str := if truthy_str a then a else b.

(** A value spliced into a template literal. *)
Definition template (s : str) : string :=
  match s with
  | Some x => x
  | None => "undefined"
  end.

(** [a === 'literal'] for a possibly undefined string. *)
Definition str_is (a : str) (lit : string) : bool :=
  match a with
  | Some x => String.eqb x lit
  | None => false
  end.

(** [key.startsWith(p)]. *)
Definition startsWith (key p : string) : bool := String.prefix p key.

(** *** [parseInt(s, 10)] *)

Definition is_white (c : ascii) : bool :=
  let n := nat_of_ascii c in
  (Nat.eqb n 32 || (Nat.leb 9 n && Nat.leb n 13))%bool.

Fixpoint skip_white (s : string) : string :=
  match s with
  | String c r => if is_white c then skip_white r else s
  | EmptyString => s
  end.

Definition digit (c : ascii) : option Z :=
  let n := nat_of_ascii c in
  if (Nat.leb 48 n && Nat.leb n 57)%bool then Some (Z.of_nat (n - 48)) else None.

(** Reads the longest run of decimal digits at the head of [s]; [acc] is
    the value read so far, [None] while no digit has been seen. *)
Fixpoint digits (s : string) (acc : option Z) : option Z :=
  match s with
  | String c r =>
      match digit c with
      | Some d =>
          digits r (Some (match acc with Some a => 10 * a + d | None => d end))
      | None => acc
      end
  | EmptyString => acc
  end.

Definition of_digits (sign : Z) (s : string) : num :=
  match digits s None with
  | Some v => Num (sign * v)
  | None => NaN
  end.

Definition parseInt (s : string) : num :=
  match skip_white s with
  | String "-" r => of_digits (-1) r
  | String "+" r => of_digits 1 r
  | t => of_digits 1 t
  end.

(** [parseInt(x, 10)] where [x] may be [undefined]: the argument is first
    turned into the string ["undefined"]. *)
Definition parseInt_str (x : str) : num := parseInt (template x).

(** The sum of a list of numbers, for the statements about totals. *)
Definition total (l : list num) : num := fold_right add (Num 0) l.

End Js.

(* ------------------------------------------------------------------------- *)
(** ** Objects used as maps *)
(* ------------------------------------------------------------------------- *)

(** [this.selectedProducts] is a plain object whose keys are slot keys
    (['shaft'], ['ball-0'], ...).  None of them is an array index, so
    [Object.keys] and [Object.values] enumerate in insertion order: the
    object is an association list with one pair per key. *)
Module Obj.

Section WithValue.
Context {V : Type}.

Definition t := list (string * V).

(** [o[k]] *)
Fixpoint get (k : string) (o : t) : option V :=
  match o with
  | [] => None
  | (k', v) :: r => if String.eqb k' k then Some v else get k r
  end.

(** [o[k] = v]: an existing key keeps its place, a new key goes last. *)
Fixpoint set (k : string) (v : V) (o : t) : t :=
  match o with
  | [] => [(k, v)]
  | (k', v') :: r =>
      if String.eqb k' k then (k, v) :: r else (k', v') :: set k v r
  end.

(** [delete o[k]] *)
Fixpoint delete (k : string) (o : t) : t :=
  match o with
  | [] => []
  | (k', v') :: r =>
      if String.eqb k' k then delete k r else (k', v') :: delete k r
  end.

(** [Object.keys(o)] and [Object.values(o)] *)
Definition keys (o : t) : list string := map fst o.
Definition values (o : t) : list V := map snd o.

(** One pair per key. *)
Definition wf (o : t) : Prop := NoDup (keys o).

End WithValue.

Arguments t : clear implicits.

End Obj.


(* ------------------------------------------------------------------------- *)
(** ** What a handler reads from the element it is given *)
(* ------------------------------------------------------------------------- *)

(** A product card ([data-product-card]): the [dataset] entries and the
    descendants that [handleProductCardClick] looks at. *)
Record Card : Type := mkCard {
  productType : Js.str;    (* card.dataset.productType *)
  productIndex : Js.str;   (* card.dataset.productIndex *)
  variantId : Js.str;      (* card.querySelector('[data-variant-id]')?.value *)
  dataPrice : Js.str;      (* card.dataset.price *)
  dataImage : Js.str;      (* card.dataset.image *)
  titleText : Js.str;      (* titleEl?.textContent?.trim() *)
  imgSrc : Js.str          (* imgEl?.src *)
}.

(** One [{ id, quantity }] of the body posted to [/cart/add.js]. *)
Record Item : Type := mkItem {
  item_id : Js.num;
  item_quantity : Js.num
}.

(** *** The cart service *)

(** What the component can observe of the two requests of a submission. *)
Inductive AddReply : Type :=
| AddRejects                       (* fetch('/cart/add.js') rejects *)
| AddResponse (ok : bool) (json : bool).
                                   (* response.ok, and whether response.json()
                                      resolves *)

Inductive CartReply : Type :=
| CartRejects                      (* fetch('/cart.js') rejects *)
| CartResponse (item_count : option Z).
                                   (* cartResponse.json(): None if it rejects *)

(** How [handleAddToCart] ends, as the button text tells:
    ['Select products first'], ['Added!'] or ['Error – Try Again']. *)
Inductive Outcome : Type :=
| NothingSelected
| Added (item_count : Z)
| Failed.

(** [handleAddToCart] is an [async] function: it runs up to an [await],
    hands a request to the cart service and resumes with the reply. *)
Inductive Submission : Type :=
| Finished (o : Outcome)
| PostCartAdd (items : list Item) (resume : AddReply -> Submission)
| GetCart (resume : CartReply -> Submission).

(** A cart service answers each request; [Request] is what it has seen. *)
Record Network : Type := mkNetwork {
  cart_add : list Item -> AddReply;
  cart_read : CartReply
}.

Inductive Request : Type :=
| ReqCartAdd (items : list Item)
| ReqCart.

(** Drives a submission against a cart service and records the requests. *)
Fixpoint perform (net : Network) (sub : Submission) : Outcome * list Request :=
  match sub with
  | Finished o => (o, [])
  | PostCartAdd items resume =>
      let (o, reqs) := perform net (resume (cart_add net items)) in
      (o, ReqCartAdd items :: reqs)
  | GetCart resume =>
      let (o, reqs) := perform net (resume (cart_read net)) in
      (o, ReqCart :: reqs)
  end.

(** The add-items operation failed: the request rejected, the response is
    not [ok], or its body could not be read. *)
Definition add_failed (r : AddReply) : bool :=
  match r with
  | AddRejects => true
  | AddResponse ok json => negb (ok && json)
  end.


(* ------------------------------------------------------------------------- *)
(** ** The component with shaft variants, shared shaft types and quantities *)
(* ------------------------------------------------------------------------- *)

Module Builder.

(** *** Catalog: [this.data] *)

(** A shaft as the embedded JSON gives it.  The handlers never compute with
    [id] and [price]: both are spliced into the card markup and read back
    with [parseInt], so they are kept as that text. *)
Record ShaftVariant : Type := mkShaftVariant {
  v_id : string;             (* `${v.id}` *)
  v_price : string;          (* `${v.price}` *)
  v_title : Js.str;
  v_productTitle : Js.str;
  v_imageUrl : string        (* v.image ? this.getImageUrl(v.image, 200) : '' *)
}.

Record ShaftType : Type := mkShaftType {
  st_handle : string;
  st_name : string;
  st_sportHandles : option (list string)   (* None: not an array *)
}.

Record ShaftSize : Type := mkShaftSize {
  ss_handle : string;
  ss_name : string;
  ss_shaftTypeHandle : string;
  ss_shafts : option (list ShaftVariant)   (* None: no [shafts] property *)
}.

Record Data : Type := mkData {
  shaftTypes : list ShaftType;
  shaftSizes : list ShaftSize
}.

(** The elements of the section markup that the renderers look up before
    they do anything. *)
Record Template : Type := mkTemplate {
  has_shaftTypeChips : bool;   (* [data-chips="shaft-type"] *)
  has_shaftSizeChips : bool;   (* [data-chips="shaft-size"] *)
  has_shaftDisplay : bool      (* [data-product="shaft"] *)
}.

Record Config : Type := mkConfig {
  data : Data;
  template : Template
}.

(** *** State *)

(** A value of [this.selectedProducts]. *)
Record Product : Type := mkProduct {
  id : Js.num;
  title : string;
  price : Js.num;
  image : string;
  slotKey : string;
  quantity : Js.num
}.

Record State : Type := mkState {
  (* this.state *)
  sport : option string;
  shaftType : option string;
  shaftSize : option string;
  (* this.selectedProducts *)
  selectedProducts : Obj.t Product;
  (* the chips and cards that the component has put into the document *)
  shaftTypeChips : list string;     (* data-value of each shaft-type chip *)
  shaftSizeChips : list string;     (* data-value of each shaft-size chip *)
  shaftCards : list Card;           (* cards inside [data-product="shaft"] *)
  (* the [hidden] attribute of the steps *)
  shaftTypeHidden : bool;
  shaftSizeHidden : bool;
  accessoriesHidden : bool
}.

(** The component as constructed, before any click: nothing chosen, nothing
    selected, no chip or card rendered yet. *)
Definition initial : State :=
  mkState None None None [] [] [] [] true true true.

Definition with_path (sp ty sz : option string) (s : State) : State :=
  mkState sp ty sz (selectedProducts s) (shaftTypeChips s) (shaftSizeChips s)
          (shaftCards s) (shaftTypeHidden s) (shaftSizeHidden s)
          (accessoriesHidden s).

Definition with_selected (o : Obj.t Product) (s : State) : State :=
  mkState (sport s) (shaftType s) (shaftSize s) o (shaftTypeChips s)
          (shaftSizeChips s) (shaftCards s) (shaftTypeHidden s)
          (shaftSizeHidden s) (accessoriesHidden s).

Definition with_typeChips (chips : list string) (hidden : bool) (s : State)
  : State :=
  mkState (sport s) (shaftType s) (shaftSize s) (selectedProducts s) chips
          (shaftSizeChips s) (shaftCards s) hidden (shaftSizeHidden s)
          (accessoriesHidden s).

Definition with_sizeChips (chips : list string) (hidden : bool) (s : State)
  : State :=
  mkState (sport s) (shaftType s) (shaftSize s) (selectedProducts s)
          (shaftTypeChips s) chips (shaftCards s) (shaftTypeHidden s) hidden
          (accessoriesHidden s).

Definition with_shaftCards (cards : list Card) (s : State) : State :=
  mkState (sport s) (shaftType s) (shaftSize s) (selectedProducts s)
          (shaftTypeChips s) (shaftSizeChips s) cards (shaftTypeHidden s)
          (shaftSizeHidden s) (accessoriesHidden s).

Definition with_accessoriesHidden (hidden : bool) (s : State) : State :=
  mkState (sport s) (shaftType s) (shaftSize s) (selectedProducts s)
          (shaftTypeChips s) (shaftSizeChips s) (shaftCards s)
          (shaftTypeHidden s) (shaftSizeHidden s) hidden.

(** [delete this.selectedProducts.shaft] *)
Definition delete_shaft (s : State) : State :=
  with_selected (Obj.delete "shaft" (selectedProducts s)) s.

(** *** Step rendering helpers *)

(** [Array.isArray(st.sportHandles) && st.sportHandles.includes(sport)] *)
Definition has_sport (sp : option string) (st : ShaftType) : bool :=
  match st_sportHandles st, sp with
  | Some hs, Some v => existsb (String.eqb v) hs
  | _, _ => false
  end.

Definition renderShaftTypes (cfg : Config) (s : State) : State :=
  if negb (has_shaftTypeChips (template cfg)) then s
  else
    let filtered := filter (has_sport (sport s)) (shaftTypes (data cfg)) in
    with_typeChips (map st_handle filtered) false s.

(** [ss.shaftTypeHandle === this.state.shaftType] *)
Definition of_type (ty : option string) (ss : ShaftSize) : bool :=
  match ty with
  | Some t => String.eqb (ss_shaftTypeHandle ss) t
  | None => false
  end.

Definition renderShaftSizes (cfg : Config) (s : State) : State :=
  if negb (has_shaftSizeChips (template cfg)) then s
  else
    let filtered := filter (of_type (shaftType s)) (shaftSizes (data cfg)) in
    with_sizeChips (map ss_handle filtered) false s.

(** [hideStep] is only ever called for the two steps below. *)
Definition hideStep (stepName : string) (s : State) : State :=
  if String.eqb stepName "shaft-type" then
    with_typeChips (shaftTypeChips s) true s
  else if String.eqb stepName "shaft-size" then
    with_sizeChips (shaftSizeChips s) true s
  else s.

Definition clearShaftSizeChips (cfg : Config) (s : State) : State :=
  if has_shaftSizeChips (template cfg)
  then with_sizeChips [] (shaftSizeHidden s) s
  else s.

Definition hideShaftProduct (cfg : Config) (s : State) : State :=
  let s := if has_shaftDisplay (template cfg) then with_shaftCards [] s else s in
  delete_shaft s.

Definition displayTitle (v : ShaftVariant) : string :=
  if Js.truthy_str (v_productTitle v) then
    if (Js.truthy_str (v_title v) && negb (Js.str_is (v_title v) "Default Title"))%bool
    then Js.template (v_productTitle v) ++ " - " ++ Js.template (v_title v)
    else Js.template (v_productTitle v)
  else Js.or_str (v_title v) "Product".

(** The card that [renderShaftProduct] writes for one shaft. *)
Definition shaftCard (v : ShaftVariant) : Card :=
  mkCard (Some "shaft") None (Some (v_id v)) (Some (v_price v))
         (Some (v_imageUrl v)) (Some (displayTitle v))
         (if String.eqb (v_imageUrl v) "" then None else Some (v_imageUrl v)).

(** [this.data.shaftSizes.find(ss => ss.handle === this.state.shaftSize)] *)
Definition sizeData (cfg : Config) (s : State) : option ShaftSize :=
  find (fun ss => match shaftSize s with
                  | Some z => String.eqb (ss_handle ss) z
                  | None => false
                  end)
       (shaftSizes (data cfg)).

Definition renderShaftProduct (cfg : Config) (s : State) : State :=
  if negb (has_shaftDisplay (template cfg)) then s
  else
    match sizeData cfg s with
    | Some ss =>
        match ss_shafts ss with
        | Some (v :: vs) =>
            (* Clear shaft selection when a new size is chosen *)
            let s := delete_shaft s in
            with_shaftCards (map shaftCard (v :: vs)) s
        | _ => hideShaftProduct cfg s
        end
    | None => hideShaftProduct cfg s
    end.

Definition showAccessoryPanels (s : State) : State :=
  with_accessoriesHidden false s.

(** [key.startsWith('ball-') || key.startsWith('pineapple-')] *)
Definition accessory_key (key : string) : bool :=
  (Js.startsWith key "ball-" || Js.startsWith key "pineapple-")%bool.

Definition hideAccessoryPanels (s : State) : State :=
  let s := with_accessoriesHidden true s in
  with_selected
    (fold_left (fun o key => if accessory_key key then Obj.delete key o else o)
               (Obj.keys (selectedProducts s)) (selectedProducts s))
    s.

(** *** Chip selection *)

(** [field] and [value] are [chip.dataset.field] and [chip.dataset.value].
    The chip highlighting, [updateStepTitles] (two headings) and the final
    [updateSummary] only repaint; they are not part of the state. *)
Definition handleChipClick (cfg : Config) (field value : string) (s : State)
  : State :=
  if String.eqb field "sport" then
    let s := with_path (Some value) None None s in
    (* Clear anything downstream *)
    let s := delete_shaft s in
    let s := renderShaftTypes cfg s in
    let s := hideStep "shaft-size" s in
    let s := clearShaftSizeChips cfg s in
    let s := hideShaftProduct cfg s in
    hideAccessoryPanels s
  else if String.eqb field "shaft-type" then
    let s := with_path (sport s) (Some value) None s in
    let s := delete_shaft s in
    let s := renderShaftSizes cfg s in
    let s := hideShaftProduct cfg s in
    hideAccessoryPanels s
  else if String.eqb field "shaft-size" then
    let s := with_path (sport s) (shaftType s) (Some value) s in
    let s := renderShaftProduct cfg s in
    (* Accessories appear as soon as a shaft size is chosen *)
    showAccessoryPanels s
  else s.

(** *** Product card toggle *)

(** The key of an accessory card: [`${productType}-${index}`]. *)
Definition accessorySlotKey (card : Card) : string :=
  Js.template (productType card) ++ "-" ++ Js.template (productIndex card).

(** The product built from a card for the slot [key]. *)
Definition productOf (card : Card) (key : string) : Product :=
  mkProduct (Js.parseInt_str (variantId card))
            (Js.or_str (titleText card) "")
            (Js.parseInt (Js.or_str (dataPrice card) "0"))
            (Js.or_str (Js.or_chain (dataImage card) (imgSrc card)) "")
            key
            (Js.Num 1).

Definition handleProductCardClick (card : Card) (s : State) : State :=
  if negb (Js.truthy_str (variantId card)) then s
  else if Js.str_is (productType card) "shaft" then
    (* Shaft variants are mutually exclusive *)
    let clickedId := Js.parseInt_str (variantId card) in
    let alreadySelected :=
      match Obj.get "shaft" (selectedProducts s) with
      | Some p => Js.strict_eq (id p) clickedId
      | None => false
      end in
    if alreadySelected then delete_shaft s
    else
      with_selected
        (Obj.set "shaft" (productOf card "shaft") (selectedProducts s)) s
  else
    (* Accessories (balls, pineapples) toggle independently *)
    let key := accessorySlotKey card in
    match Obj.get key (selectedProducts s) with
    | Some _ => with_selected (Obj.delete key (selectedProducts s)) s
    | None =>
        with_selected (Obj.set key (productOf card key) (selectedProducts s)) s
    end.

(** [button.dataset.summaryRemove] is the argument. *)
Definition handleRemoveFromSummary (summaryRemove : Js.str) (s : State) : State :=
  match summaryRemove with
  | Some (String c r) =>
      with_selected (Obj.delete (String c r) (selectedProducts s)) s
  | _ => s
  end.

Definition with_quantity (q : Js.num) (p : Product) : Product :=
  mkProduct (id p) (title p) (price p) (image p) (slotKey p) q.

(** [button.dataset.slotKey] and [button.dataset.qtyChange] are the
    arguments. *)
Definition handleQtyChange (slot qtyChange : Js.str) (s : State) : State :=
  let delta := Js.parseInt_str qtyChange in
  match slot with
  | Some (String c r) =>
      let key := String c r in
      match Obj.get key (selectedProducts s) with
      | Some product =>
          let newQty := Js.add (Js.or_else (quantity product) (Js.Num 1)) delta in
          if Js.lt newQty (Js.Num 1) then s (* minimum 1 *)
          else
            with_selected
              (Obj.set key (with_quantity newQty product) (selectedProducts s))
              s
      | None => s
      end
  | _ => s
  end.

(** *** Summary *)

(** One [system-builder__summary-item]: the name, the displayed amount, the
    displayed quantity and the slot key carried by its buttons. *)
Record Line : Type := mkLine {
  l_slotKey : string;
  l_title : string;
  l_quantity : Js.num;
  l_lineTotal : Js.num
}.

(** What [updateSummary] writes into the summary panel, for the parts of
    the panel that are in the page. *)
Record Summary : Type := mkSummary {
  lines : list Line;
  grandTotal : Js.num;
  itemCount : nat          (* entries.length, shown in the button label *)
}.

Definition lineOf (product : Product) : Line :=
  let qty := Js.or_else (quantity product) (Js.Num 1) in
  mkLine (slotKey product) (title product) qty
         (Js.mul (Js.or_else (price product) (Js.Num 0)) qty).

Definition updateSummary (s : State) : Summary :=
  let entries := Obj.values (selectedProducts s) in
  mkSummary
    (map lineOf entries)
    (fold_left
       (fun sum p =>
          Js.add sum (Js.mul (Js.or_else (price p) (Js.Num 0))
                             (Js.or_else (quantity p) (Js.Num 1))))
       entries (Js.Num 0))
    (List.length entries).

(** *** Reset *)

Definition resetBuilder (cfg : Config) (s : State) : State :=
  let s := with_path None None None s in
  let s := with_selected [] s in
  let s := hideStep "shaft-type" s in
  let s := hideStep "shaft-size" s in
  let s := clearShaftSizeChips cfg s in
  let s := hideShaftProduct cfg s in
  hideAccessoryPanels s.

(** *** Add to cart *)

(** The [items] array of the request body. *)
Definition cartItems (s : State) : list Item :=
  map (fun p => mkItem (id p) (Js.or_else (quantity p) (Js.Num 1)))
      (filter (fun p => Js.truthy (id p)) (Obj.values (selectedProducts s))).

Definition handleAddToCart (s : State) : Submission :=
  match cartItems s with
  | [] => Finished NothingSelected
  | items =>
      PostCartAdd items (fun response =>
        match response with
        | AddRejects => Finished Failed
        | AddResponse ok json =>
            if negb ok then Finished Failed      (* throw new Error(...) *)
            else if negb json then Finished Failed
            else
              GetCart (fun cart =>
                match cart with
                | CartRejects => Finished Failed
                | CartResponse None => Finished Failed
                | CartResponse (Some n) => Finished (Added n)
                end)
        end)
  end.

(** The timer that [handleAddToCart] leaves behind: only after ['Added!']
    does it touch the state, by [resetBuilder]. *)
Definition afterSubmission (cfg : Config) (o : Outcome) (s : State) : State :=
  match o with
  | Added _ => resetBuilder cfg s
  | _ => s
  end.

(** A whole submission against a cart service: how it ended, what was
    requested, and the state once its timer has fired. *)
Definition submit (cfg : Config) (net : Network) (s : State)
  : Outcome * list Request * State :=
  let (o, reqs) := perform net (handleAddToCart s) in
  (o, reqs, afterSubmission cfg o s).

(** *** Clicks *)

(** The clicks that [bindEvents] dispatches. *)
Inductive Event : Type :=
| ChipClick (field value : string)
| CardClick (card : Card)
| SummaryRemoveClick (summaryRemove : Js.str)
| QtyClick (slot qtyChange : Js.str)
| ResetTimer.

(** A shaft-type or shaft-size chip can be clicked when the component has
    rendered it and its step is shown; sport chips belong to the section
    markup and are always there. *)
Definition offered (s : State) (field value : string) : bool :=
  if String.eqb field "sport" then true
  else if String.eqb field "shaft-type" then
    (negb (shaftTypeHidden s) && existsb (String.eqb value) (shaftTypeChips s))%bool
  else if String.eqb field "shaft-size" then
    (negb (shaftSizeHidden s) && existsb (String.eqb value) (shaftSizeChips s))%bool
  else false.

Definition step (cfg : Config) (e : Event) (s : State) : State :=
  match e with
  | ChipClick field value => handleChipClick cfg field value s
  | CardClick card => handleProductCardClick card s
  | SummaryRemoveClick k => handleRemoveFromSummary k s
  | QtyClick k d => handleQtyChange k d s
  | ResetTimer => resetBuilder cfg s
  end.

(** Runs a sequence of chip clicks; [None] as soon as a click is on a chip
    that is not offered at that point. *)
Fixpoint chooseAll (cfg : Config) (clicks : list (string * string)) (s : State)
  : option State :=
  match clicks with
  | [] => Some s
  | (field, value) :: rest =>
      if offered s field value
      then chooseAll cfg rest (handleChipClick cfg field value s)
      else None
  end.

(** *** Entries as the handlers leave them *)

(** The price is a number and the quantity is at least one. *)
Definition priced (p : Product) : Prop :=
  exists u q, price p = Js.Num u /\ quantity p = Js.Num q /\ 1 <= q.

(** Each entry sits under the key it carries in [slotKey]. *)
Definition keyed (o : Obj.t Product) : Prop :=
  Forall (fun kv => slotKey (snd kv) = fst kv) o.

(** Unit price times quantity. *)
Definition amount (p : Product) : Js.num := Js.mul (price p) (quantity p).

(** *** The invariant of the three chip choices *)

(** Some shaft type of the catalog has handle [t] and lists the sport [sp]
    among its [sportHandles]. *)
Definition typeServesSport (cfg : Config) (t sp : string) : Prop :=
  exists st hs,
    In st (shaftTypes (data cfg)) /\ st_handle st = t /\
    st_sportHandles st = Some hs /\ In sp hs.

(** Some shaft size of the catalog has handle [z] and belongs to the shaft
    type [t]. *)
Definition sizeIsOfType (cfg : Config) (z t : string) : Prop :=
  exists ss,
    In ss (shaftSizes (data cfg)) /\ ss_handle ss = z /\
    ss_shaftTypeHandle ss = t.

Definition pathInvariant (cfg : Config) (s : State) : Prop :=
  (forall t, shaftType s = Some t ->
     exists sp, sport s = Some sp /\ typeServesSport cfg t sp) /\
  (forall z, shaftSize s = Some z ->
     exists t, shaftType s = Some t /\ sizeIsOfType cfg z t).

(** The chips on offer agree with the choices made so far; chips exist only
    inside their container. *)
Definition chipsInvariant (cfg : Config) (s : State) : Prop :=
  (shaftTypeHidden s = false ->
   forall t, In t (shaftTypeChips s) ->
     exists sp, sport s = Some sp /\ typeServesSport cfg t sp) /\
  (shaftSizeHidden s = false ->
   forall z, In z (shaftSizeChips s) ->
     exists t, shaftType s = Some t /\ sizeIsOfType cfg z t) /\
  (has_shaftTypeChips (template cfg) = false -> shaftTypeChips s = []) /\
  (has_shaftSizeChips (template cfg) = false -> shaftSizeChips s = []).

(** Both together: what every click on an offered chip preserves. *)
Definition consistent (cfg : Config) (s : State) : Prop :=
  pathInvariant cfg s /\ chipsInvariant cfg s.

(** An entry under its own key, with a quantity of at least one. *)
Definition entry_ok (kv : string * Product) : Prop :=
  slotKey (snd kv) = fst kv /\
  exists q, quantity (snd kv) = Js.Num q /\ 1 <= q.

(** States the component can be brought into by clicking what is on offer:
    chips as [offered] says, and the quantity buttons of the summary, which
    [updateSummary] writes with [data-qty-change] ["-1"] and ["1"]. *)
Inductive reachable (cfg : Config) : State -> Prop :=
| reachable_initial : reachable cfg initial
| reachable_step e s :
    reachable cfg s ->
    (forall field value, e = ChipClick field value -> offered s field value = true) ->
    (forall slot d, e = QtyClick slot d -> d = Some "-1" \/ d = Some "1") ->
    reachable cfg (step cfg e s).

End Builder.


(* ------------------------------------------------------------------------- *)
(** ** The older component: [assets/system-builder.js] *)
(* ------------------------------------------------------------------------- *)

Module Legacy.

(** *** Catalog: [this.data] *)

Record ShaftVariant : Type := mkShaftVariant {
  v_id : string;             (* `${v.id}` *)
  v_price : string;          (* `${v.price}` *)
  v_title : Js.str;
  v_productTitle : Js.str;
  v_imageUrl : string        (* v.image ? this.getImageUrl(v.image, 200) : '' *)
}.

Record ShaftType : Type := mkShaftType {
  st_handle : string;
  st_name : string;
  st_sportHandle : string
}.

Record ShaftSize : Type := mkShaftSize {
  ss_handle : string;
  ss_name : string;
  ss_shaftTypeHandle : string;
  ss_shaft : option ShaftVariant          (* None: no [shaft] property *)
}.

Record Data : Type := mkData {
  shaftTypes : list ShaftType;
  shaftSizes : list ShaftSize
}.

Record Template : Type := mkTemplate {
  has_shaftTypeChips : bool;   (* [data-chips="shaft-type"] *)
  has_shaftSizeChips : bool;   (* [data-chips="shaft-size"] *)
  has_shaftDisplay : bool      (* [data-product="shaft"] *)
}.

Record Config : Type := mkConfig {
  data : Data;
  template : Template
}.

(** *** State *)

(** A value of [this.selectedProducts]: no quantity here. *)
Record Product : Type := mkProduct {
  id : Js.num;
  title : string;
  price : Js.num;
  image : string;
  slotKey : string
}.

Record State : Type := mkState {
  sport : option string;
  shaftType : option string;
  shaftSize : option string;
  selectedProducts : Obj.t Product;
  shaftTypeChips : list string;
  shaftSizeChips : list string;
  shaftCards : list Card;
  shaftTypeHidden : bool;
  shaftSizeHidden : bool;
  accessoriesHidden : bool
}.

Definition initial : State :=
  mkState None None None [] [] [] [] true true true.

Definition with_path (sp ty sz : option string) (s : State) : State :=
  mkState sp ty sz (selectedProducts s) (shaftTypeChips s) (shaftSizeChips s)
          (shaftCards s) (shaftTypeHidden s) (shaftSizeHidden s)
          (accessoriesHidden s).

Definition with_selected (o : Obj.t Product) (s : State) : State :=
  mkState (sport s) (shaftType s) (shaftSize s) o (shaftTypeChips s)
          (shaftSizeChips s) (shaftCards s) (shaftTypeHidden s)
          (shaftSizeHidden s) (accessoriesHidden s).

Definition with_typeChips (chips : list string) (hidden : bool) (s : State)
  : State :=
  mkState (sport s) (shaftType s) (shaftSize s) (selectedProducts s) chips
          (shaftSizeChips s) (shaftCards s) hidden (shaftSizeHidden s)
          (accessoriesHidden s).

Definition with_sizeChips (chips : list string) (hidden : bool) (s : State)
  : State :=
  mkState (sport s) (shaftType s) (shaftSize s) (selectedProducts s)
          (shaftTypeChips s) chips (shaftCards s) (shaftTypeHidden s) hidden
          (accessoriesHidden s).

Definition with_shaftCards (cards : list Card) (s : State) : State :=
  mkState (sport s) (shaftType s) (shaftSize s) (selectedProducts s)
          (shaftTypeChips s) (shaftSizeChips s) cards (shaftTypeHidden s)
          (shaftSizeHidden s) (accessoriesHidden s).

Definition with_accessoriesHidden (hidden : bool) (s : State) : State :=
  mkState (sport s) (shaftType s) (shaftSize s) (selectedProducts s)
          (shaftTypeChips s) (shaftSizeChips s) (shaftCards s)
          (shaftTypeHidden s) (shaftSizeHidden s) hidden.

Definition delete_shaft (s : State) : State :=
  with_selected (Obj.delete "shaft" (selectedProducts s)) s.

(** *** Step rendering helpers *)

(** [st.sportHandle === this.state.sport] *)
Definition has_sport (sp : option string) (st : ShaftType) : bool :=
  match sp with
  | Some v => String.eqb (st_sportHandle st) v
  | None => false
  end.

Definition renderShaftTypes (cfg : Config) (s : State) : State :=
  if negb (has_shaftTypeChips (template cfg)) then s
  else
    let filtered := filter (has_sport (sport s)) (shaftTypes (data cfg)) in
    with_typeChips (map st_handle filtered) false s.

Definition of_type (ty : option string) (ss : ShaftSize) : bool :=
  match ty with
  | Some t => String.eqb (ss_shaftTypeHandle ss) t
  | None => false
  end.

Definition renderShaftSizes (cfg : Config) (s : State) : State :=
  if negb (has_shaftSizeChips (template cfg)) then s
  else
    let filtered := filter (of_type (shaftType s)) (shaftSizes (data cfg)) in
    with_sizeChips (map ss_handle filtered) false s.

Definition hideStep (stepName : string) (s : State) : State :=
  if String.eqb stepName "shaft-type" then
    with_typeChips (shaftTypeChips s) true s
  else if String.eqb stepName "shaft-size" then
    with_sizeChips (shaftSizeChips s) true s
  else s.

Definition clearShaftSizeChips (cfg : Config) (s : State) : State :=
  if has_shaftSizeChips (template cfg)
  then with_sizeChips [] (shaftSizeHidden s) s
  else s.

Definition hideShaftProduct (cfg : Config) (s : State) : State :=
  let s := if has_shaftDisplay (template cfg) then with_shaftCards [] s else s in
  delete_shaft s.

Definition displayTitle (v : ShaftVariant) : string :=
  if Js.truthy_str (v_productTitle v) then
    if (Js.truthy_str (v_title v) && negb (Js.str_is (v_title v) "Default Title"))%bool
    then Js.template (v_productTitle v) ++ " - " ++ Js.template (v_title v)
    else Js.template (v_productTitle v)
  else Js.or_str (v_title v) "Product".

(** The one card that [renderShaftProduct] writes: no [data-image] here. *)
Definition shaftCard (v : ShaftVariant) : Card :=
  mkCard (Some "shaft") None (Some (v_id v)) (Some (v_price v))
         None (Some (displayTitle v))
         (if String.eqb (v_imageUrl v) "" then None else Some (v_imageUrl v)).

Definition sizeData (cfg : Config) (s : State) : option ShaftSize :=
  find (fun ss => match shaftSize s with
                  | Some z => String.eqb (ss_handle ss) z
                  | None => false
                  end)
       (shaftSizes (data cfg)).

(** The card is drawn as selected when [this.selectedProducts.shaft] is
    there; the selection itself is left as it is. *)
Definition renderShaftProduct (cfg : Config) (s : State) : State :=
  if negb (has_shaftDisplay (template cfg)) then s
  else
    match sizeData cfg s with
    | Some ss =>
        match ss_shaft ss with
        | Some v => with_shaftCards [shaftCard v] s
        | None => hideShaftProduct cfg s
        end
    | None => hideShaftProduct cfg s
    end.

Definition showAccessoryPanels (s : State) : State :=
  with_accessoriesHidden false s.

Definition accessory_key (key : string) : bool :=
  (Js.startsWith key "ball-" || Js.startsWith key "pineapple-")%bool.

Definition hideAccessoryPanels (s : State) : State :=
  let s := with_accessoriesHidden true s in
  with_selected
    (fold_left (fun o key => if accessory_key key then Obj.delete key o else o)
               (Obj.keys (selectedProducts s)) (selectedProducts s))
    s.

(** *** Chip selection *)

Definition handleChipClick (cfg : Config) (field value : string) (s : State)
  : State :=
  if String.eqb field "sport" then
    let s := with_path (Some value) None None s in
    let s := delete_shaft s in
    let s := renderShaftTypes cfg s in
    let s := hideStep "shaft-size" s in
    let s := clearShaftSizeChips cfg s in
    let s := hideShaftProduct cfg s in
    hideAccessoryPanels s
  else if String.eqb field "shaft-type" then
    let s := with_path (sport s) (Some value) None s in
    let s := delete_shaft s in
    let s := renderShaftSizes cfg s in
    let s := hideShaftProduct cfg s in
    hideAccessoryPanels s
  else if String.eqb field "shaft-size" then
    let s := with_path (sport s) (shaftType s) (Some value) s in
    let s := renderShaftProduct cfg s in
    showAccessoryPanels s
  else s.

(** *** Product card toggle *)

(** [productType === 'shaft' ? 'shaft' : `${productType}-${index}`] *)
Definition slotKeyOf (card : Card) : string :=
  if Js.str_is (productType card) "shaft" then "shaft"
  else Js.template (productType card) ++ "-" ++ Js.template (productIndex card).

Definition productOf (card : Card) (key : string) : Product :=
  mkProduct (Js.parseInt_str (variantId card))
            (Js.or_str (titleText card) "")
            (Js.parseInt (Js.or_str (dataPrice card) "0"))
            (Js.or_str (imgSrc card) "")
            key.

Definition handleProductCardClick (card : Card) (s : State) : State :=
  let key := slotKeyOf card in
  if negb (Js.truthy_str (variantId card)) then s
  else
    match Obj.get key (selectedProducts s) with
    | Some _ => with_selected (Obj.delete key (selectedProducts s)) s
    | None =>
        with_selected (Obj.set key (productOf card key) (selectedProducts s)) s
    end.

Definition handleRemoveFromSummary (summaryRemove : Js.str) (s : State) : State :=
  match summaryRemove with
  | Some (String c r) =>
      with_selected (Obj.delete (String c r) (selectedProducts s)) s
  | _ => s
  end.

(** *** Summary *)

(** One summary item: the name, the displayed amount and the slot key of
    its remove button. *)
Record Line : Type := mkLine {
  l_slotKey : string;
  l_title : string;
  l_lineTotal : Js.num
}.

Record Summary : Type := mkSummary {
  lines : list Line;
  grandTotal : Js.num;
  itemCount : nat
}.

Definition lineOf (product : Product) : Line :=
  mkLine (slotKey product) (title product) (price product).

Definition updateSummary (s : State) : Summary :=
  let entries := Obj.values (selectedProducts s) in
  mkSummary
    (map lineOf entries)
    (fold_left (fun sum p => Js.add sum (Js.or_else (price p) (Js.Num 0)))
               entries (Js.Num 0))
    (List.length entries).

(** *** Add to cart *)

Definition cartItems (s : State) : list Item :=
  map (fun p => mkItem (id p) (Js.Num 1))
      (filter (fun p => Js.truthy (id p)) (Obj.values (selectedProducts s))).

Definition handleAddToCart (s : State) : Submission :=
  match cartItems s with
  | [] => Finished NothingSelected
  | items =>
      PostCartAdd items (fun response =>
        match response with
        | AddRejects => Finished Failed
        | AddResponse ok json =>
            if negb ok then Finished Failed
            else if negb json then Finished Failed
            else
              GetCart (fun cart =>
                match cart with
                | CartRejects => Finished Failed
                | CartResponse None => Finished Failed
                | CartResponse (Some n) => Finished (Added n)
                end)
        end)
  end.

(** Whatever the outcome, the timers of this component only restore the
    button: the state stays. *)
Definition submit (net : Network) (s : State) : Outcome * list Request * State :=
  let (o, reqs) := perform net (handleAddToCart s) in
  (o, reqs, s).

Definition offered (s : State) (field value : string) : bool :=
  if String.eqb field "sport" then true
  else if String.eqb field "shaft-type" then
    (negb (shaftTypeHidden s) && existsb (String.eqb value) (shaftTypeChips s))%bool
  else if String.eqb field "shaft-size" then
    (negb (shaftSizeHidden s) && existsb (String.eqb value) (shaftSizeChips s))%bool
  else false.

Fixpoint chooseAll (cfg : Config) (clicks : list (string * string)) (s : State)
  : option State :=
  match clicks with
  | [] => Some s
  | (field, value) :: rest =>
      if offered s field value
      then chooseAll cfg rest (handleChipClick cfg field value s)
      else None
  end.

(** *** Entries as the handlers leave them *)

Definition priced (p : Product) : Prop := exists u, price p = Js.Num u.

Definition keyed (o : Obj.t Product) : Prop :=
  Forall (fun kv => slotKey (snd kv) = fst kv) o.

(** Unit price times the quantity of one that every entry stands for. *)
Definition amount (p : Product) : Js.num := Js.mul (price p) (Js.Num 1).

(** *** The invariant of the three chip choices *)

(** Some shaft type of the catalog has handle [t] and belongs to the sport
    [sp]: its one [sportHandle] plays the part of the set of sports. *)
Definition typeServesSport (cfg : Config) (t sp : string) : Prop :=
  exists st,
    In st (shaftTypes (data cfg)) /\ st_handle st = t /\ st_sportHandle st = sp.

Definition sizeIsOfType (cfg : Config) (z t : string) : Prop :=
  exists ss,
    In ss (shaftSizes (data cfg)) /\ ss_handle ss = z /\
    ss_shaftTypeHandle ss = t.

Definition pathInvariant (cfg : Config) (s : State) : Prop :=
  (forall t, shaftType s = Some t ->
     exists sp, sport s = Some sp /\ typeServesSport cfg t sp) /\
  (forall z, shaftSize s = Some z ->
     exists t, shaftType s = Some t /\ sizeIsOfType cfg z t).

Definition chipsInvariant (cfg : Config) (s : State) : Prop :=
  (shaftTypeHidden s = false ->
   forall t, In t (shaftTypeChips s) ->
     exists sp, sport s = Some sp /\ typeServesSport cfg t sp) /\
  (shaftSizeHidden s = false ->
   forall z, In z (shaftSizeChips s) ->
     exists t, shaftType s = Some t /\ sizeIsOfType cfg z t) /\
  (has_shaftTypeChips (template cfg) = false -> shaftTypeChips s = []) /\
  (has_shaftSizeChips (template cfg) = false -> shaftSizeChips s = []).

Definition consistent (cfg : Config) (s : State) : Prop :=
  pathInvariant cfg s /\ chipsInvariant cfg s.

End Legacy.


(* ------------------------------------------------------------------------- *)
(** ** A small catalog and a few cards to run the components on *)
(* ------------------------------------------------------------------------- *)

Module Examples.

(** Accessory cards as the section markup provides them. *)
Definition ball0 : Card :=
  mkCard (Some "ball") (Some "0") (Some "222") (Some "500") None
         (Some "Training ball") None.

Definition ball1 : Card :=
  mkCard (Some "ball") (Some "1") (Some "223") (Some "700") None
         (Some "Heavy ball") None.

Definition pineapple0 : Card :=
  mkCard (Some "pineapple") (Some "0") (Some "333") (Some "1200") None
         (Some "Pineapple") None.

(** A card of a third accessory type. *)
Definition tee0 : Card :=
  mkCard (Some "tee") (Some "0") (Some "444") (Some "1500") None
         (Some "Batting tee") None.

(** A card whose variant id is text that is not a number. *)
Definition stale : Card :=
  mkCard (Some "ball") (Some "0") (Some "abc") (Some "500") None
         (Some "Training ball") None.

(** A card without variant id input. *)
Definition blank : Card :=
  mkCard (Some "ball") (Some "0") None (Some "500") None
         (Some "Training ball") None.

Module B.
Import Builder.

Definition shaft111 : ShaftVariant :=
  mkShaftVariant "111" "29900" (Some "Default Title") (Some "Alloy 31") "".

Definition shaft112 : ShaftVariant :=
  mkShaftVariant "112" "31900" (Some "Stiff") (Some "Alloy 31") "".

Definition catalog : Config :=
  mkConfig
    (mkData
       [mkShaftType "alloy" "Alloy" (Some ["baseball"; "softball"]);
        mkShaftType "wood" "Wood" (Some ["baseball"])]
       [mkShaftSize "31in" "31 in" "alloy" (Some [shaft111; shaft112]);
        mkShaftSize "33in" "33 in" "wood" None])
    (mkTemplate true true true).

Definition clicks : list (string * string) :=
  [("sport", "baseball"); ("shaft-type", "alloy"); ("shaft-size", "31in")].

(** The state after the three choices. *)
Definition chosen : State :=
  handleChipClick catalog "shaft-size" "31in"
    (handleChipClick catalog "shaft-type" "alloy"
       (handleChipClick catalog "sport" "baseball" initial)).

(** ... and with the first shaft selected. *)
Definition withShaft111 : State :=
  handleProductCardClick (shaftCard shaft111) chosen.

(** ... and with a ball in slot [ball-0] on top. *)
Definition withBall : State := handleProductCardClick ball0 withShaft111.

(** The shaft alone, its quantity raised to three by two clicks on [+]. *)
Definition tripled : State :=
  handleQtyChange (Some "shaft") (Some "1")
    (handleQtyChange (Some "shaft") (Some "1") withShaft111).

(** A cart service whose add-items operation answers with a non-ok
    response. *)
Definition refusing : Network :=
  mkNetwork (fun _ => AddResponse false true) (CartResponse (Some 0)).

End B.

Module L.
Import Legacy.

Definition shaft111 : ShaftVariant :=
  mkShaftVariant "111" "29900" (Some "Default Title") (Some "Alloy 31") "".

Definition shaft112 : ShaftVariant :=
  mkShaftVariant "112" "30900" (Some "Default Title") (Some "Alloy 32") "".

Definition catalog : Config :=
  mkConfig
    (mkData
       [mkShaftType "alloy" "Alloy" "baseball"]
       [mkShaftSize "31in" "31 in" "alloy" (Some shaft111);
        mkShaftSize "32in" "32 in" "alloy" (Some shaft112)])
    (mkTemplate true true true).

Definition clicks : list (string * string) :=
  [("sport", "baseball"); ("shaft-type", "alloy"); ("shaft-size", "31in")].

Definition chosen : State :=
  handleChipClick catalog "shaft-size" "31in"
    (handleChipClick catalog "shaft-type" "alloy"
       (handleChipClick catalog "sport" "baseball" initial)).

Definition withShaft111 : State :=
  handleProductCardClick (shaftCard shaft111) chosen.

End L.

End Examples.

(* ------------------------------------------------------------------------- *)
(** ** Utilities: text that goes into the markup *)
(* ------------------------------------------------------------------------- *)

Module Markup.

(** *** Numbers in template literals *)

Definition digitChar (d : Z) : ascii := ascii_of_nat (48 + Z.to_nat d).

(** The decimal digits of [n >= 0] in front of [acc]; [fuel] bounds the
    number of digits. *)
Fixpoint decimal (fuel : nat) (n : Z) (acc : string) : string :=
  match fuel with
  | O => acc
  | S f =>
      let acc' := String (digitChar (n mod 10)) acc in
      if n <? 10 then acc' else decimal f (n / 10) acc'
  end.

(** [`${n}`] for an integer [n] that a number holds exactly and prints
    in full: [|n| < 2^53].  Larger values are outside what this function
    stands for. *)
Definition toString (n : Z) : string :=
  if n <? 0
  then String "-" (decimal (S (Z.to_nat (Z.log2 (- n)))) (- n) EmptyString)
  else decimal (S (Z.to_nat (Z.log2 n))) n EmptyString.

(** *** [escHtml] and [escAttr] *)

(** [s.replace(/c/g, by)] for a one-character pattern. *)
Fixpoint replaceAll (c : ascii) (by_ : string) (s : string) : string :=
  match s with
  | EmptyString => EmptyString
  | String a r =>
      if Ascii.eqb a c then by_ ++ replaceAll c by_ r
      else String a (replaceAll c by_ r)
  end.

Definition amp : ascii := "&"%char.
Definition lt : ascii := "<"%char.
Definition gt : ascii := ">"%char.
Definition dquote : ascii := ascii_of_nat 34.
Definition squote : ascii := ascii_of_nat 39.

Definition escHtml (str : string) : string :=
  replaceAll dquote "&quot;"
    (replaceAll gt "&gt;"
       (replaceAll lt "&lt;"
          (replaceAll amp "&amp;" str))).

Definition escAttr (str : string) : string :=
  replaceAll squote "&#39;" (replaceAll dquote "&quot;" str).

(** What [escHtml] makes of one character, for the statements. *)
Definition escHtmlChar (a : ascii) : string :=
  if Ascii.eqb a amp then "&amp;"
  else if Ascii.eqb a lt then "&lt;"
  else if Ascii.eqb a gt then "&gt;"
  else if Ascii.eqb a dquote then "&quot;"
  else String a EmptyString.

Fixpoint flatMap (f : ascii -> string) (s : string) : string :=
  match s with
  | EmptyString => EmptyString
  | String a r => f a ++ flatMap f r
  end.

(** [c] occurs in [s]. *)
Fixpoint occurs (c : ascii) (s : string) : bool :=
  match s with
  | EmptyString => false
  | String a r => (Ascii.eqb a c || occurs c r)%bool
  end.

(** *** [getImageUrl] *)

(** [[a-z]] under the [i] flag. *)
Definition isLetter (c : ascii) : bool :=
  let n := nat_of_ascii c in
  ((Nat.leb 97 n && Nat.leb n 122) || (Nat.leb 65 n && Nat.leb n 90))%bool.

(** What is left of [s] after its longest run of letters. *)
Fixpoint afterLetters (s : string) : string :=
  match s with
  | String c r => if isLetter c then afterLetters r else s
  | EmptyString => s
  end.

(** [/(\.[a-z]+)(\?|$)/i] matches at a dot when [r], the text after the
    dot, starts with a letter and its run of letters is followed by [?] or
    by the end of the string. *)
Definition extensionAt (r : string) : bool :=
  match r with
  | String c _ =>
      (isLetter c &&
       match afterLetters r with
       | EmptyString => true
       | String q _ => Ascii.eqb q "?"%char
       end)%bool
  | EmptyString => false
  end.

(** [src.replace(/(\.[a-z]+)(\?|$)/i, `${ins}$1$2`)]: the first match from
    the left gets [ins] put in front of it. *)
Fixpoint insertBeforeExtension (ins : string) (src : string) : string :=
  match src with
  | EmptyString => EmptyString
  | String c r =>
      if (Ascii.eqb c "."%char && extensionAt r)%bool then ins ++ src
      else String c (insertBeforeExtension ins r)
  end.

(** The [image] argument: nothing, a string, or an object with [src]. *)
Inductive Image : Type :=
| NoImage
| ImageUrl (url : string)
| ImageObject (src : Js.str).

Definition getImageUrl (image : Image) (size : Z) : string :=
  let src :=
    match image with
    | NoImage => EmptyString
    | ImageUrl url => url
    | ImageObject s => Js.or_str s EmptyString
    end in
  insertBeforeExtension ("_" ++ toString size ++ "x") src.

(** Every character of [s] is a letter. *)
Fixpoint allLetters (s : string) : bool :=
  match s with
  | EmptyString => true
  | String c r => (isLetter c && allLetters r)%bool
  end.

(** [s] is empty or starts with [?]: what may follow an extension. *)
Definition queryOrEnd (s : string) : bool :=
  match s with
  | EmptyString => true
  | String q _ => Ascii.eqb q "?"%char
  end.

(** Some position of [s] is a match of the pattern. *)
Fixpoint hasExtension (s : string) : bool :=
  match s with
  | EmptyString => false
  | String c r =>
      ((Ascii.eqb c "."%char && extensionAt r) || hasExtension r)%bool
  end.

End Markup.

(* ------------------------------------------------------------------------- *)
(** ** The step headings *)
(* ------------------------------------------------------------------------- *)

Module Headings.

(** An entry of [this.data.sportLabels]. *)
Record SportLabel : Type := mkSportLabel {
  sportHandle : string;
  shaftTypeTitle : Js.str;
  shaftSizeTitle : Js.str
}.

(** [textContent] of the two [system-builder__step-title] elements; [None]
    for a heading that is not in the page. *)
Record Titles : Type := mkTitles {
  typeTitle : option string;
  sizeTitle : option string
}.

(** [this.defaultShaftTypeTitle] and [this.defaultShaftSizeTitle], cached by
    [connectedCallback]. *)
Record Defaults : Type := mkDefaults {
  defaultShaftTypeTitle : string;
  defaultShaftSizeTitle : string
}.

(** [labelData?.title || fallback] *)
Definition titleOr (labelData : option SportLabel)
                   (pick : SportLabel -> Js.str) (fallback : string) : string :=
  match labelData with
  | Some l => Js.or_str (pick l) fallback
  | None => fallback
  end.

(** [sportLabels] is [None] while [this.data.sportLabels] is undefined. *)
Definition updateStepTitles (sportLabels : option (list SportLabel))
                            (d : Defaults) (sport : string) (t : Titles)
  : Titles :=
  let labelData :=
    match sportLabels with
    | Some ls => find (fun l => String.eqb (sportHandle l) sport) ls
    | None => None
    end in
  mkTitles
    (match typeTitle t with
     | Some _ => Some (titleOr labelData shaftTypeTitle (defaultShaftTypeTitle d))
     | None => None
     end)
    (match sizeTitle t with
     | Some _ => Some (titleOr labelData shaftSizeTitle (defaultShaftSizeTitle d))
     | None => None
     end).

(** The heading part of [resetBuilder]. *)
Definition resetTitles (d : Defaults) (t : Titles) : Titles :=
  mkTitles
    (match typeTitle t with Some _ => Some (defaultShaftTypeTitle d) | None => None end)
    (match sizeTitle t with Some _ => Some (defaultShaftSizeTitle d) | None => None end).

End Headings.

(* ------------------------------------------------------------------------- *)
(** ** Loading the embedded data *)
(* ------------------------------------------------------------------------- *)

Module Feed.

(** One of the embedded JSON elements: not in the page, in the page with
    text that [JSON.parse] rejects, or in the page with a list. *)
Inductive Payload (A : Type) : Type :=
| Absent
| Malformed
| Parsed (v : list A).

Arguments Absent {A}.
Arguments Malformed {A}.
Arguments Parsed {A} v.

Record Sport : Type := mkSport {
  handle : string;
  label : string
}.

(** [this.data] of the newer component; [sportLabels] is not set by the
    constructor. *)
Record Data : Type := mkData {
  sports : list Sport;
  shaftTypes : list Builder.ShaftType;
  shaftSizes : list Builder.ShaftSize;
  sportLabels : option (list Headings.SportLabel)
}.

(** [this.data] as the constructor leaves it. *)
Definition constructed : Data := mkData [] [] [] None.

(** [el ? JSON.parse(el.textContent) : []]; [None] when [JSON.parse]
    throws. *)
Definition parsed {A : Type} (el : Payload A) : option (list A) :=
  match el with
  | Absent => Some []
  | Malformed => None
  | Parsed v => Some v
  end.

(** The four assignments run in order inside one [try]: the first payload
    that does not parse ends them, and the [catch] only logs. *)
Definition loadData (sportsEl : Payload Sport)
                    (shaftTypesEl : Payload Builder.ShaftType)
                    (shaftSizesEl : Payload Builder.ShaftSize)
                    (sportLabelsEl : Payload Headings.SportLabel)
                    (d : Data) : Data :=
  match parsed sportsEl with
  | None => d
  | Some sp =>
      let d := mkData sp (shaftTypes d) (shaftSizes d) (sportLabels d) in
      match parsed shaftTypesEl with
      | None => d
      | Some ty =>
          let d := mkData (sports d) ty (shaftSizes d) (sportLabels d) in
          match parsed shaftSizesEl with
          | None => d
          | Some sz =>
              let d := mkData (sports d) (shaftTypes d) sz (sportLabels d) in
              match parsed sportLabelsEl with
              | None => d
              | Some ls => mkData (sports d) (shaftTypes d) (shaftSizes d) (Some ls)
              end
          end
      end
  end.

(** The catalog that the chip handlers read. *)
Definition catalogOf (d : Data) : Builder.Data :=
  Builder.mkData (shaftTypes d) (shaftSizes d).

End Feed.

(* ------------------------------------------------------------------------- *)
(** ** Clicks on what is in the page *)
(* ------------------------------------------------------------------------- *)

Module Clicks.
Import Builder.

(** The chip is in the page, shown or not: sport chips always, shaft-type
    and shaft-size chips when the component has written them. *)
Definition inPage (s : State) (field value : string) : bool :=
  if String.eqb field "sport" then true
  else if String.eqb field "shaft-type" then
    existsb (String.eqb value) (shaftTypeChips s)
  else if String.eqb field "shaft-size" then
    existsb (String.eqb value) (shaftSizeChips s)
  else false.

(** Chip, card, remove and quantity clicks. *)
Definition isClick (e : Event) : bool :=
  match e with
  | ResetTimer => false
  | _ => true
  end.

(** States reached from the constructed component by clicks alone, chips
    being clicked only while they are in the page. *)
Inductive reached (cfg : Config) : State -> Prop :=
| reached_initial : reached cfg initial
| reached_step e s :
    reached cfg s ->
    isClick e = true ->
    (forall field value, e = ChipClick field value -> inPage s field value = true) ->
    reached cfg (step cfg e s).

(** The chips in the page agree with the choices made so far, and chips
    exist only inside their container. *)
Definition tied (cfg : Config) (s : State) : Prop :=
  pathInvariant cfg s /\
  (forall t, In t (shaftTypeChips s) ->
     exists sp, sport s = Some sp /\ typeServesSport cfg t sp) /\
  (forall z, In z (shaftSizeChips s) ->
     exists t, shaftType s = Some t /\ sizeIsOfType cfg z t) /\
  (has_shaftTypeChips (template cfg) = false -> shaftTypeChips s = []) /\
  (has_shaftSizeChips (template cfg) = false -> shaftSizeChips s = []).




End Clicks.

(* ------------------------------------------------------------------------- *)
(** * Properties *)
(* ------------------------------------------------------------------------- *)

(** ** Numbers *)

Module JsFacts.

Lemma add_assoc a b c : Js.add (Js.add a b) c = Js.add a (Js.add b c).
Proof.
  destruct a, b, c; simpl; try reflexivity. now rewrite Z.add_assoc.
Qed.

(** [price || 0] is the price when the price is a number. *)
Lemma or_else_zero u : Js.or_else (Js.Num u) (Js.Num 0) = Js.Num u.
Proof.
  unfold Js.or_else, Js.truthy. destruct (Z.eqb_spec u 0); simpl; congruence.
Qed.

(** [quantity || 1] is the quantity when the quantity is at least one. *)
Lemma or_else_one q : 1 <= q -> Js.or_else (Js.Num q) (Js.Num 1) = Js.Num q.
Proof.
  intros H. unfold Js.or_else, Js.truthy.
  destruct (Z.eqb_spec q 0); simpl; [lia | reflexivity].
Qed.

End JsFacts.

(** ** Objects *)

Module ObjFacts.

Section WithValue.
Context {V : Type}.
Implicit Types (o : Obj.t V) (k : string) (v : V).

Lemma get_set_same k v o : Obj.get k (Obj.set k v o) = Some v.
Proof.
  induction o as [|[k' v'] r IH]; simpl.
  - now rewrite String.eqb_refl.
  - destruct (String.eqb k' k) eqn:E; simpl.
    + now rewrite String.eqb_refl.
    + now rewrite E.
Qed.

Lemma get_set_other k k' v o :
  k' <> k -> Obj.get k' (Obj.set k v o) = Obj.get k' o.
Proof.
  intros Hne.
  assert (Hkk : String.eqb k k' = false)
    by (apply String.eqb_neq; congruence).
  induction o as [|[k0 v0] r IH]; simpl.
  - now rewrite Hkk.
  - destruct (String.eqb k0 k) eqn:E; simpl.
    + apply String.eqb_eq in E; subst k0. now rewrite Hkk.
    + now rewrite IH.
Qed.

Lemma get_delete_same k o : Obj.get k (Obj.delete k o) = None.
Proof.
  induction o as [|[k' v'] r IH]; simpl; [reflexivity|].
  destruct (String.eqb k' k) eqn:E; simpl; [assumption|].
  now rewrite E.
Qed.

Lemma get_delete_other k k' o :
  k' <> k -> Obj.get k' (Obj.delete k o) = Obj.get k' o.
Proof.
  intros Hne.
  induction o as [|[k0 v0] r IH]; simpl; [reflexivity|].
  destruct (String.eqb k0 k) eqn:E; simpl.
  - apply String.eqb_eq in E; subst k0.
    assert (String.eqb k k' = false) as ->
      by (apply String.eqb_neq; congruence).
    assumption.
  - now rewrite IH.
Qed.

Lemma delete_absent k o : Obj.get k o = None -> Obj.delete k o = o.
Proof.
  induction o as [|[k' v'] r IH]; simpl; [reflexivity|].
  destruct (String.eqb k' k); [discriminate|].
  intros H. now rewrite IH.
Qed.

(** Setting a fresh key and deleting it again gives the object back, order
    included. *)
Lemma delete_set_absent k v o :
  Obj.get k o = None -> Obj.delete k (Obj.set k v o) = o.
Proof.
  induction o as [|[k' v'] r IH]; simpl.
  - now rewrite String.eqb_refl.
  - destruct (String.eqb k' k) eqn:E; [discriminate|].
    intros H. simpl. rewrite E. now rewrite IH.
Qed.

Lemma delete_set_same k v o :
  Obj.delete k (Obj.set k v o) = Obj.delete k o.
Proof.
  induction o as [|[k' v'] r IH]; simpl.
  - now rewrite String.eqb_refl.
  - destruct (String.eqb k' k) eqn:E; simpl.
    + now rewrite String.eqb_refl.
    + now rewrite E, IH.
Qed.

Lemma delete_delete_same k o :
  Obj.delete k (Obj.delete k o) = Obj.delete k o.
Proof.
  apply delete_absent, get_delete_same.
Qed.

Lemma get_In k v o : Obj.get k o = Some v -> In v (Obj.values o).
Proof.
  induction o as [|[k' v'] r IH]; simpl; [discriminate|].
  destruct (String.eqb k' k).
  - intros [= ->]. now left.
  - intros H. right. now apply IH.
Qed.

Lemma values_set_absent k v o :
  Obj.get k o = None -> Obj.values (Obj.set k v o) = (Obj.values o ++ [v])%list.
Proof.
  induction o as [|[k' v'] r IH]; simpl; [reflexivity|].
  destruct (String.eqb k' k); [discriminate|].
  intros H. unfold Obj.values in *. simpl. now rewrite IH.
Qed.

(** Deleting, one after the other, the keys of [ks] that satisfy [p]. *)
Lemma get_fold_delete (p : string -> bool) ks k o :
  Obj.get k
    (fold_left (fun o key => if p key then Obj.delete key o else o) ks o)
  = if (p k && existsb (String.eqb k) ks)%bool then None else Obj.get k o.
Proof.
  revert o. induction ks as [|key ks IH]; intros o; simpl.
  - now rewrite andb_false_r.
  - rewrite IH. destruct (p k) eqn:Hp; simpl.
    2:{ destruct (p key) eqn:Hq; [|reflexivity].
        apply get_delete_other. intros ->. congruence. }
    destruct (existsb (String.eqb k) ks) eqn:Hex.
    + now rewrite orb_true_r.
    + rewrite orb_false_r. destruct (String.eqb k key) eqn:E.
      * apply String.eqb_eq in E; subst key. rewrite Hp. apply get_delete_same.
      * destruct (p key); [|reflexivity].
        apply get_delete_other. apply String.eqb_neq. assumption.
Qed.

Lemma Forall_delete (P : string * V -> Prop) k o :
  Forall P o -> Forall P (Obj.delete k o).
Proof.
  induction 1 as [|[k' v'] r Hp Hr IH]; simpl; [constructor|].
  destruct (String.eqb k' k); [assumption | now constructor].
Qed.

Lemma Forall_set (P : string * V -> Prop) k v o :
  Forall P o -> P (k, v) -> Forall P (Obj.set k v o).
Proof.
  intros Ho Hv. induction Ho as [|[k' v'] r Hp Hr IH]; simpl.
  - now repeat constructor.
  - destruct (String.eqb k' k); now constructor.
Qed.

Lemma Forall_fold_delete (P : string * V -> Prop) (p : string -> bool) ks o :
  Forall P o ->
  Forall P (fold_left (fun o key => if p key then Obj.delete key o else o) ks o).
Proof.
  revert o. induction ks as [|key ks IH]; intros o Ho; simpl; [assumption|].
  apply IH. destruct (p key); [now apply Forall_delete | assumption].
Qed.

Lemma Forall_get (P : string * V -> Prop) k v o :
  Forall P o -> Obj.get k o = Some v -> P (k, v).
Proof.
  induction 1 as [|[k' v'] r Hp Hr IH]; simpl; [discriminate|].
  destruct (String.eqb k' k) eqn:E; [|assumption].
  apply String.eqb_eq in E; subst k'. now intros [= <-].
Qed.

Lemma get_absent_keys k o :
  existsb (String.eqb k) (Obj.keys o) = false -> Obj.get k o = None.
Proof.
  induction o as [|[k' v'] r IH]; simpl; [reflexivity|].
  rewrite String.eqb_sym. destruct (String.eqb k' k); simpl; [discriminate|].
  exact IH.
Qed.

End WithValue.

End ObjFacts.


(** ** The newer component *)

Module BuilderFacts.
Import Builder.

(** *** What each helper does to [this.selectedProducts] and [this.state] *)

Lemma selected_hideAccessoryPanels s k :
  Obj.get k (selectedProducts (hideAccessoryPanels s))
  = if accessory_key k then None else Obj.get k (selectedProducts s).
Proof.
  unfold hideAccessoryPanels. cbn.
  rewrite ObjFacts.get_fold_delete.
  destruct (accessory_key k); simpl; [|reflexivity].
  destruct (existsb (String.eqb k) _) eqn:E; [reflexivity|].
  now apply ObjFacts.get_absent_keys.
Qed.

Lemma selected_hideShaftProduct cfg s :
  selectedProducts (hideShaftProduct cfg s)
  = Obj.delete "shaft" (selectedProducts s).
Proof.
  unfold hideShaftProduct. now destruct (has_shaftDisplay (template cfg)).
Qed.

Lemma selected_renderShaftTypes cfg s :
  selectedProducts (renderShaftTypes cfg s) = selectedProducts s.
Proof.
  unfold renderShaftTypes. now destruct (has_shaftTypeChips (template cfg)).
Qed.

Lemma selected_renderShaftSizes cfg s :
  selectedProducts (renderShaftSizes cfg s) = selectedProducts s.
Proof.
  unfold renderShaftSizes. now destruct (has_shaftSizeChips (template cfg)).
Qed.

Lemma selected_clearShaftSizeChips cfg s :
  selectedProducts (clearShaftSizeChips cfg s) = selectedProducts s.
Proof.
  unfold clearShaftSizeChips. now destruct (has_shaftSizeChips (template cfg)).
Qed.

(** With the shaft display in the page, every path through
    [renderShaftProduct] deletes the shaft entry; without it, the function
    returns before it gets there. *)
Lemma selected_renderShaftProduct cfg s :
  selectedProducts (renderShaftProduct cfg s)
  = if has_shaftDisplay (template cfg)
    then Obj.delete "shaft" (selectedProducts s)
    else selectedProducts s.
Proof.
  unfold renderShaftProduct, hideShaftProduct.
  destruct (has_shaftDisplay (template cfg)); simpl; [|reflexivity].
  destruct (sizeData cfg s) as [ss|]; [|reflexivity].
  destruct (ss_shafts ss) as [[|v vs]|]; reflexivity.
Qed.

(** The sport branch of [handleChipClick], seen from the selection. *)
Lemma selected_chooseSport cfg value s k :
  Obj.get k (selectedProducts (handleChipClick cfg "sport" value s))
  = if (String.eqb k "shaft" || accessory_key k)%bool then None
    else Obj.get k (selectedProducts s).
Proof.
  unfold handleChipClick. simpl String.eqb. cbv iota.
  rewrite selected_hideAccessoryPanels, selected_hideShaftProduct.
  rewrite selected_clearShaftSizeChips.
  unfold hideStep. simpl String.eqb. cbv iota.
  cbn [selectedProducts with_sizeChips].
  rewrite selected_renderShaftTypes.
  cbn [selectedProducts delete_shaft with_selected with_path].
  destruct (accessory_key k); [now rewrite orb_true_r|].
  rewrite orb_false_r.
  destruct (String.eqb k "shaft") eqn:E.
  - apply String.eqb_eq in E; subst k. apply ObjFacts.get_delete_same.
  - apply String.eqb_neq in E.
    now rewrite !ObjFacts.get_delete_other by assumption.
Qed.

Lemma path_chooseSport cfg value s :
  let s' := handleChipClick cfg "sport" value s in
  sport s' = Some value /\ shaftType s' = None /\ shaftSize s' = None.
Proof.
  unfold handleChipClick, hideAccessoryPanels, hideShaftProduct,
    clearShaftSizeChips, hideStep, renderShaftTypes.
  simpl String.eqb. cbv iota.
  destruct (has_shaftTypeChips (template cfg)),
           (has_shaftSizeChips (template cfg)),
           (has_shaftDisplay (template cfg)); cbn; auto.
Qed.

(** *** The chip choices stay consistent with the catalog *)

Lemma has_sport_true sp st :
  has_sport (Some sp) st = true ->
  exists hs, st_sportHandles st = Some hs /\ In sp hs.
Proof.
  unfold has_sport. destruct (st_sportHandles st) as [hs|]; [|discriminate].
  intros H. apply existsb_exists in H as (x & Hin & Hx).
  apply String.eqb_eq in Hx; subst x. eauto.
Qed.

Lemma typeChips_serve cfg sp t :
  In t (map st_handle (filter (has_sport (Some sp)) (shaftTypes (data cfg)))) ->
  typeServesSport cfg t sp.
Proof.
  intros H. apply in_map_iff in H as (st & Ht & Hin).
  apply filter_In in Hin as [Hin Hs].
  apply has_sport_true in Hs as (hs & Hhs & Hsp).
  exists st, hs. auto.
Qed.

Lemma sizeChips_of_type cfg t z :
  In z (map ss_handle (filter (of_type (Some t)) (shaftSizes (data cfg)))) ->
  sizeIsOfType cfg z t.
Proof.
  intros H. apply in_map_iff in H as (ss & Hz & Hin).
  apply filter_In in Hin as [Hin Ht].
  apply String.eqb_eq in Ht. exists ss. auto.
Qed.

Lemma In_existsb_eqb v l : existsb (String.eqb v) l = true -> In v l.
Proof.
  intros H. apply existsb_exists in H as (x & Hin & Hx).
  apply String.eqb_eq in Hx. now subst x.
Qed.

Lemma consistent_initial cfg : consistent cfg initial.
Proof.
  repeat split; cbn; intros; try discriminate; try contradiction; reflexivity.
Qed.

Lemma consistent_same_path cfg s s' :
  sport s' = sport s -> shaftType s' = shaftType s ->
  shaftSize s' = shaftSize s ->
  shaftTypeChips s' = shaftTypeChips s ->
  shaftSizeChips s' = shaftSizeChips s ->
  shaftTypeHidden s' = shaftTypeHidden s ->
  shaftSizeHidden s' = shaftSizeHidden s ->
  consistent cfg s -> consistent cfg s'.
Proof.
  unfold consistent, pathInvariant, chipsInvariant.
  intros -> -> -> -> -> -> ->. trivial.
Qed.

Lemma consistent_chooseSport cfg value s :
  consistent cfg s -> consistent cfg (handleChipClick cfg "sport" value s).
Proof.
  intros (_ & _ & _ & Hno_t & Hno_z).
  unfold consistent, pathInvariant, chipsInvariant.
  unfold handleChipClick, hideAccessoryPanels, hideShaftProduct,
    clearShaftSizeChips, hideStep, renderShaftTypes.
  simpl String.eqb. cbv iota.
  destruct (has_shaftTypeChips (template cfg)) eqn:Ht,
           (has_shaftSizeChips (template cfg)) eqn:Hz,
           (has_shaftDisplay (template cfg)); cbn;
    repeat split; intros; try discriminate; try contradiction; auto;
    try (eexists; split; [reflexivity|]; now apply typeChips_serve).
  all: try (rewrite Hno_t in * by reflexivity; contradiction).
Qed.

Lemma consistent_chooseShaftType cfg value s :
  offered s "shaft-type" value = true ->
  consistent cfg s -> consistent cfg (handleChipClick cfg "shaft-type" value s).
Proof.
  unfold offered. simpl String.eqb. cbv iota.
  intros Hoff (Hpath & Hty & Hsz & Hno_t & Hno_z).
  apply andb_true_iff in Hoff as [Hvis Hin].
  apply negb_true_iff in Hvis. apply In_existsb_eqb in Hin.
  destruct (Hty Hvis _ Hin) as (sp & Hsp & Hserve).
  unfold consistent, pathInvariant, chipsInvariant.
  unfold handleChipClick, hideAccessoryPanels, hideShaftProduct,
    renderShaftSizes.
  simpl String.eqb. cbv iota.
  destruct (has_shaftSizeChips (template cfg)) eqn:Hz,
           (has_shaftDisplay (template cfg)); cbn;
    repeat split; intros; try discriminate; auto.
  all: try match goal with
           | H : Some _ = Some _ |- _ => injection H as <-
           end; eauto.
  all: try (eexists; split; [reflexivity|]; now apply sizeChips_of_type).
  all: try (rewrite Hno_z in * by reflexivity; contradiction).
Qed.

Lemma consistent_chooseShaftSize cfg value s :
  offered s "shaft-size" value = true ->
  consistent cfg s -> consistent cfg (handleChipClick cfg "shaft-size" value s).
Proof.
  unfold offered. simpl String.eqb. cbv iota.
  intros Hoff (Hpath & Hty & Hsz & Hno_t & Hno_z).
  apply andb_true_iff in Hoff as [Hvis Hin].
  apply negb_true_iff in Hvis. apply In_existsb_eqb in Hin.
  destruct (Hsz Hvis _ Hin) as (t & Ht & Hof).
  destruct Hpath as [Hp1 Hp2].
  unfold consistent, pathInvariant, chipsInvariant.
  unfold handleChipClick, showAccessoryPanels, renderShaftProduct,
    hideShaftProduct.
  simpl String.eqb. cbv iota.
  destruct (has_shaftDisplay (template cfg)); cbn [negb].
  - destruct (sizeData cfg _) as [ss|]; [destruct (ss_shafts ss) as [[|v vs]|]|];
      cbn; repeat split; intros; auto;
      match goal with
      | H : Some _ = Some _ |- _ => injection H as <-; eauto
      end.
  - cbn; repeat split; intros; auto.
    match goal with
    | H : Some _ = Some _ |- _ => injection H as <-; eauto
    end.
Qed.

(** Every offered chip click keeps the choices consistent. *)
Lemma consistent_handleChipClick cfg field value s :
  offered s field value = true ->
  consistent cfg s -> consistent cfg (handleChipClick cfg field value s).
Proof.
  intros Hoff Hs.
  destruct (String.eqb field "sport") eqn:E1.
  { apply String.eqb_eq in E1; subst. now apply consistent_chooseSport. }
  destruct (String.eqb field "shaft-type") eqn:E2.
  { apply String.eqb_eq in E2; subst. now apply consistent_chooseShaftType. }
  destruct (String.eqb field "shaft-size") eqn:E3.
  { apply String.eqb_eq in E3; subst. now apply consistent_chooseShaftSize. }
  unfold handleChipClick. now rewrite E1, E2, E3.
Qed.

Lemma consistent_chooseAll cfg clicks :
  forall s s', consistent cfg s -> chooseAll cfg clicks s = Some s' ->
               consistent cfg s'.
Proof.
  induction clicks as [|[field value] rest IH]; intros s s' Hs; simpl.
  - now intros [= <-].
  - destruct (offered s field value) eqn:Hoff; [|discriminate].
    apply IH. now apply consistent_handleChipClick.
Qed.

Lemma consistent_handleProductCardClick cfg card s :
  consistent cfg s -> consistent cfg (handleProductCardClick card s).
Proof.
  apply consistent_same_path; unfold handleProductCardClick, delete_shaft;
    destruct (negb (Js.truthy_str (variantId card)));
    destruct (Js.str_is (productType card) "shaft");
    repeat match goal with
           | |- context [match ?x with _ => _ end] => destruct x
           end; reflexivity.
Qed.

Lemma consistent_handleRemoveFromSummary cfg k s :
  consistent cfg s -> consistent cfg (handleRemoveFromSummary k s).
Proof.
  apply consistent_same_path; destruct k as [[|c r]|]; reflexivity.
Qed.

Lemma consistent_handleQtyChange cfg k d s :
  consistent cfg s -> consistent cfg (handleQtyChange k d s).
Proof.
  apply consistent_same_path; unfold handleQtyChange;
    destruct k as [[|c r]|]; try reflexivity;
    destruct (Obj.get _ _); try reflexivity;
    destruct (Js.lt _ _); reflexivity.
Qed.

(** *** Entries stay under their key, with a quantity of at least one *)

Lemma entry_ok_productOf card key : entry_ok (key, productOf card key).
Proof. split; [reflexivity|]. exists 1. now split. Qed.

Lemma entries_handleProductCardClick card s :
  Forall entry_ok (selectedProducts s) ->
  Forall entry_ok (selectedProducts (handleProductCardClick card s)).
Proof.
  intros Hs. unfold handleProductCardClick, delete_shaft.
  destruct (negb (Js.truthy_str (variantId card))); [assumption|].
  destruct (Js.str_is (productType card) "shaft").
  - destruct (match Obj.get "shaft" (selectedProducts s) with
              | Some p0 => _ | None => _ end); cbn.
    + now apply ObjFacts.Forall_delete.
    + apply ObjFacts.Forall_set; [assumption | apply entry_ok_productOf].
  - destruct (Obj.get (accessorySlotKey card) (selectedProducts s)); cbn.
    + now apply ObjFacts.Forall_delete.
    + apply ObjFacts.Forall_set; [assumption | apply entry_ok_productOf].
Qed.

Lemma entries_handleQtyChange slot dtxt d s :
  Js.parseInt_str dtxt = Js.Num d ->
  Forall entry_ok (selectedProducts s) ->
  Forall entry_ok (selectedProducts (handleQtyChange slot dtxt s)).
Proof.
  intros Hd Hs. unfold handleQtyChange.
  destruct slot as [[|c r]|]; try assumption.
  destruct (Obj.get (String c r) (selectedProducts s)) as [p|] eqn:Hp;
    [|assumption].
  destruct (ObjFacts.Forall_get _ _ _ _ Hs Hp) as (Hkey & q & Hq & Hge).
  cbn in Hkey, Hq. rewrite Hq, Hd, JsFacts.or_else_one by assumption. cbn.
  destruct (Z.ltb_spec (q + d) 1); [assumption|]. cbn.
  apply ObjFacts.Forall_set; [assumption|].
  split; [exact Hkey|]. exists (q + d). split; [reflexivity | lia].
Qed.

Lemma entries_hideAccessoryPanels s :
  Forall entry_ok (selectedProducts s) ->
  Forall entry_ok (selectedProducts (hideAccessoryPanels s)).
Proof.
  intros Hs. unfold hideAccessoryPanels. cbn.
  now apply ObjFacts.Forall_fold_delete.
Qed.

Lemma entries_handleChipClick cfg field value s :
  Forall entry_ok (selectedProducts s) ->
  Forall entry_ok (selectedProducts (handleChipClick cfg field value s)).
Proof.
  intros Hs. unfold handleChipClick.
  destruct (String.eqb field "sport").
  { apply entries_hideAccessoryPanels.
    rewrite selected_hideShaftProduct, selected_clearShaftSizeChips.
    unfold hideStep. simpl String.eqb. cbv iota.
    cbn [selectedProducts with_sizeChips].
    rewrite selected_renderShaftTypes. cbn.
    now repeat apply ObjFacts.Forall_delete. }
  destruct (String.eqb field "shaft-type").
  { apply entries_hideAccessoryPanels.
    rewrite selected_hideShaftProduct, selected_renderShaftSizes. cbn.
    now repeat apply ObjFacts.Forall_delete. }
  destruct (String.eqb field "shaft-size"); [|assumption].
  unfold showAccessoryPanels. cbn [selectedProducts with_accessoriesHidden].
  rewrite selected_renderShaftProduct.
  destruct (has_shaftDisplay (template cfg)); cbn;
    [now apply ObjFacts.Forall_delete | assumption].
Qed.

(** In every reachable state each entry carries its own key as [slotKey] and
    a quantity of at least one. *)
Lemma reachable_entries cfg s :
  reachable cfg s -> Forall entry_ok (selectedProducts s).
Proof.
  induction 1 as [|e s Hr IH _ Hqty].
  - constructor.
  - destruct e; cbn [step].
    + now apply entries_handleChipClick.
    + now apply entries_handleProductCardClick.
    + unfold handleRemoveFromSummary.
      destruct summaryRemove as [[|c r]|]; cbn; try assumption.
      now apply ObjFacts.Forall_delete.
    + destruct (Hqty _ _ eq_refl) as [-> | ->].
      * now apply (entries_handleQtyChange _ _ (-1)).
      * now apply (entries_handleQtyChange _ _ 1).
    + unfold resetBuilder. apply entries_hideAccessoryPanels.
      rewrite selected_hideShaftProduct, selected_clearShaftSizeChips.
      cbn. constructor.
Qed.

End BuilderFacts.


(** ** The older component *)

Module LegacyFacts.
Import Legacy.

Lemma legacy_selected_hideAccessoryPanels s k :
  Obj.get k (selectedProducts (hideAccessoryPanels s))
  = if accessory_key k then None else Obj.get k (selectedProducts s).
Proof.
  unfold hideAccessoryPanels. cbn.
  rewrite ObjFacts.get_fold_delete.
  destruct (accessory_key k); simpl; [|reflexivity].
  destruct (existsb (String.eqb k) _) eqn:E; [reflexivity|].
  now apply ObjFacts.get_absent_keys.
Qed.

(** When the chosen size has a shaft and the display is in the page,
    [renderShaftProduct] draws the card and leaves the selection alone. *)
Lemma legacy_selected_renderShaftProduct cfg s ss v :
  sizeData cfg s = Some ss -> ss_shaft ss = Some v ->
  selectedProducts (renderShaftProduct cfg s) = selectedProducts s.
Proof.
  intros Hss Hv. unfold renderShaftProduct.
  destruct (has_shaftDisplay (template cfg)); simpl; [|reflexivity].
  now rewrite Hss, Hv.
Qed.

Lemma legacy_typeChips_serve cfg sp t :
  In t (map st_handle (filter (has_sport (Some sp)) (shaftTypes (data cfg)))) ->
  typeServesSport cfg t sp.
Proof.
  intros H. apply in_map_iff in H as (st & Ht & Hin).
  apply filter_In in Hin as [Hin Hs].
  apply String.eqb_eq in Hs. exists st. auto.
Qed.

Lemma legacy_sizeChips_of_type cfg t z :
  In z (map ss_handle (filter (of_type (Some t)) (shaftSizes (data cfg)))) ->
  sizeIsOfType cfg z t.
Proof.
  intros H. apply in_map_iff in H as (ss & Hz & Hin).
  apply filter_In in Hin as [Hin Ht].
  apply String.eqb_eq in Ht. exists ss. auto.
Qed.

Lemma legacy_consistent_initial cfg : consistent cfg initial.
Proof.
  repeat split; cbn; intros; try discriminate; try contradiction; reflexivity.
Qed.

Lemma legacy_consistent_chooseSport cfg value s :
  consistent cfg s -> consistent cfg (handleChipClick cfg "sport" value s).
Proof.
  intros (_ & _ & _ & Hno_t & Hno_z).
  unfold consistent, pathInvariant, chipsInvariant.
  unfold handleChipClick, hideAccessoryPanels, hideShaftProduct,
    clearShaftSizeChips, hideStep, renderShaftTypes.
  simpl String.eqb. cbv iota.
  destruct (has_shaftTypeChips (template cfg)) eqn:Ht,
           (has_shaftSizeChips (template cfg)) eqn:Hz,
           (has_shaftDisplay (template cfg)); cbn;
    repeat split; intros; try discriminate; try contradiction; auto;
    try (eexists; split; [reflexivity|]; now apply legacy_typeChips_serve).
  all: try (rewrite Hno_t in * by reflexivity; contradiction).
Qed.

Lemma legacy_consistent_chooseShaftType cfg value s :
  offered s "shaft-type" value = true ->
  consistent cfg s -> consistent cfg (handleChipClick cfg "shaft-type" value s).
Proof.
  unfold offered. simpl String.eqb. cbv iota.
  intros Hoff (Hpath & Hty & Hsz & Hno_t & Hno_z).
  apply andb_true_iff in Hoff as [Hvis Hin].
  apply negb_true_iff in Hvis. apply BuilderFacts.In_existsb_eqb in Hin.
  destruct (Hty Hvis _ Hin) as (sp & Hsp & Hserve).
  unfold consistent, pathInvariant, chipsInvariant.
  unfold handleChipClick, hideAccessoryPanels, hideShaftProduct,
    renderShaftSizes.
  simpl String.eqb. cbv iota.
  destruct (has_shaftSizeChips (template cfg)) eqn:Hz,
           (has_shaftDisplay (template cfg)); cbn;
    repeat split; intros; try discriminate; auto.
  all: try match goal with
           | H : Some _ = Some _ |- _ => injection H as <-
           end; eauto.
  all: try (eexists; split; [reflexivity|]; now apply legacy_sizeChips_of_type).
  all: try (rewrite Hno_z in * by reflexivity; contradiction).
Qed.

Lemma legacy_consistent_chooseShaftSize cfg value s :
  offered s "shaft-size" value = true ->
  consistent cfg s -> consistent cfg (handleChipClick cfg "shaft-size" value s).
Proof.
  unfold offered. simpl String.eqb. cbv iota.
  intros Hoff (Hpath & Hty & Hsz & Hno_t & Hno_z).
  apply andb_true_iff in Hoff as [Hvis Hin].
  apply negb_true_iff in Hvis. apply BuilderFacts.In_existsb_eqb in Hin.
  destruct (Hsz Hvis _ Hin) as (t & Ht & Hof).
  destruct Hpath as [Hp1 Hp2].
  unfold consistent, pathInvariant, chipsInvariant.
  unfold handleChipClick, showAccessoryPanels, renderShaftProduct,
    hideShaftProduct.
  simpl String.eqb. cbv iota.
  destruct (has_shaftDisplay (template cfg)); cbn [negb].
  - destruct (sizeData cfg _) as [ss|]; [destruct (ss_shaft ss) as [v|]|];
      cbn; repeat split; intros; auto;
      match goal with
      | H : Some _ = Some _ |- _ => injection H as <-; eauto
      end.
  - cbn; repeat split; intros; auto.
    match goal with
    | H : Some _ = Some _ |- _ => injection H as <-; eauto
    end.
Qed.

Lemma legacy_consistent_handleChipClick cfg field value s :
  offered s field value = true ->
  consistent cfg s -> consistent cfg (handleChipClick cfg field value s).
Proof.
  intros Hoff Hs.
  destruct (String.eqb field "sport") eqn:E1.
  { apply String.eqb_eq in E1; subst. now apply legacy_consistent_chooseSport. }
  destruct (String.eqb field "shaft-type") eqn:E2.
  { apply String.eqb_eq in E2; subst. now apply legacy_consistent_chooseShaftType. }
  destruct (String.eqb field "shaft-size") eqn:E3.
  { apply String.eqb_eq in E3; subst. now apply legacy_consistent_chooseShaftSize. }
  unfold handleChipClick. now rewrite E1, E2, E3.
Qed.

Lemma legacy_consistent_chooseAll cfg clicks :
  forall s s', consistent cfg s -> chooseAll cfg clicks s = Some s' ->
               consistent cfg s'.
Proof.
  induction clicks as [|[field value] rest IH]; intros s s' Hs; simpl.
  - now intros [= <-].
  - destruct (offered s field value) eqn:Hoff; [|discriminate].
    apply IH. now apply legacy_consistent_handleChipClick.
Qed.

End LegacyFacts.


(* ------------------------------------------------------------------------- *)
(** * The statements of the specification *)
(* ------------------------------------------------------------------------- *)

(** ** Choosing a shaft size *)

(** In the newer component, with the shaft display in the page, choosing a
    shaft size leaves no entry under ["shaft"], whatever was selected before
    and whatever the new size offers. *)
Lemma chooseShaftSize_clears_shaft cfg value s :
  Builder.has_shaftDisplay (Builder.template cfg) = true ->
  Obj.get "shaft"
    (Builder.selectedProducts (Builder.handleChipClick cfg "shaft-size" value s))
  = None.
Proof.
  intros Hd. unfold Builder.handleChipClick. simpl String.eqb. cbv iota.
  unfold Builder.showAccessoryPanels. cbn [Builder.selectedProducts
    Builder.with_accessoriesHidden].
  rewrite BuilderFacts.selected_renderShaftProduct, Hd.
  apply ObjFacts.get_delete_same.
Qed.

(** Without the shaft display, [renderShaftProduct] returns before the
    [delete] and the selection is as it was. *)
Lemma chooseShaftSize_without_display cfg value s :
  Builder.has_shaftDisplay (Builder.template cfg) = false ->
  Builder.selectedProducts (Builder.handleChipClick cfg "shaft-size" value s)
  = Builder.selectedProducts s.
Proof.
  intros Hd. unfold Builder.handleChipClick. simpl String.eqb. cbv iota.
  unfold Builder.showAccessoryPanels. cbn [Builder.selectedProducts
    Builder.with_accessoriesHidden].
  now rewrite BuilderFacts.selected_renderShaftProduct, Hd.
Qed.

(** In the older component a change of size that finds a shaft for the new
    size keeps the whole selection, the entry under ["shaft"] included. *)
Lemma legacy_chooseShaftSize_keeps_selection cfg value s ss v :
  find (fun ss => String.eqb (Legacy.ss_handle ss) value)
       (Legacy.shaftSizes (Legacy.data cfg)) = Some ss ->
  Legacy.ss_shaft ss = Some v ->
  Legacy.selectedProducts (Legacy.handleChipClick cfg "shaft-size" value s)
  = Legacy.selectedProducts s.
Proof.
  intros Hss Hv. unfold Legacy.handleChipClick. simpl String.eqb. cbv iota.
  unfold Legacy.showAccessoryPanels.
  cbn [Legacy.selectedProducts Legacy.with_accessoriesHidden].
  now rewrite (LegacyFacts.legacy_selected_renderShaftProduct _ _ ss v).
Qed.

(** C1, on [assets/system-builder.js]: with the shaft of size [31in]
    selected, clicking the offered chip of size [32in] shows the card of
    variant 112 and keeps the entry of variant 111 under ["shaft"]: the
    older [renderShaftProduct] has no [delete this.selectedProducts.shaft]
    on this path. *)
Theorem legacy_size_change_keeps_shaft :
  let s := Examples.L.withShaft111 in
  let s' := Legacy.handleChipClick Examples.L.catalog "shaft-size" "32in" s in
  Legacy.offered s "shaft-size" "32in" = true /\
  Legacy.shaftSize s' = Some "32in" /\
  option_map variantId (hd_error (Legacy.shaftCards s')) = Some (Some "112") /\
  option_map Legacy.id (Obj.get "shaft" (Legacy.selectedProducts s'))
  = Some (Js.Num 111).
Proof. vm_compute. repeat split. Qed.

(** ** The chip choices *)

(** C2: after every sequence of clicks on offered sport, shaft-type and
    shaft-size chips, a chosen shaft type comes with a chosen sport that the
    shaft type lists, and a chosen shaft size comes with a chosen shaft type
    that the size belongs to.  This holds in both components. *)
Theorem path_invariant_after_clicks :
  (forall cfg clicks s,
      Builder.chooseAll cfg clicks Builder.initial = Some s ->
      Builder.pathInvariant cfg s) /\
  (forall cfg clicks s,
      Legacy.chooseAll cfg clicks Legacy.initial = Some s ->
      Legacy.pathInvariant cfg s).
Proof.
  split; intros cfg clicks s H.
  - eapply BuilderFacts.consistent_chooseAll in H; [apply H|].
    apply BuilderFacts.consistent_initial.
  - eapply LegacyFacts.legacy_consistent_chooseAll in H; [apply H|].
    apply LegacyFacts.legacy_consistent_initial.
Qed.

Lemma path_invariant_after_clicks_witness :
  Builder.pathInvariant Examples.B.catalog Examples.B.chosen /\
  Legacy.pathInvariant Examples.L.catalog Examples.L.chosen.
Proof.
  split.
  - apply (proj1 path_invariant_after_clicks
             Examples.B.catalog Examples.B.clicks Examples.B.chosen).
    vm_compute. reflexivity.
  - apply (proj2 path_invariant_after_clicks
             Examples.L.catalog Examples.L.clicks Examples.L.chosen).
    vm_compute. reflexivity.
Defined.

(** ** Choosing a sport *)

(** A card of an accessory type other than ball and pineapple gets the slot
    key ["tee-0"]; its entry survives a change of sport. *)
Lemma chooseSport_keeps_other_accessory :
  let s := Builder.handleProductCardClick Examples.tee0 Examples.B.withBall in
  let s' := Builder.handleChipClick Examples.B.catalog "sport" "softball" s in
  Builder.accessorySlotKey Examples.tee0 = "tee-0" /\
  Obj.get "ball-0" (Builder.selectedProducts s') = None /\
  Obj.get "tee-0" (Builder.selectedProducts s') <> None.
Proof. vm_compute. repeat split. discriminate. Qed.

(** C3, amended: choosing a sport sets the sport, resets shaft type and
    shaft size, removes the shaft entry and every entry whose key starts
    with ["ball-"] or ["pineapple-"] (so every slot of a ball or pineapple
    card), and leaves every other entry as it was. *)
Theorem chooseSport_resets_downstream cfg value s :
  let s' := Builder.handleChipClick cfg "sport" value s in
  Builder.sport s' = Some value /\
  Builder.shaftType s' = None /\
  Builder.shaftSize s' = None /\
  Obj.get "shaft" (Builder.selectedProducts s') = None /\
  (forall k, Builder.accessory_key k = true ->
             Obj.get k (Builder.selectedProducts s') = None) /\
  (forall card,
      productType card = Some "ball" \/ productType card = Some "pineapple" ->
      Obj.get (Builder.accessorySlotKey card) (Builder.selectedProducts s')
      = None) /\
  (forall k, k <> "shaft" -> Builder.accessory_key k = false ->
             Obj.get k (Builder.selectedProducts s')
             = Obj.get k (Builder.selectedProducts s)).
Proof.
  intros s'.
  destruct (BuilderFacts.path_chooseSport cfg value s) as (H1 & H2 & H3).
  repeat split; try assumption; subst s'.
  - now rewrite BuilderFacts.selected_chooseSport.
  - intros k Hk. rewrite BuilderFacts.selected_chooseSport, Hk.
    now rewrite orb_true_r.
  - intros card Hc. rewrite BuilderFacts.selected_chooseSport.
    assert (Builder.accessory_key (Builder.accessorySlotKey card) = true) as ->.
    { unfold Builder.accessorySlotKey, Builder.accessory_key, Js.startsWith.
      destruct Hc as [-> | ->]; cbn;
        now destruct (Js.template (productIndex card)). }
    now rewrite orb_true_r.
  - intros k Hk Ha. rewrite BuilderFacts.selected_chooseSport, Ha.
    apply String.eqb_neq in Hk. now rewrite Hk.
Qed.


Lemma chooseSport_resets_downstream_witness :
  let s' :=
    Builder.handleChipClick Examples.B.catalog "sport" "softball"
                            Examples.B.withBall in
  Builder.sport s' = Some "softball" /\
  Obj.get "shaft" (Builder.selectedProducts s') = None /\
  Obj.get "ball-0" (Builder.selectedProducts s') = None /\
  Builder.selectedProducts s' = [].
Proof.
  destruct (chooseSport_resets_downstream
              Examples.B.catalog "softball" Examples.B.withBall)
    as (Hs & _ & _ & Hshaft & _ & Hcard & _).
  split; [exact Hs|]. split; [exact Hshaft|].
  split; [|vm_compute; reflexivity].
  apply (Hcard Examples.ball0). left. reflexivity.
Defined.

(** ** Toggling the shaft *)




(** ** Toggling an accessory *)

(** C5: a click on an accessory card changes nothing but the entry under the
    card's own slot key: every other key reads as before, and what remains
    of the object once that key is taken out is the same, order included.
    For a card of slot ["ball-0"] the entries under ["ball-1"] and
    ["pineapple-0"] are therefore as they were. *)
Theorem accessory_toggle_frame card s :
  Js.str_is (productType card) "shaft" = false ->
  let key := Builder.accessorySlotKey card in
  let s' := Builder.handleProductCardClick card s in
  (forall k, k <> key ->
             Obj.get k (Builder.selectedProducts s')
             = Obj.get k (Builder.selectedProducts s)) /\
  Obj.delete key (Builder.selectedProducts s')
  = Obj.delete key (Builder.selectedProducts s) /\
  (key = "ball-0" ->
   Obj.get "ball-1" (Builder.selectedProducts s')
   = Obj.get "ball-1" (Builder.selectedProducts s) /\
   Obj.get "pineapple-0" (Builder.selectedProducts s')
   = Obj.get "pineapple-0" (Builder.selectedProducts s)).
Proof.
  intros Hacc key s'.
  assert (Hsel :
      Builder.selectedProducts s' = Builder.selectedProducts s \/
      Builder.selectedProducts s' = Obj.delete key (Builder.selectedProducts s) \/
      Builder.selectedProducts s'
      = Obj.set key (Builder.productOf card key) (Builder.selectedProducts s)).
  { subst s'. unfold Builder.handleProductCardClick. rewrite Hacc.
    destruct (negb (Js.truthy_str (variantId card))); [now left|].
    fold key. destruct (Obj.get key (Builder.selectedProducts s)); cbn; auto. }
  assert (Hframe : forall k, k <> key ->
             Obj.get k (Builder.selectedProducts s')
             = Obj.get k (Builder.selectedProducts s)).
  { intros k Hk. destruct Hsel as [-> | [-> | ->]].
    - reflexivity.
    - now apply ObjFacts.get_delete_other.
    - now apply ObjFacts.get_set_other. }
  split; [exact Hframe|split].
  - destruct Hsel as [-> | [-> | ->]].
    + reflexivity.
    + apply ObjFacts.delete_delete_same.
    + apply ObjFacts.delete_set_same.
  - intros Hk. split; apply Hframe; rewrite Hk; discriminate.
Qed.

Lemma accessory_toggle_frame_witness :
  let s := Builder.handleProductCardClick Examples.pineapple0
             (Builder.handleProductCardClick Examples.ball1 Examples.B.withBall) in
  let s' := Builder.handleProductCardClick Examples.ball0 s in
  Obj.get "ball-0" (Builder.selectedProducts s) <> None /\
  Obj.get "ball-0" (Builder.selectedProducts s') = None /\
  Obj.get "ball-1" (Builder.selectedProducts s')
  = Obj.get "ball-1" (Builder.selectedProducts s) /\
  Obj.get "pineapple-0" (Builder.selectedProducts s')
  = Obj.get "pineapple-0" (Builder.selectedProducts s).
Proof.
  intros s s'.
  split; [vm_compute; discriminate|].
  split; [vm_compute; reflexivity|].
  apply (accessory_toggle_frame Examples.ball0 s); reflexivity.
Defined.

(** ** Clicks that carry no variant id *)

(** C8: when the card has no variant id input, or the input is empty, the
    click handler returns at once; the whole state, selection included, is
    what it was.  Both components. *)
Theorem toggle_without_variant_id card :
  Js.truthy_str (variantId card) = false ->
  (forall s, Builder.handleProductCardClick card s = s) /\
  (forall s, Legacy.handleProductCardClick card s = s).
Proof.
  intros H. split; intros s.
  - unfold Builder.handleProductCardClick. now rewrite H.
  - unfold Legacy.handleProductCardClick. now rewrite H.
Qed.

Lemma toggle_without_variant_id_witness :
  Builder.handleProductCardClick Examples.blank Examples.B.withBall
  = Examples.B.withBall.
Proof.
  apply (proj1 (toggle_without_variant_id Examples.blank eq_refl)).
Defined.


(** ** The summary *)

Lemma builder_lineOf_priced p :
  Builder.priced p ->
  Builder.lineOf p
  = Builder.mkLine (Builder.slotKey p) (Builder.title p) (Builder.quantity p)
                   (Builder.amount p).
Proof.
  intros (u & q & Hu & Hq & Hge).
  unfold Builder.lineOf, Builder.amount. rewrite Hu, Hq.
  now rewrite JsFacts.or_else_zero, JsFacts.or_else_one.
Qed.

Lemma builder_total_priced l :
  Forall Builder.priced l ->
  forall acc,
    fold_left
      (fun sum p =>
         Js.add sum (Js.mul (Js.or_else (Builder.price p) (Js.Num 0))
                            (Js.or_else (Builder.quantity p) (Js.Num 1))))
      l acc
    = Js.add acc (Js.total (map Builder.amount l)).
Proof.
  induction 1 as [|p r (u & q & Hu & Hq & Hge) Hr IH]; intros acc; simpl.
  - destruct acc; simpl; [now rewrite Z.add_0_r | reflexivity].
  - rewrite IH, JsFacts.add_assoc. unfold Builder.amount at 2.
    rewrite Hu, Hq. now rewrite JsFacts.or_else_zero, JsFacts.or_else_one.
Qed.

Lemma legacy_total_priced l :
  Forall Legacy.priced l ->
  forall acc,
    fold_left
      (fun sum p => Js.add sum (Js.or_else (Legacy.price p) (Js.Num 0))) l acc
    = Js.add acc (Js.total (map Legacy.amount l)).
Proof.
  induction 1 as [|p r [u Hu] Hr IH]; intros acc; simpl.
  - destruct acc; simpl; [now rewrite Z.add_0_r | reflexivity].
  - rewrite IH, JsFacts.add_assoc. unfold Legacy.amount at 2.
    rewrite Hu, JsFacts.or_else_zero. simpl. now rewrite Z.mul_1_r.
Qed.

Lemma keyed_keys {P : Type} (slot : P -> string) (o : Obj.t P) :
  Forall (fun kv => slot (snd kv) = fst kv) o ->
  map slot (Obj.values o) = Obj.keys o.
Proof.
  unfold Obj.values, Obj.keys.
  induction 1 as [|[k p] r Hk Hr IH]; simpl in *; [reflexivity|].
  now rewrite Hk, IH.
Qed.

(** C6: the summary is computed from [this.selectedProducts] and nothing
    else, so two states with the same selection have the same summary.  On
    a selection whose entries have a numeric price and a quantity of at
    least one, there is one line per entry, in the order of the object, with
    the amount unit price times quantity; the total is the sum of these
    amounts; the item count is the number of entries, whatever their
    quantities.  The older component has no quantities: its lines and its
    total count every entry once. *)
Theorem summary_of_selection :
  (forall s,
      Forall Builder.priced (Obj.values (Builder.selectedProducts s)) ->
      Builder.keyed (Builder.selectedProducts s) ->
      let sm := Builder.updateSummary s in
      Builder.lines sm
      = map (fun p => Builder.mkLine (Builder.slotKey p) (Builder.title p)
                        (Builder.quantity p)
                        (Js.mul (Builder.price p) (Builder.quantity p)))
            (Obj.values (Builder.selectedProducts s)) /\
      map Builder.l_slotKey (Builder.lines sm)
      = Obj.keys (Builder.selectedProducts s) /\
      Builder.grandTotal sm
      = Js.total (map (fun p => Js.mul (Builder.price p) (Builder.quantity p))
                      (Obj.values (Builder.selectedProducts s))) /\
      Builder.itemCount sm = List.length (Obj.keys (Builder.selectedProducts s)) /\
      (forall s', Builder.selectedProducts s' = Builder.selectedProducts s ->
                  Builder.updateSummary s' = sm)) /\
  (forall s,
      Forall Legacy.priced (Obj.values (Legacy.selectedProducts s)) ->
      Legacy.keyed (Legacy.selectedProducts s) ->
      let sm := Legacy.updateSummary s in
      Legacy.lines sm
      = map (fun p => Legacy.mkLine (Legacy.slotKey p) (Legacy.title p)
                        (Js.mul (Legacy.price p) (Js.Num 1)))
            (Obj.values (Legacy.selectedProducts s)) /\
      map Legacy.l_slotKey (Legacy.lines sm)
      = Obj.keys (Legacy.selectedProducts s) /\
      Legacy.grandTotal sm
      = Js.total (map (fun p => Js.mul (Legacy.price p) (Js.Num 1))
                      (Obj.values (Legacy.selectedProducts s))) /\
      Legacy.itemCount sm = List.length (Obj.keys (Legacy.selectedProducts s)) /\
      (forall s', Legacy.selectedProducts s' = Legacy.selectedProducts s ->
                  Legacy.updateSummary s' = sm)).
Proof.
  split; intros s Hp Hk sm; subst sm.
  - unfold Builder.updateSummary; cbn [Builder.lines Builder.grandTotal
      Builder.itemCount].
    repeat split.
    + apply map_ext_in. intros p Hin.
      rewrite Forall_forall in Hp. now apply builder_lineOf_priced, Hp.
    + rewrite map_map. cbn. now apply (keyed_keys Builder.slotKey).
    + rewrite builder_total_priced by assumption. simpl.
      now destruct (Js.total _).
    + unfold Obj.values, Obj.keys. now rewrite !length_map.
    + intros s' ->. reflexivity.
  - unfold Legacy.updateSummary; cbn [Legacy.lines Legacy.grandTotal
      Legacy.itemCount].
    repeat split.
    + apply map_ext_in. intros p Hin.
      rewrite Forall_forall in Hp. destruct (Hp p Hin) as [u Hu].
      unfold Legacy.lineOf. rewrite Hu. simpl. now rewrite Z.mul_1_r.
    + rewrite map_map. cbn. now apply (keyed_keys Legacy.slotKey).
    + rewrite legacy_total_priced by assumption. simpl.
      now destruct (Js.total _).
    + unfold Obj.values, Obj.keys. now rewrite !length_map.
    + intros s' ->. reflexivity.
Qed.

Lemma summary_of_selection_witness :
  let sm := Builder.updateSummary Examples.B.tripled in
  map Builder.l_lineTotal (Builder.lines sm) = [Js.Num 89700] /\
  Builder.grandTotal sm = Js.Num 89700 /\
  Builder.itemCount sm = 1%nat.
Proof.
  destruct (proj1 summary_of_selection Examples.B.tripled)
    as (Hl & _ & Ht & Hc & _).
  - constructor; [|constructor].
    exists 29900, 3. repeat split. vm_compute. discriminate.
  - constructor; [|constructor]. reflexivity.
  - cbv zeta. rewrite Hl, Ht, Hc. vm_compute. repeat split.
Defined.

(** ** Changing a quantity *)

(** C7: a quantity button carries a change [d]; the requested quantity is
    the current one plus [d].  When the slot key names no entry, or the
    requested quantity is below one, [handleQtyChange] returns the state as
    it was.  Otherwise (slot keys are never the empty string) the entry gets
    the requested quantity, every other entry is as before, and the summary
    has the line of that entry with the amount unit price times the
    requested quantity. *)
Theorem handleQtyChange_sets_quantity s k dtxt d :
  Js.parseInt_str dtxt = Js.Num d ->
  let s' := Builder.handleQtyChange (Some k) dtxt s in
  (Obj.get k (Builder.selectedProducts s) = None -> s' = s) /\
  (forall p q,
      Obj.get k (Builder.selectedProducts s) = Some p ->
      Builder.quantity p = Js.Num q -> 1 <= q ->
      (q + d < 1 -> s' = s) /\
      (1 <= q + d -> k <> "" ->
       Obj.get k (Builder.selectedProducts s')
       = Some (Builder.with_quantity (Js.Num (q + d)) p) /\
       (forall k', k' <> k ->
                   Obj.get k' (Builder.selectedProducts s')
                   = Obj.get k' (Builder.selectedProducts s)) /\
       (forall u, Builder.price p = Js.Num u ->
                  In (Builder.mkLine (Builder.slotKey p) (Builder.title p)
                                     (Js.Num (q + d)) (Js.Num (u * (q + d))))
                     (Builder.lines (Builder.updateSummary s'))))).
Proof.
  intros Hd s'. split.
  - intros Hnone. subst s'. unfold Builder.handleQtyChange.
    destruct k as [|c r]; [reflexivity|]. now rewrite Hnone.
  - intros p q Hp Hq Hge. split.
    + intros Hlow. subst s'. unfold Builder.handleQtyChange.
      destruct k as [|c r]; [reflexivity|].
      rewrite Hp, Hq, Hd, JsFacts.or_else_one by assumption. simpl.
      destruct (Z.ltb_spec (q + d) 1); [reflexivity | lia].
    + intros Hok Hk.
      assert (Hsel : Builder.selectedProducts s'
                     = Obj.set k (Builder.with_quantity (Js.Num (q + d)) p)
                               (Builder.selectedProducts s)).
      { subst s'. unfold Builder.handleQtyChange.
        destruct k as [|c r]; [congruence|].
        rewrite Hp, Hq, Hd, JsFacts.or_else_one by assumption. simpl.
        destruct (Z.ltb_spec (q + d) 1); [lia | reflexivity]. }
      split; [|split].
      * rewrite Hsel. apply ObjFacts.get_set_same.
      * intros k' Hk'. rewrite Hsel. now apply ObjFacts.get_set_other.
      * intros u Hu. unfold Builder.updateSummary. cbn [Builder.lines].
        apply in_map_iff.
        exists (Builder.with_quantity (Js.Num (q + d)) p). split.
        -- unfold Builder.lineOf, Builder.with_quantity. cbn. rewrite Hu.
           now rewrite JsFacts.or_else_zero, JsFacts.or_else_one.
        -- apply (ObjFacts.get_In k). rewrite Hsel.
           apply ObjFacts.get_set_same.
Qed.

(** A button without slot key changes nothing either. *)
Lemma handleQtyChange_without_slot dtxt s :
  Builder.handleQtyChange None dtxt s = s /\
  Builder.handleQtyChange (Some "") dtxt s = s.
Proof. split; reflexivity. Qed.

Lemma handleQtyChange_sets_quantity_witness :
  let s := Examples.B.withShaft111 in
  (* to zero and to minus one: rejected *)
  Builder.handleQtyChange (Some "shaft") (Some "-1") s = s /\
  Builder.handleQtyChange (Some "shaft") (Some "-2") s = s /\
  (* an absent slot: rejected *)
  Builder.handleQtyChange (Some "ball-0") (Some "1") s = s /\
  (* to three *)
  option_map Builder.quantity
    (Obj.get "shaft"
       (Builder.selectedProducts
          (Builder.handleQtyChange (Some "shaft") (Some "2") s)))
  = Some (Js.Num 3) /\
  In (Builder.mkLine "shaft" "Alloy 31" (Js.Num 3) (Js.Num 89700))
     (Builder.lines
        (Builder.updateSummary
           (Builder.handleQtyChange (Some "shaft") (Some "2") s))).
Proof.
  intros s.
  pose (p := Builder.productOf (Builder.shaftCard Examples.B.shaft111) "shaft").
  assert (Hp : Obj.get "shaft" (Builder.selectedProducts s) = Some p)
    by (vm_compute; reflexivity).
  assert (Hq : Builder.quantity p = Js.Num 1) by reflexivity.
  split; [|split; [|split; [|split]]].
  - apply (handleQtyChange_sets_quantity s "shaft" (Some "-1") (-1) eq_refl)
      with (p := p) (q := 1); [exact Hp | exact Hq | lia | lia].
  - apply (handleQtyChange_sets_quantity s "shaft" (Some "-2") (-2) eq_refl)
      with (p := p) (q := 1); [exact Hp | exact Hq | lia | lia].
  - apply (handleQtyChange_sets_quantity s "ball-0" (Some "1") 1 eq_refl).
    vm_compute. reflexivity.
  - destruct (handleQtyChange_sets_quantity s "shaft" (Some "2") 2 eq_refl)
      as [_ H].
    destruct (H p 1 Hp Hq ltac:(lia)) as [_ H3].
    destruct H3 as (Hget & _ & _); [lia | discriminate |].
    rewrite Hget. reflexivity.
  - destruct (handleQtyChange_sets_quantity s "shaft" (Some "2") 2 eq_refl)
      as [_ H].
    destruct (H p 1 Hp Hq ltac:(lia)) as [_ H3].
    destruct H3 as (_ & _ & Hline); [lia | discriminate |].
    apply (Hline 29900). vm_compute. reflexivity.
Defined.

(** ** Submitting *)

(** As soon as one entry has a usable id, the add-items request is sent,
    with the batch built from the selection. *)
Lemma handleAddToCart_posts s p :
  In p (Obj.values (Builder.selectedProducts s)) ->
  Js.truthy (Builder.id p) = true ->
  exists resume,
    Builder.handleAddToCart s = PostCartAdd (Builder.cartItems s) resume /\
    forall r, add_failed r = true -> resume r = Finished Failed.
Proof.
  intros Hin Hid. unfold Builder.handleAddToCart.
  destruct (Builder.cartItems s) as [|it items] eqn:E.
  - exfalso. unfold Builder.cartItems in E.
    apply map_eq_nil in E.
    assert (Hf : In p (filter (fun p => Js.truthy (Builder.id p))
                              (Obj.values (Builder.selectedProducts s))))
      by (apply filter_In; auto).
    rewrite E in Hf. contradiction.
  - eexists. split; [reflexivity|].
    intros [|[|] [|]]; simpl; intros; try reflexivity; discriminate.
Qed.

(** A submission, outcome by outcome. *)
Lemma submit_cases cfg net s :
  Builder.submit cfg net s
  = match Builder.cartItems s with
    | [] => (NothingSelected, [], s)
    | items =>
        match cart_add net items with
        | AddResponse true true =>
            match cart_read net with
            | CartResponse (Some n) =>
                (Added n, [ReqCartAdd items; ReqCart],
                 Builder.resetBuilder cfg s)
            | _ => (Failed, [ReqCartAdd items; ReqCart], s)
            end
        | _ => (Failed, [ReqCartAdd items], s)
        end
    end.
Proof.
  unfold Builder.submit, Builder.handleAddToCart.
  destruct (Builder.cartItems s) as [|it rest]; [reflexivity|].
  simpl. destruct (cart_add net (it :: rest)) as [|[|] [|]]; simpl;
    try reflexivity.
  destruct (cart_read net) as [|[n|]]; reflexivity.
Qed.

(** When some entry has a usable id and the cart service fails the
    add-items request, the submission fails after that one request and
    leaves the state alone. *)
Lemma failed_submission_of_sendable cfg net s p :
  In p (Obj.values (Builder.selectedProducts s)) ->
  Js.truthy (Builder.id p) = true ->
  add_failed (cart_add net (Builder.cartItems s)) = true ->
  Builder.submit cfg net s = (Failed, [ReqCartAdd (Builder.cartItems s)], s).
Proof.
  intros Hin Hid Hfail. rewrite submit_cases.
  destruct (handleAddToCart_posts s p Hin Hid) as (resume & Hpost & _).
  unfold Builder.handleAddToCart in Hpost.
  destruct (Builder.cartItems s) as [|it rest]; [discriminate|].
  cbv beta iota zeta.
  destruct (cart_add net (it :: rest)) as [|[|] [|]];
    try discriminate Hfail; reflexivity.
Qed.

(** C9: when a submission has sent its add-items request and that request
    rejects, comes back not ok, or comes back unreadable, the outcome is
    [Failed], no other request is made, and the state after the submission
    is the state before it, chip choices and selection alike; submitting
    again sends the same batch. *)
Theorem failed_submission_keeps_state cfg net s o reqs s' items :
  Builder.selectedProducts s <> [] ->
  Builder.submit cfg net s = (o, reqs, s') ->
  In (ReqCartAdd items) reqs ->
  add_failed (cart_add net items) = true ->
  o = Failed /\ s' = s /\
  items = Builder.cartItems s /\ reqs = [ReqCartAdd items] /\
  (forall net', exists o2 reqs2 s2,
      Builder.submit cfg net' s' = (o2, ReqCartAdd items :: reqs2, s2)).
Proof.
  intros _ Hsub Hin Hfail.
  rewrite submit_cases in Hsub.
  destruct (Builder.cartItems s) as [|it rest] eqn:E.
  { injection Hsub as <- <- <-. contradiction. }
  cbv beta iota zeta in Hsub.
  assert (Hitems : items = it :: rest).
  { destruct (cart_add net (it :: rest)) as [|[|] [|]];
      try destruct (cart_read net) as [|[n|]];
      injection Hsub as <- <- <-; simpl in Hin;
      repeat destruct Hin as [Hin | Hin];
      try discriminate; try contradiction; congruence. }
  subst items.
  assert (Hres : o = Failed /\ s' = s /\ reqs = [ReqCartAdd (it :: rest)]).
  { destruct (cart_add net (it :: rest)) as [|[|] [|]];
      try discriminate Hfail; injection Hsub as <- <- <-; auto. }
  destruct Hres as (-> & -> & ->).
  repeat split.
  intros net'. rewrite submit_cases, E. cbv beta iota zeta.
  destruct (cart_add net' (it :: rest)) as [|[|] [|]];
    try destruct (cart_read net') as [|[n|]]; eauto.
Qed.

Lemma failed_submission_keeps_state_witness :
  let s := Examples.B.withBall in
  Builder.submit Examples.B.catalog Examples.B.refusing s
  = (Failed,
     [ReqCartAdd [mkItem (Js.Num 111) (Js.Num 1); mkItem (Js.Num 222) (Js.Num 1)]],
     s).
Proof.
  intros s.
  destruct (Builder.submit Examples.B.catalog Examples.B.refusing s)
    as [[o reqs] s'] eqn:E.
  destruct (failed_submission_keeps_state
              Examples.B.catalog Examples.B.refusing s o reqs s'
              [mkItem (Js.Num 111) (Js.Num 1); mkItem (Js.Num 222) (Js.Num 1)])
    as (-> & -> & _ & -> & _).
  - vm_compute. discriminate.
  - exact E.
  - vm_compute in E. injection E as _ <- _. left. reflexivity.
  - reflexivity.
  - reflexivity.
Defined.

(** ** Variant ids that are not numbers *)

Lemma cartItems_truthy s it :
  In it (Builder.cartItems s) -> Js.truthy (item_id it) = true.
Proof.
  unfold Builder.cartItems. intros H.
  apply in_map_iff in H as (p & <- & Hp).
  now apply filter_In in Hp as [_ Hp].
Qed.

Lemma cartItems_none s :
  Forall (fun p => Js.truthy (Builder.id p) = false)
         (Obj.values (Builder.selectedProducts s)) ->
  Builder.cartItems s = [].
Proof.
  unfold Builder.cartItems. intros H.
  induction H as [|p r Hp Hr IH]; simpl; [reflexivity|].
  now rewrite Hp.
Qed.

Lemma legacy_cartItems_truthy s it :
  In it (Legacy.cartItems s) -> Js.truthy (item_id it) = true.
Proof.
  unfold Legacy.cartItems. intros H.
  apply in_map_iff in H as (p & <- & Hp).
  now apply filter_In in Hp as [_ Hp].
Qed.

Lemma legacy_cartItems_none s :
  Forall (fun p => Js.truthy (Legacy.id p) = false)
         (Obj.values (Legacy.selectedProducts s)) ->
  Legacy.cartItems s = [].
Proof.
  unfold Legacy.cartItems. intros H.
  induction H as [|p r Hp Hr IH]; simpl; [reflexivity|].
  now rewrite Hp.
Qed.

(** C10: the guard of the click handler lets through every variant id that
    is a non-empty string.  When [parseInt] makes [NaN] of it, a click that
    selects (any click on a shaft card of the newer component, a click on a
    free slot otherwise) stores an entry whose id is [NaN].  That entry has
    its line in the summary and is counted by the item count, yet the batch
    for the cart holds only entries with a truthy id, and a selection
    without any such entry ends the submission with ['Select products
    first'] and no request.  Both components. *)
Theorem non_numeric_variant_id :
  (forall card s,
      Js.truthy_str (variantId card) = true ->
      Js.parseInt_str (variantId card) = Js.NaN ->
      let key := if Js.str_is (productType card) "shaft" then "shaft"
                 else Builder.accessorySlotKey card in
      Js.str_is (productType card) "shaft" = true \/
      Obj.get key (Builder.selectedProducts s) = None ->
      let s' := Builder.handleProductCardClick card s in
      exists p,
        Obj.get key (Builder.selectedProducts s') = Some p /\
        Builder.id p = Js.NaN /\
        In (Builder.lineOf p) (Builder.lines (Builder.updateSummary s')) /\
        In p (Obj.values (Builder.selectedProducts s')) /\
        Builder.itemCount (Builder.updateSummary s')
        = List.length (Obj.values (Builder.selectedProducts s')) /\
        forall it, In it (Builder.cartItems s') -> item_id it <> Builder.id p) /\
  (forall s it, In it (Builder.cartItems s) -> Js.truthy (item_id it) = true) /\
  (forall cfg net s,
      Forall (fun p => Js.truthy (Builder.id p) = false)
             (Obj.values (Builder.selectedProducts s)) ->
      Builder.handleAddToCart s = Finished NothingSelected /\
      Builder.submit cfg net s = (NothingSelected, [], s)) /\
  (forall card s,
      Js.truthy_str (variantId card) = true ->
      Js.parseInt_str (variantId card) = Js.NaN ->
      let key := Legacy.slotKeyOf card in
      Obj.get key (Legacy.selectedProducts s) = None ->
      let s' := Legacy.handleProductCardClick card s in
      exists p,
        Obj.get key (Legacy.selectedProducts s') = Some p /\
        Legacy.id p = Js.NaN /\
        In (Legacy.lineOf p) (Legacy.lines (Legacy.updateSummary s')) /\
        In p (Obj.values (Legacy.selectedProducts s')) /\
        Legacy.itemCount (Legacy.updateSummary s')
        = List.length (Obj.values (Legacy.selectedProducts s')) /\
        forall it, In it (Legacy.cartItems s') -> item_id it <> Legacy.id p) /\
  (forall s it, In it (Legacy.cartItems s) -> Js.truthy (item_id it) = true) /\
  (forall net s,
      Forall (fun p => Js.truthy (Legacy.id p) = false)
             (Obj.values (Legacy.selectedProducts s)) ->
      Legacy.handleAddToCart s = Finished NothingSelected /\
      Legacy.submit net s = (NothingSelected, [], s)).
Proof.
  split; [|split; [|split; [|split; [|split]]]].
  - intros card s Hid Hnan key Hsel s'.
    assert (Hs' : Builder.selectedProducts s'
                  = Obj.set key (Builder.productOf card key)
                            (Builder.selectedProducts s)).
    { subst s' key. unfold Builder.handleProductCardClick. rewrite Hid, Hnan.
      cbn [negb].
      destruct (Js.str_is (productType card) "shaft").
      - destruct (Obj.get "shaft" (Builder.selectedProducts s)) as [w|];
          [destruct (Builder.id w)|]; reflexivity.
      - destruct Hsel as [Hsel | Hsel]; [discriminate|]. now rewrite Hsel. }
    exists (Builder.productOf card key).
    assert (Hget : Obj.get key (Builder.selectedProducts s')
                   = Some (Builder.productOf card key))
      by (rewrite Hs'; apply ObjFacts.get_set_same).
    assert (Hin : In (Builder.productOf card key)
                     (Obj.values (Builder.selectedProducts s')))
      by (eapply ObjFacts.get_In; exact Hget).
    repeat split; try assumption.
    + unfold Builder.updateSummary. cbn [Builder.lines]. now apply in_map.
    + intros it Hit. apply cartItems_truthy in Hit.
      cbn [Builder.productOf Builder.id]. rewrite Hnan.
      intros Heq. rewrite Heq in Hit. discriminate.
  - exact cartItems_truthy.
  - intros cfg net s H. apply cartItems_none in H.
    unfold Builder.submit, Builder.handleAddToCart. now rewrite H.
  - intros card s Hid Hnan key Hsel s'.
    assert (Hs' : Legacy.selectedProducts s'
                  = Obj.set key (Legacy.productOf card key)
                            (Legacy.selectedProducts s)).
    { subst s'. unfold Legacy.handleProductCardClick. rewrite Hid.
      cbn [negb]. fold key. now rewrite Hsel. }
    exists (Legacy.productOf card key).
    assert (Hget : Obj.get key (Legacy.selectedProducts s')
                   = Some (Legacy.productOf card key))
      by (rewrite Hs'; apply ObjFacts.get_set_same).
    assert (Hin : In (Legacy.productOf card key)
                     (Obj.values (Legacy.selectedProducts s')))
      by (eapply ObjFacts.get_In; exact Hget).
    repeat split; try assumption.
    + unfold Legacy.updateSummary. cbn [Legacy.lines]. now apply in_map.
    + intros it Hit. apply legacy_cartItems_truthy in Hit.
      cbn [Legacy.productOf Legacy.id]. rewrite Hnan.
      intros Heq. rewrite Heq in Hit. discriminate.
  - exact legacy_cartItems_truthy.
  - intros net s H. apply legacy_cartItems_none in H.
    unfold Legacy.submit, Legacy.handleAddToCart. now rewrite H.
Qed.

Lemma non_numeric_variant_id_witness :
  let s := Builder.handleProductCardClick Examples.stale Builder.initial in
  (exists p, Obj.get "ball-0" (Builder.selectedProducts s) = Some p /\
             Builder.id p = Js.NaN) /\
  Builder.itemCount (Builder.updateSummary s) = 1%nat /\
  Builder.submit Examples.B.catalog Examples.B.refusing s
  = (NothingSelected, [], s).
Proof.
  intros s. split; [|split].
  - destruct (proj1 non_numeric_variant_id Examples.stale Builder.initial
                eq_refl eq_refl (or_intror eq_refl))
      as (p & Hget & Hid & _).
    exists p. split; [exact Hget | exact Hid].
  - vm_compute. reflexivity.
  - apply (proj1 (proj2 (proj2 non_numeric_variant_id))).
    vm_compute. repeat constructor.
Defined.


(* ------------------------------------------------------------------------- *)
(** * Further properties of the components *)
(* ------------------------------------------------------------------------- *)

(** ** More on objects *)

Module ObjMore.

Section WithValue.
Context {V : Type}.
Implicit Types (o : Obj.t V) (k : string) (v : V).

Lemma delete_filter k o :
  Obj.delete k o = filter (fun kv => negb (String.eqb (fst kv) k)) o.
Proof.
  induction o as [|[k' v'] r IH]; simpl; [reflexivity|].
  destruct (String.eqb k' k); simpl; now rewrite IH.
Qed.

Lemma filter_filter {A : Type} (f g : A -> bool) (l : list A) :
  filter f (filter g l) = filter (fun x => (g x && f x)%bool) l.
Proof.
  induction l as [|x l IH]; simpl; [reflexivity|].
  destruct (g x); simpl; [destruct (f x)|]; now rewrite IH.
Qed.

Lemma fold_delete_filter (p : string -> bool) ks o :
  fold_left (fun o key => if p key then Obj.delete key o else o) ks o
  = filter (fun kv => negb (p (fst kv) && existsb (String.eqb (fst kv)) ks)) o.
Proof.
  revert o. induction ks as [|key ks IH]; intros o; simpl.
  - symmetry. rewrite <- (filter_ext (fun _ => true)).
    + induction o as [|x o IHo]; simpl; [reflexivity | now rewrite IHo].
    + intros [k v]. now rewrite andb_false_r.
  - rewrite IH. destruct (p key) eqn:Hp.
    + rewrite delete_filter, filter_filter. apply filter_ext.
      intros [k v]. simpl. destruct (String.eqb k key) eqn:E; simpl.
      * apply String.eqb_eq in E; subst k. now rewrite Hp.
      * reflexivity.
    + apply filter_ext. intros [k v]. simpl.
      destruct (String.eqb k key) eqn:E; simpl; [|reflexivity].
      apply String.eqb_eq in E; subst k. now rewrite Hp.
Qed.

(** Deleting the keys of the object itself that satisfy [p] keeps exactly
    the pairs whose key does not, in their order. *)
Lemma fold_delete_own_keys (p : string -> bool) o :
  fold_left (fun o key => if p key then Obj.delete key o else o) (Obj.keys o) o
  = filter (fun kv => negb (p (fst kv))) o.
Proof.
  rewrite fold_delete_filter. apply filter_ext_in.
  intros [k v] Hin. simpl.
  assert (existsb (String.eqb k) (Obj.keys o) = true) as ->.
  { apply existsb_exists. exists k. split; [|apply String.eqb_refl].
    unfold Obj.keys. change k with (fst (k, v)). now apply in_map. }
  now rewrite andb_true_r.
Qed.

Lemma set_absent k v o :
  Obj.get k o = None -> Obj.set k v o = (o ++ [(k, v)])%list.
Proof.
  induction o as [|[k' v'] r IH]; simpl; [reflexivity|].
  destruct (String.eqb k' k); [discriminate|].
  intros H. now rewrite IH.
Qed.

(** The entry that [get] finds is the first one under that key; [set]
    rewrites it where it stands. *)
Lemma get_split k v o :
  Obj.get k o = Some v ->
  exists l1 l2,
    o = (l1 ++ (k, v) :: l2)%list /\
    forall v', Obj.set k v' o = (l1 ++ (k, v') :: l2)%list.
Proof.
  induction o as [|[k' v0] r IH]; simpl; [discriminate|].
  destruct (String.eqb k' k) eqn:E.
  - apply String.eqb_eq in E; subst k'. intros [= ->].
    exists [], r. split; [reflexivity|]. intros v'. reflexivity.
  - intros H. destruct (IH H) as (l1 & l2 & -> & Hset).
    exists ((k', v0) :: l1), l2. split; [reflexivity|].
    intros v'. simpl. now rewrite Hset.
Qed.

End WithValue.

End ObjMore.

(** ** Hiding the accessory panels *)

(** [hideAccessoryPanels] walks over a snapshot of the keys and deletes the
    ball and pineapple ones: what is left is the selection without these
    entries, the others in the order they had. *)
Theorem hideAccessoryPanels_filters s :
  Builder.selectedProducts (Builder.hideAccessoryPanels s)
  = filter (fun kv => negb (Builder.accessory_key (fst kv)))
           (Builder.selectedProducts s) /\
  Builder.hideAccessoryPanels (Builder.hideAccessoryPanels s)
  = Builder.hideAccessoryPanels s.
Proof.
  assert (E : forall s0,
             Builder.hideAccessoryPanels s0
             = Builder.with_selected
                 (filter (fun kv => negb (Builder.accessory_key (fst kv)))
                         (Builder.selectedProducts s0))
                 (Builder.with_accessoriesHidden true s0)).
  { intros s0. unfold Builder.hideAccessoryPanels. cbv zeta.
    change (Builder.selectedProducts (Builder.with_accessoriesHidden true s0))
      with (Builder.selectedProducts s0).
    now rewrite ObjMore.fold_delete_own_keys. }
  split.
  - now rewrite E.
  - rewrite !E. destruct s as [sp ty sz sel tc zc cards th zh ah].
    unfold Builder.with_selected, Builder.with_accessoriesHidden. cbn.
    f_equal. rewrite ObjMore.filter_filter.
    apply filter_ext. intros kv. now rewrite andb_diag.
Qed.

(** ** Choosing a shaft type or a shaft size *)

Lemma selected_chooseShaftType cfg value s k :
  Obj.get k (Builder.selectedProducts
               (Builder.handleChipClick cfg "shaft-type" value s))
  = if (String.eqb k "shaft" || Builder.accessory_key k)%bool then None
    else Obj.get k (Builder.selectedProducts s).
Proof.
  unfold Builder.handleChipClick. simpl String.eqb. cbv iota.
  rewrite BuilderFacts.selected_hideAccessoryPanels,
    BuilderFacts.selected_hideShaftProduct,
    BuilderFacts.selected_renderShaftSizes.
  cbn [Builder.selectedProducts Builder.delete_shaft Builder.with_selected
       Builder.with_path].
  destruct (Builder.accessory_key k); [now rewrite orb_true_r|].
  rewrite orb_false_r.
  destruct (String.eqb k "shaft") eqn:E.
  - apply String.eqb_eq in E; subst k. apply ObjFacts.get_delete_same.
  - apply String.eqb_neq in E.
    now rewrite !ObjFacts.get_delete_other by assumption.
Qed.

(** Choosing a shaft type keeps the sport, sets the type, forgets the size,
    and clears what hangs on the old type: the shaft entry and every ball
    and pineapple entry.  Entries under other keys stay. *)
Theorem chooseShaftType_resets_downstream cfg value s :
  let s' := Builder.handleChipClick cfg "shaft-type" value s in
  Builder.sport s' = Builder.sport s /\
  Builder.shaftType s' = Some value /\
  Builder.shaftSize s' = None /\
  Builder.accessoriesHidden s' = true /\
  Obj.get "shaft" (Builder.selectedProducts s') = None /\
  (forall k, Builder.accessory_key k = true ->
             Obj.get k (Builder.selectedProducts s') = None) /\
  (forall k, k <> "shaft" -> Builder.accessory_key k = false ->
             Obj.get k (Builder.selectedProducts s')
             = Obj.get k (Builder.selectedProducts s)).
Proof.
  intros s'.
  assert (Hpath : Builder.sport s' = Builder.sport s /\
                  Builder.shaftType s' = Some value /\
                  Builder.shaftSize s' = None /\
                  Builder.accessoriesHidden s' = true).
  { subst s'.
    unfold Builder.handleChipClick, Builder.hideAccessoryPanels,
      Builder.hideShaftProduct, Builder.renderShaftSizes.
    simpl String.eqb. cbv iota.
    destruct (Builder.has_shaftSizeChips (Builder.template cfg)),
             (Builder.has_shaftDisplay (Builder.template cfg)); cbn; auto. }
  destruct Hpath as (H1 & H2 & H3 & H4).
  repeat split; try assumption; subst s'.
  - now rewrite selected_chooseShaftType.
  - intros k Hk. rewrite selected_chooseShaftType, Hk. now rewrite orb_true_r.
  - intros k Hk Ha. rewrite selected_chooseShaftType, Ha.
    apply String.eqb_neq in Hk. now rewrite Hk.
Qed.

(** Choosing a shaft size touches no entry but the shaft: balls and
    pineapples picked under the previous size stay selected, sport and
    shaft type stay, and the accessory panels are shown. *)
Theorem chooseShaftSize_keeps_accessories cfg value s :
  let s' := Builder.handleChipClick cfg "shaft-size" value s in
  Builder.sport s' = Builder.sport s /\
  Builder.shaftType s' = Builder.shaftType s /\
  Builder.shaftSize s' = Some value /\
  Builder.accessoriesHidden s' = false /\
  Obj.delete "shaft" (Builder.selectedProducts s')
  = Obj.delete "shaft" (Builder.selectedProducts s) /\
  (forall k, k <> "shaft" ->
             Obj.get k (Builder.selectedProducts s')
             = Obj.get k (Builder.selectedProducts s)).
Proof.
  intros s'.
  assert (Hsel : Builder.selectedProducts s'
                 = if Builder.has_shaftDisplay (Builder.template cfg)
                   then Obj.delete "shaft" (Builder.selectedProducts s)
                   else Builder.selectedProducts s).
  { subst s'. unfold Builder.handleChipClick. simpl String.eqb. cbv iota.
    unfold Builder.showAccessoryPanels.
    cbn [Builder.selectedProducts Builder.with_accessoriesHidden].
    now rewrite BuilderFacts.selected_renderShaftProduct. }
  assert (Hpath : Builder.sport s' = Builder.sport s /\
                  Builder.shaftType s' = Builder.shaftType s /\
                  Builder.shaftSize s' = Some value /\
                  Builder.accessoriesHidden s' = false).
  { subst s'.
    unfold Builder.handleChipClick, Builder.showAccessoryPanels,
      Builder.renderShaftProduct, Builder.hideShaftProduct.
    simpl String.eqb. cbv iota.
    destruct (Builder.has_shaftDisplay (Builder.template cfg)); cbn [negb];
      [|cbn; auto].
    destruct (Builder.sizeData cfg _) as [ss|];
      [destruct (Builder.ss_shafts ss) as [[|v vs]|]|]; cbn; auto. }
  destruct Hpath as (H1 & H2 & H3 & H4).
  repeat split; try assumption; rewrite Hsel;
    destruct (Builder.has_shaftDisplay (Builder.template cfg)); try reflexivity.
  - apply ObjFacts.delete_delete_same.
  - intros k Hk. now apply ObjFacts.get_delete_other.
Qed.

(** ** Removing from the summary, and clicking a card again *)

Lemma accessorySlotKey_not_empty card :
  Builder.accessorySlotKey card <> "".
Proof.
  unfold Builder.accessorySlotKey.
  destruct (Js.template (productType card)); discriminate.
Qed.

(** The remove button of a summary line deletes the entry of its slot and
    nothing else; on a slot that holds nothing the state stays as it is. *)
Theorem handleRemoveFromSummary_removes k s :
  k <> "" ->
  let s' := Builder.handleRemoveFromSummary (Some k) s in
  Obj.get k (Builder.selectedProducts s') = None /\
  (forall k', k' <> k ->
              Obj.get k' (Builder.selectedProducts s')
              = Obj.get k' (Builder.selectedProducts s)) /\
  Builder.selectedProducts s'
  = filter (fun kv => negb (String.eqb (fst kv) k)) (Builder.selectedProducts s) /\
  (Obj.get k (Builder.selectedProducts s) = None -> s' = s).
Proof.
  intros Hk s'.
  assert (Hs' : s' = Builder.with_selected
                       (Obj.delete k (Builder.selectedProducts s)) s).
  { subst s'. destruct k; [congruence | reflexivity]. }
  rewrite Hs'. cbn [Builder.selectedProducts Builder.with_selected].
  repeat split.
  - apply ObjFacts.get_delete_same.
  - intros k' Hk'. now apply ObjFacts.get_delete_other.
  - apply ObjMore.delete_filter.
  - intros Hnone. rewrite ObjFacts.delete_absent by assumption.
    now destruct s.
Qed.

Lemma handleRemoveFromSummary_removes_witness :
  let s' := Builder.handleRemoveFromSummary (Some "ball-0") Examples.B.withBall in
  Obj.get "ball-0" (Builder.selectedProducts s') = None /\
  Obj.get "shaft" (Builder.selectedProducts s')
  = Obj.get "shaft" (Builder.selectedProducts Examples.B.withBall).
Proof.
  destruct (handleRemoveFromSummary_removes "ball-0" Examples.B.withBall)
    as (H1 & H2 & _).
  - discriminate.
  - split; [exact H1|]. apply H2. discriminate.
Defined.

(** Clicking the card of an accessory that is selected does what the remove
    button of its summary line does. *)
Theorem accessory_click_on_selected_is_remove card s p :
  Js.str_is (productType card) "shaft" = false ->
  Js.truthy_str (variantId card) = true ->
  Obj.get (Builder.accessorySlotKey card) (Builder.selectedProducts s) = Some p ->
  Builder.handleProductCardClick card s
  = Builder.handleRemoveFromSummary (Some (Builder.accessorySlotKey card)) s.
Proof.
  intros Hacc Hid Hp. unfold Builder.handleProductCardClick.
  rewrite Hid, Hacc, Hp. cbn [negb].
  pose proof (accessorySlotKey_not_empty card) as Hne.
  unfold Builder.handleRemoveFromSummary.
  destruct (Builder.accessorySlotKey card); [congruence | reflexivity].
Qed.

Lemma accessory_click_on_selected_is_remove_witness :
  Builder.handleProductCardClick Examples.ball0 Examples.B.withBall
  = Builder.handleRemoveFromSummary (Some "ball-0") Examples.B.withBall.
Proof.
  apply (accessory_click_on_selected_is_remove
           Examples.ball0 Examples.B.withBall
           (Builder.productOf Examples.ball0 "ball-0"));
    vm_compute; reflexivity.
Defined.

(** A click on a shaft card leaves every other entry alone, and afterwards
    the shaft slot is empty or holds the clicked variant with quantity one:
    never the previous occupant. *)
Theorem shaft_click_exclusive card s :
  productType card = Some "shaft" ->
  Js.truthy_str (variantId card) = true ->
  let s' := Builder.handleProductCardClick card s in
  (forall k, k <> "shaft" ->
             Obj.get k (Builder.selectedProducts s')
             = Obj.get k (Builder.selectedProducts s)) /\
  Obj.delete "shaft" (Builder.selectedProducts s')
  = Obj.delete "shaft" (Builder.selectedProducts s) /\
  (Obj.get "shaft" (Builder.selectedProducts s') = None \/
   Obj.get "shaft" (Builder.selectedProducts s')
   = Some (Builder.productOf card "shaft")) /\
  (Builder.sport s', Builder.shaftType s', Builder.shaftSize s')
  = (Builder.sport s, Builder.shaftType s, Builder.shaftSize s).
Proof.
  intros Hty Hid s'.
  assert (Hsel :
      s' = Builder.with_selected
             (Obj.delete "shaft" (Builder.selectedProducts s)) s \/
      s' = Builder.with_selected
             (Obj.set "shaft" (Builder.productOf card "shaft")
                      (Builder.selectedProducts s)) s).
  { subst s'. unfold Builder.handleProductCardClick, Builder.delete_shaft.
    rewrite Hty, Hid. cbn [Js.str_is negb]. simpl String.eqb. cbv iota.
    destruct (match Obj.get "shaft" (Builder.selectedProducts s) with
              | Some p0 => _ | None => _ end); auto. }
  destruct Hsel as [-> | ->];
    cbn [Builder.selectedProducts Builder.with_selected Builder.sport
         Builder.shaftType Builder.shaftSize].
  - repeat split.
    + intros k Hk. now apply ObjFacts.get_delete_other.
    + apply ObjFacts.delete_delete_same.
    + left. apply ObjFacts.get_delete_same.
  - repeat split.
    + intros k Hk. now apply ObjFacts.get_set_other.
    + apply ObjFacts.delete_set_same.
    + right. apply ObjFacts.get_set_same.
Qed.

Lemma shaft_click_exclusive_witness :
  let V := Builder.shaftCard Examples.B.shaft112 in
  let s' := Builder.handleProductCardClick V Examples.B.withBall in
  Obj.get "ball-0" (Builder.selectedProducts s')
  = Obj.get "ball-0" (Builder.selectedProducts Examples.B.withBall) /\
  option_map Builder.id (Obj.get "shaft" (Builder.selectedProducts s'))
  = Some (Js.Num 112).
Proof.
  intros V s'.
  destruct (shaft_click_exclusive V Examples.B.withBall eq_refl eq_refl)
    as (Hframe & _ & _ & _).
  split; [apply Hframe; discriminate | vm_compute; reflexivity].
Defined.

(** Two clicks on the same accessory card: on a free slot they cancel; on
    an occupied slot the old entry goes and a fresh one, with quantity one,
    ends up last, behind every other entry. *)
Theorem accessory_toggle_twice card s :
  Js.str_is (productType card) "shaft" = false ->
  Js.truthy_str (variantId card) = true ->
  let key := Builder.accessorySlotKey card in
  let s2 := Builder.handleProductCardClick card
              (Builder.handleProductCardClick card s) in
  (Obj.get key (Builder.selectedProducts s) = None -> s2 = s) /\
  (forall p, Obj.get key (Builder.selectedProducts s) = Some p ->
             Builder.selectedProducts s2
             = (Obj.delete key (Builder.selectedProducts s)
                ++ [(key, Builder.productOf card key)])%list).
Proof.
  intros Hacc Hid key s2. split.
  - intros Hfree. subst s2. unfold Builder.handleProductCardClick at 2.
    rewrite Hid, Hacc. fold key. rewrite Hfree. cbn [negb].
    unfold Builder.handleProductCardClick. rewrite Hid, Hacc. fold key.
    cbn [negb Builder.selectedProducts Builder.with_selected].
    rewrite ObjFacts.get_set_same. cbn.
    rewrite ObjFacts.delete_set_absent by assumption. now destruct s.
  - intros p Hp. subst s2. unfold Builder.handleProductCardClick at 2.
    rewrite Hid, Hacc. fold key. rewrite Hp. cbn [negb].
    unfold Builder.handleProductCardClick. rewrite Hid, Hacc. fold key.
    cbn [negb Builder.selectedProducts Builder.with_selected].
    rewrite ObjFacts.get_delete_same. cbn.
    apply ObjMore.set_absent, ObjFacts.get_delete_same.
Qed.

Lemma accessory_toggle_twice_witness :
  Builder.handleProductCardClick Examples.ball1
    (Builder.handleProductCardClick Examples.ball1 Examples.B.withBall)
  = Examples.B.withBall /\
  Obj.keys
    (Builder.selectedProducts
       (Builder.handleProductCardClick Examples.ball0
          (Builder.handleProductCardClick Examples.ball0
             (Builder.handleProductCardClick Examples.ball1 Examples.B.withBall))))
  = ["shaft"; "ball-1"; "ball-0"].
Proof.
  split.
  - apply (accessory_toggle_twice Examples.ball1 Examples.B.withBall
             eq_refl eq_refl).
    vm_compute. reflexivity.
  - destruct (accessory_toggle_twice Examples.ball0
                (Builder.handleProductCardClick Examples.ball1 Examples.B.withBall)
                eq_refl eq_refl) as [_ H].
    rewrite (H (Builder.productOf Examples.ball0 "ball-0")).
    + vm_compute. reflexivity.
    + vm_compute. reflexivity.
Defined.

(** ** Reset *)

Lemma resetBuilder_state cfg s :
  Builder.resetBuilder cfg s
  = Builder.mkState None None None [] (Builder.shaftTypeChips s)
      (if Builder.has_shaftSizeChips (Builder.template cfg)
       then [] else Builder.shaftSizeChips s)
      (if Builder.has_shaftDisplay (Builder.template cfg)
       then [] else Builder.shaftCards s)
      true true true.
Proof.
  unfold Builder.resetBuilder, Builder.hideAccessoryPanels,
    Builder.hideShaftProduct, Builder.clearShaftSizeChips, Builder.hideStep,
    Builder.delete_shaft.
  simpl String.eqb. cbv iota.
  destruct s as [sp ty sz sel tc zc cards th zh ah].
  destruct (Builder.has_shaftSizeChips (Builder.template cfg)),
           (Builder.has_shaftDisplay (Builder.template cfg)); reflexivity.
Qed.

(** After [resetBuilder] nothing is chosen and nothing is selected, the
    summary is empty and there is nothing to send; a second reset changes
    none of the choices, the selection, the chips and the cards.  The
    shaft-type chips of the last sport are left in the page, and the chip
    handler has no guard of its own: a click that reaches one of them sets
    the shaft type while no sport is chosen. *)
Theorem resetBuilder_clears cfg s :
  let s' := Builder.resetBuilder cfg s in
  Builder.sport s' = None /\
  Builder.shaftType s' = None /\
  Builder.shaftSize s' = None /\
  Builder.selectedProducts s' = [] /\
  Builder.shaftTypeChips s' = Builder.shaftTypeChips s /\
  Builder.updateSummary s' = Builder.mkSummary [] (Js.Num 0) 0 /\
  Builder.handleAddToCart s' = Finished NothingSelected /\
  (let s2 := Builder.resetBuilder cfg s' in
   (Builder.sport s2, Builder.shaftType s2, Builder.shaftSize s2,
    Builder.selectedProducts s2, Builder.shaftTypeChips s2,
    Builder.shaftSizeChips s2, Builder.shaftCards s2)
   = (Builder.sport s', Builder.shaftType s', Builder.shaftSize s',
      Builder.selectedProducts s', Builder.shaftTypeChips s',
      Builder.shaftSizeChips s', Builder.shaftCards s')) /\
  (forall t,
      let s3 := Builder.handleChipClick cfg "shaft-type" t s' in
      Builder.sport s3 = None /\ Builder.shaftType s3 = Some t).
Proof.
  intros s'. subst s'.
  rewrite (resetBuilder_state cfg (Builder.resetBuilder cfg s)).
  rewrite resetBuilder_state.
  repeat split;
    try (destruct (Builder.has_shaftSizeChips (Builder.template cfg)),
                  (Builder.has_shaftDisplay (Builder.template cfg));
         reflexivity).
  all: unfold Builder.handleChipClick, Builder.hideAccessoryPanels,
         Builder.hideShaftProduct, Builder.renderShaftSizes;
       simpl String.eqb; cbv iota;
       destruct (Builder.has_shaftSizeChips (Builder.template cfg)),
                (Builder.has_shaftDisplay (Builder.template cfg));
       reflexivity.
Qed.

(** With the three containers in the page, the first sport click after a
    reset leaves the component exactly where the same click leaves a
    component that was just constructed. *)
Theorem sport_click_after_reset cfg value s :
  Builder.has_shaftTypeChips (Builder.template cfg) = true ->
  Builder.has_shaftSizeChips (Builder.template cfg) = true ->
  Builder.has_shaftDisplay (Builder.template cfg) = true ->
  Builder.handleChipClick cfg "sport" value (Builder.resetBuilder cfg s)
  = Builder.handleChipClick cfg "sport" value Builder.initial.
Proof.
  intros Ht Hz Hd. rewrite resetBuilder_state, Hz, Hd.
  unfold Builder.handleChipClick, Builder.hideAccessoryPanels,
    Builder.hideShaftProduct, Builder.clearShaftSizeChips, Builder.hideStep,
    Builder.renderShaftTypes, Builder.delete_shaft.
  simpl String.eqb. cbv iota. rewrite Ht, Hz, Hd. reflexivity.
Qed.

Lemma sport_click_after_reset_witness :
  Builder.handleChipClick Examples.B.catalog "sport" "softball"
    (Builder.resetBuilder Examples.B.catalog Examples.B.withBall)
  = Builder.handleChipClick Examples.B.catalog "sport" "softball"
      Builder.initial.
Proof.
  apply (sport_click_after_reset Examples.B.catalog "softball"
           Examples.B.withBall); reflexivity.
Defined.

(** ** Submitting, further *)

(** When both requests succeed: the batch is posted, then the cart is read,
    the outcome carries the cart's item count, and the builder is reset, so
    that pressing the button again right away sends nothing. *)
Theorem successful_submission_resets cfg net s n :
  Builder.cartItems s <> [] ->
  cart_add net (Builder.cartItems s) = AddResponse true true ->
  cart_read net = CartResponse (Some n) ->
  Builder.submit cfg net s
  = (Added n, [ReqCartAdd (Builder.cartItems s); ReqCart],
     Builder.resetBuilder cfg s) /\
  forall net',
    Builder.submit cfg net' (Builder.resetBuilder cfg s)
    = (NothingSelected, [], Builder.resetBuilder cfg s).
Proof.
  intros Hne Hadd Hcart. split.
  - rewrite submit_cases.
    destruct (Builder.cartItems s) as [|it rest]; [congruence|].
    cbv beta iota zeta. now rewrite Hadd, Hcart.
  - intros net'. rewrite submit_cases.
    assert (Builder.cartItems (Builder.resetBuilder cfg s) = []) as ->.
    { rewrite resetBuilder_state. reflexivity. }
    reflexivity.
Qed.

Lemma successful_submission_resets_witness :
  let net := mkNetwork (fun _ => AddResponse true true) (CartResponse (Some 2)) in
  Builder.submit Examples.B.catalog net Examples.B.withBall
  = (Added 2,
     [ReqCartAdd (Builder.cartItems Examples.B.withBall); ReqCart],
     Builder.resetBuilder Examples.B.catalog Examples.B.withBall).
Proof.
  intros net.
  apply (successful_submission_resets Examples.B.catalog net
           Examples.B.withBall 2).
  - vm_compute. discriminate.
  - reflexivity.
  - reflexivity.
Defined.

(** When the batch was accepted but reading the cart fails, the outcome is
    the same ['Error – Try Again'] as for a rejected batch, and nothing is
    reset: the selection is still there, and trying again posts the batch
    that the cart already took. *)
Theorem cart_read_failure_reports_error cfg net s :
  Builder.cartItems s <> [] ->
  cart_add net (Builder.cartItems s) = AddResponse true true ->
  cart_read net = CartRejects \/ cart_read net = CartResponse None ->
  Builder.submit cfg net s
  = (Failed, [ReqCartAdd (Builder.cartItems s); ReqCart], s) /\
  forall net', exists o reqs s2,
    Builder.submit cfg net' s
    = (o, ReqCartAdd (Builder.cartItems s) :: reqs, s2).
Proof.
  intros Hne Hadd Hcart. split.
  - rewrite submit_cases.
    destruct (Builder.cartItems s) as [|it rest]; [congruence|].
    cbv beta iota zeta. rewrite Hadd. now destruct Hcart as [-> | ->].
  - intros net'. rewrite submit_cases.
    destruct (Builder.cartItems s) as [|it rest]; [congruence|].
    cbv beta iota zeta.
    destruct (cart_add net' (it :: rest)) as [|[|] [|]];
      try destruct (cart_read net') as [|[m|]]; eauto.
Qed.

Lemma cart_read_failure_reports_error_witness :
  let net := mkNetwork (fun _ => AddResponse true true) CartRejects in
  Builder.submit Examples.B.catalog net Examples.B.withBall
  = (Failed,
     [ReqCartAdd (Builder.cartItems Examples.B.withBall); ReqCart],
     Examples.B.withBall).
Proof.
  intros net.
  apply (cart_read_failure_reports_error Examples.B.catalog net
           Examples.B.withBall).
  - vm_compute. discriminate.
  - reflexivity.
  - left. reflexivity.
Defined.

(** The batch never has more items than the summary counts; when every
    entry has a usable id and a quantity of at least one, it has one item
    per entry, in the order of the summary, with the entry's id and
    quantity. *)
Theorem cartItems_follow_selection s :
  (List.length (Builder.cartItems s)
   <= Builder.itemCount (Builder.updateSummary s))%nat /\
  (Forall (fun kv => Builder.entry_ok kv /\
                     Js.truthy (Builder.id (snd kv)) = true)
          (Builder.selectedProducts s) ->
   Builder.cartItems s
   = map (fun p => mkItem (Builder.id p) (Builder.quantity p))
         (Obj.values (Builder.selectedProducts s))).
Proof.
  unfold Builder.cartItems, Builder.updateSummary. cbn [Builder.itemCount].
  split.
  - rewrite length_map. apply filter_length_le.
  - unfold Obj.values.
    induction 1 as [|[k p] r [[_ (q & Hq & Hge)] Hid] Hr IH]; simpl;
      [reflexivity|].
    simpl in Hq, Hid. rewrite Hid. simpl. rewrite IH. f_equal.
    rewrite Hq. now rewrite JsFacts.or_else_one.
Qed.

Lemma cartItems_follow_selection_witness :
  Builder.cartItems Examples.B.tripled = [mkItem (Js.Num 111) (Js.Num 3)].
Proof.
  rewrite (proj2 (cartItems_follow_selection Examples.B.tripled)).
  - vm_compute. reflexivity.
  - constructor; [|constructor]. repeat split.
    exists 3. split; [reflexivity | lia].
Defined.

(** ** How clicks move the summary *)

Lemma total_app l1 l2 :
  Js.total (l1 ++ l2) = Js.add (Js.total l1) (Js.total l2).
Proof.
  induction l1 as [|x l1 IH]; simpl.
  - now destruct (Js.total l2).
  - now rewrite IH, JsFacts.add_assoc.
Qed.

Lemma total_priced_num l :
  Forall Builder.priced l -> exists z, Js.total (map Builder.amount l) = Js.Num z.
Proof.
  induction 1 as [|p r (u & q & Hu & Hq & _) Hr [z Hz]]; simpl.
  - now exists 0.
  - unfold Builder.amount at 1. rewrite Hu, Hq, Hz. simpl. eauto.
Qed.

Lemma grandTotal_priced s :
  Forall Builder.priced (Obj.values (Builder.selectedProducts s)) ->
  Builder.grandTotal (Builder.updateSummary s)
  = Js.total (map Builder.amount (Obj.values (Builder.selectedProducts s))).
Proof.
  intros H. unfold Builder.updateSummary. cbn [Builder.grandTotal].
  rewrite builder_total_priced by assumption. simpl.
  now destruct (Js.total _).
Qed.

(** A click on [+] or [−] that goes through moves the grand total by the
    unit price of that line times the change, and changes neither the
    number of lines nor their order. *)
Theorem quantity_change_moves_total s k dtxt d p u q :
  Forall Builder.priced (Obj.values (Builder.selectedProducts s)) ->
  k <> "" ->
  Js.parseInt_str dtxt = Js.Num d ->
  Obj.get k (Builder.selectedProducts s) = Some p ->
  Builder.price p = Js.Num u ->
  Builder.quantity p = Js.Num q ->
  1 <= q + d ->
  let s' := Builder.handleQtyChange (Some k) dtxt s in
  Builder.grandTotal (Builder.updateSummary s')
  = Js.add (Builder.grandTotal (Builder.updateSummary s)) (Js.Num (u * d)) /\
  Builder.itemCount (Builder.updateSummary s')
  = Builder.itemCount (Builder.updateSummary s) /\
  map Builder.l_slotKey (Builder.lines (Builder.updateSummary s'))
  = map Builder.l_slotKey (Builder.lines (Builder.updateSummary s)).
Proof.
  intros Hpr Hk Hd Hp Hu Hq Hok s'.
  destruct (ObjMore.get_split _ _ _ Hp) as (l1 & l2 & Ho & Hset).
  assert (Hq1 : 1 <= q).
  { rewrite Forall_forall in Hpr.
    destruct (Hpr p (ObjFacts.get_In _ _ _ Hp)) as (u' & q' & _ & Hq' & Hge).
    congruence. }
  set (p' := Builder.with_quantity (Js.Num (q + d)) p).
  assert (Hsel : Builder.selectedProducts s' = (l1 ++ (k, p') :: l2)%list).
  { subst s'. unfold Builder.handleQtyChange.
    destruct k as [|c r]; [congruence|].
    rewrite Hp, Hq, Hd, JsFacts.or_else_one by assumption. simpl.
    destruct (Z.ltb_spec (q + d) 1); [lia|]. cbn. apply Hset. }
  assert (Hv : Obj.values (Builder.selectedProducts s)
               = (Obj.values l1 ++ p :: Obj.values l2)%list).
  { rewrite Ho. unfold Obj.values. now rewrite map_app. }
  assert (Hv' : Obj.values (Builder.selectedProducts s')
                = (Obj.values l1 ++ p' :: Obj.values l2)%list).
  { rewrite Hsel. unfold Obj.values. now rewrite map_app. }
  rewrite Hv in Hpr. apply Forall_app in Hpr as [Hp1 Hp2].
  apply Forall_cons_iff in Hp2 as [Hpp Hp2].
  assert (Hpp' : Builder.priced p').
  { exists u, (q + d). repeat split; assumption. }
  destruct (total_priced_num _ Hp1) as [z1 Hz1].
  destruct (total_priced_num _ Hp2) as [z2 Hz2].
  split; [|split].
  - rewrite !grandTotal_priced.
    + rewrite Hv, Hv', !map_app, !total_app. simpl.
      rewrite Hz1, Hz2. unfold Builder.amount, p'. cbn. rewrite Hu, Hq.
      simpl. f_equal. ring.
    + rewrite Hv. apply Forall_app. split; [assumption|]. now constructor.
    + rewrite Hv'. apply Forall_app. split; [assumption|]. now constructor.
  - unfold Builder.updateSummary. cbn [Builder.itemCount].
    rewrite Hv, Hv', !length_app. reflexivity.
  - unfold Builder.updateSummary. cbn [Builder.lines].
    rewrite Hv, Hv', !map_app. reflexivity.
Qed.

Lemma quantity_change_moves_total_witness :
  let s := Examples.B.withBall in
  Builder.grandTotal
    (Builder.updateSummary (Builder.handleQtyChange (Some "ball-0") (Some "1") s))
  = Js.Num 30900.
Proof.
  intros s.
  destruct (quantity_change_moves_total s "ball-0" (Some "1") 1
              (Builder.productOf Examples.ball0 "ball-0") 500 1) as [H _].
  - constructor; [|constructor; [|constructor]].
    + exists 29900, 1. repeat split. lia.
    + exists 500, 1. repeat split. lia.
  - discriminate.
  - reflexivity.
  - vm_compute. reflexivity.
  - reflexivity.
  - reflexivity.
  - lia.
  - rewrite H. vm_compute. reflexivity.
Defined.

(** Selecting an accessory on a free slot adds one line at the end of the
    summary, with quantity one and the card's price, and raises the grand
    total by that price. *)
Theorem selecting_accessory_adds_line card s u :
  Js.str_is (productType card) "shaft" = false ->
  Js.truthy_str (variantId card) = true ->
  Obj.get (Builder.accessorySlotKey card) (Builder.selectedProducts s) = None ->
  Js.parseInt (Js.or_str (dataPrice card) "0") = Js.Num u ->
  let s' := Builder.handleProductCardClick card s in
  Builder.lines (Builder.updateSummary s')
  = (Builder.lines (Builder.updateSummary s)
     ++ [Builder.mkLine (Builder.accessorySlotKey card)
                        (Js.or_str (titleText card) "") (Js.Num 1) (Js.Num u)])%list /\
  Builder.grandTotal (Builder.updateSummary s')
  = Js.add (Builder.grandTotal (Builder.updateSummary s)) (Js.Num u) /\
  Builder.itemCount (Builder.updateSummary s')
  = S (Builder.itemCount (Builder.updateSummary s)).
Proof.
  intros Hacc Hid Hfree Hu s'.
  set (key := Builder.accessorySlotKey card) in *.
  assert (Hv : Obj.values (Builder.selectedProducts s')
               = (Obj.values (Builder.selectedProducts s)
                  ++ [Builder.productOf card key])%list).
  { subst s'. unfold Builder.handleProductCardClick.
    rewrite Hid, Hacc. fold key. rewrite Hfree. cbn [negb].
    cbn [Builder.selectedProducts Builder.with_selected].
    now apply ObjFacts.values_set_absent. }
  assert (Hline : Builder.lineOf (Builder.productOf card key)
                  = Builder.mkLine key (Js.or_str (titleText card) "")
                                   (Js.Num 1) (Js.Num u)).
  { unfold Builder.lineOf, Builder.productOf. cbn. rewrite Hu.
    rewrite JsFacts.or_else_zero. cbn. now rewrite Z.mul_1_r. }
  unfold Builder.updateSummary.
  cbn [Builder.lines Builder.grandTotal Builder.itemCount].
  rewrite Hv. split; [|split].
  - now rewrite map_app, <- Hline.
  - rewrite fold_left_app. cbn [fold_left].
    f_equal. unfold Builder.productOf. cbn. rewrite Hu.
    rewrite JsFacts.or_else_zero. cbn. now rewrite Z.mul_1_r.
  - rewrite length_app. simpl. lia.
Qed.

Lemma selecting_accessory_adds_line_witness :
  let s' := Builder.handleProductCardClick Examples.ball1 Examples.B.withBall in
  Builder.grandTotal (Builder.updateSummary s') = Js.Num 31100 /\
  Builder.itemCount (Builder.updateSummary s') = 3%nat.
Proof.
  intros s'.
  destruct (selecting_accessory_adds_line Examples.ball1 Examples.B.withBall 700)
    as (_ & Ht & Hc).
  - reflexivity.
  - reflexivity.
  - vm_compute. reflexivity.
  - reflexivity.
  - subst s'. rewrite Ht, Hc. vm_compute. split; reflexivity.
Defined.

(** ** Numbers written into the markup and read back *)

Module MarkupFacts.
Import Markup.

Lemma small_cases m :
  0 <= m < 10 ->
  m = 0 \/ m = 1 \/ m = 2 \/ m = 3 \/ m = 4 \/
  m = 5 \/ m = 6 \/ m = 7 \/ m = 8 \/ m = 9.
Proof. lia. Qed.

Lemma digit_digitChar m : 0 <= m < 10 -> Js.digit (digitChar m) = Some m.
Proof.
  intros H. destruct (small_cases m H) as [->|[->|[->|[->|[->|[->|[->|[->|[->| ->]]]]]]]]];
    reflexivity.
Qed.

(** A string that starts with a digit is read as it stands: no white space
    to skip, no sign. *)
Lemma parseInt_digit_head m r :
  0 <= m < 10 ->
  Js.parseInt (String (digitChar m) r)
  = match Js.digits (String (digitChar m) r) (Some 0) with
    | Some v => Js.Num v
    | None => Js.NaN
    end.
Proof.
  intros H. destruct (small_cases m H) as [->|[->|[->|[->|[->|[->|[->|[->|[->| ->]]]]]]]]];
    unfold Js.parseInt, Js.of_digits; simpl;
    match goal with
    | |- context [Js.digits r ?a] => destruct (Js.digits r a) as [v|]
    end; try reflexivity; now destruct v.
Qed.

Lemma digits_cons c r a d :
  Js.digit c = Some d ->
  Js.digits (String c r) (Some a) = Js.digits r (Some (10 * a + d)).
Proof. intros H. simpl. now rewrite H. Qed.

Lemma decimal_head f n rest :
  exists m r, 0 <= m < 10 /\ decimal (S f) n rest = String (digitChar m) r.
Proof.
  revert n rest. induction f as [|f IH]; intros n rest.
  - exists (n mod 10). simpl. destruct (n <? 10); eexists; split;
      try reflexivity; apply Z.mod_pos_bound; lia.
  - change (decimal (S (S f)) n rest)
      with (if n <? 10 then String (digitChar (n mod 10)) rest
            else decimal (S f) (n / 10) (String (digitChar (n mod 10)) rest)).
    destruct (n <? 10).
    + exists (n mod 10), rest. split; [apply Z.mod_pos_bound; lia | reflexivity].
    + apply IH.
Qed.

Lemma digits_decimal f :
  forall n rest a,
    0 <= n < 10 ^ Z.of_nat f ->
    exists k, 0 <= k /\
      Js.digits (decimal f n rest) (Some a)
      = Js.digits rest (Some (a * 10 ^ k + n)).
Proof.
  induction f as [|f IH]; intros n rest a Hn.
  - exists 0. split; [lia|]. simpl in *.
    assert (n = 0) as -> by lia. f_equal. f_equal. lia.
  - change (decimal (S f) n rest)
      with (if n <? 10 then String (digitChar (n mod 10)) rest
            else decimal f (n / 10) (String (digitChar (n mod 10)) rest)).
    destruct (Z.ltb_spec n 10) as [Hlt | Hge].
    + exists 1. split; [lia|].
      rewrite Z.mod_small by lia.
      rewrite (digits_cons _ _ _ n) by (apply digit_digitChar; lia).
      f_equal. f_equal. lia.
    + assert (Hdiv : 0 <= n / 10 < 10 ^ Z.of_nat f).
      { split; [apply Z.div_pos; lia|].
        apply Z.div_lt_upper_bound; [lia|].
        rewrite Nat2Z.inj_succ, Z.pow_succ_r in Hn; lia. }
      destruct (IH (n / 10) (String (digitChar (n mod 10)) rest) a Hdiv)
        as (k & Hk & E).
      exists (Z.succ k). split; [lia|].
      rewrite E.
      rewrite (digits_cons _ _ _ (n mod 10))
        by (apply digit_digitChar, Z.mod_pos_bound; lia).
      f_equal. f_equal. rewrite Z.pow_succ_r by assumption.
      pose proof (Z.div_mod n 10 ltac:(lia)). lia.
Qed.

Lemma enough_fuel n :
  0 <= n -> n < 10 ^ Z.of_nat (S (Z.to_nat (Z.log2 n))).
Proof.
  intros H. rewrite Nat2Z.inj_succ, Z2Nat.id by apply Z.log2_nonneg.
  destruct (Z.eq_dec n 0) as [-> | Hne]; [reflexivity|].
  destruct (Z.log2_spec n ltac:(lia)) as [_ Hlt].
  eapply Z.lt_le_trans; [exact Hlt|].
  apply Z.pow_le_mono_l. lia.
Qed.

Lemma parseInt_decimal n :
  0 <= n ->
  Js.digits (decimal (S (Z.to_nat (Z.log2 n))) n EmptyString) (Some 0) = Some n.
Proof.
  intros H.
  destruct (digits_decimal _ n EmptyString 0 (conj H (enough_fuel n H)))
    as (k & _ & E).
  rewrite E. reflexivity.
Qed.

Lemma read_back n : Js.parseInt (toString n) = Js.Num n.
Proof.
  unfold toString. destruct (Z.ltb_spec n 0) as [Hneg | Hpos].
  - destruct (decimal_head (Z.to_nat (Z.log2 (- n))) (- n) EmptyString)
      as (m & r & Hm & E).
    pose proof (parseInt_decimal (- n) ltac:(lia)) as P.
    rewrite E in *.
    rewrite (digits_cons _ _ _ m) in P
      by (now apply digit_digitChar).
    change (Js.parseInt (String "-" (String (digitChar m) r)))
      with (Js.of_digits (-1) (String (digitChar m) r)).
    unfold Js.of_digits.
    change (Js.digits (String (digitChar m) r) None)
      with (match Js.digit (digitChar m) with
            | Some d => Js.digits r (Some d)
            | None => None
            end).
    rewrite digit_digitChar by assumption.
    replace (10 * 0 + m) with m in P by lia.
    rewrite P. f_equal. lia.
  - destruct (decimal_head (Z.to_nat (Z.log2 n)) n EmptyString)
      as (m & r & Hm & E).
    pose proof (parseInt_decimal n Hpos) as P.
    rewrite E in *. rewrite parseInt_digit_head by assumption.
    now rewrite P.
Qed.

Lemma toString_truthy n : Js.truthy_str (Some (toString n)) = true.
Proof.
  unfold toString. destruct (n <? 0); [reflexivity|].
  destruct (decimal_head (Z.to_nat (Z.log2 n)) n EmptyString)
    as (m & r & _ & ->).
  reflexivity.
Qed.

Lemma or_str_truthy s d : Js.truthy_str (Some s) = true -> Js.or_str (Some s) d = s.
Proof. destruct s; [discriminate | reflexivity]. Qed.

End MarkupFacts.

(** The cards shown after a size was chosen carry the catalog's id and
    price as text.  For an id and a price below [2^53] in absolute value,
    the range in which a number is written out in full and read back
    exactly, a click on such a card stores an entry with that id and that
    price, under ["shaft"], with quantity one. *)
Theorem rendered_shaft_card_selects_variant cfg value s v n p :
  Builder.has_shaftDisplay (Builder.template cfg) = true ->
  let s1 := Builder.handleChipClick cfg "shaft-size" value s in
  In (Builder.shaftCard v) (Builder.shaftCards s1) ->
  Z.abs n < 2 ^ 53 ->
  Z.abs p < 2 ^ 53 ->
  Builder.v_id v = Markup.toString n ->
  Builder.v_price v = Markup.toString p ->
  exists product,
    Obj.get "shaft"
      (Builder.selectedProducts
         (Builder.handleProductCardClick (Builder.shaftCard v) s1))
    = Some product /\
    Builder.id product = Js.Num n /\
    Builder.price product = Js.Num p /\
    Builder.quantity product = Js.Num 1 /\
    Builder.slotKey product = "shaft".
Proof.
  intros Hd s1 _ _ _ Hid Hprice.
  assert (Hfree : Obj.get "shaft" (Builder.selectedProducts s1) = None)
    by (now apply chooseShaftSize_clears_shaft).
  exists (Builder.productOf (Builder.shaftCard v) "shaft").
  split.
  - unfold Builder.handleProductCardClick.
    cbn [variantId productType Builder.shaftCard Js.str_is].
    rewrite Hid, MarkupFacts.toString_truthy. simpl String.eqb. cbv iota.
    rewrite Hfree. cbn [negb Builder.selectedProducts Builder.with_selected].
    apply ObjFacts.get_set_same.
  - unfold Builder.productOf.
    cbn [variantId dataPrice Builder.shaftCard Builder.id Builder.price
         Builder.quantity Builder.slotKey].
    rewrite Hid, Hprice. unfold Js.parseInt_str. cbn [Js.template].
    rewrite (MarkupFacts.or_str_truthy (Markup.toString p))
      by apply MarkupFacts.toString_truthy.
    rewrite !MarkupFacts.read_back. repeat split.
Qed.

Lemma rendered_shaft_card_selects_variant_witness :
  let s1 := Builder.handleChipClick Examples.B.catalog "shaft-size" "31in"
              Examples.B.withBall in
  exists product,
    Obj.get "shaft"
      (Builder.selectedProducts
         (Builder.handleProductCardClick
            (Builder.shaftCard Examples.B.shaft112) s1))
    = Some product /\
    Builder.id product = Js.Num 112 /\
    Builder.price product = Js.Num 31900 /\
    Builder.quantity product = Js.Num 1 /\
    Builder.slotKey product = "shaft".
Proof.
  intros s1.
  apply (rendered_shaft_card_selects_variant Examples.B.catalog "31in"
           Examples.B.withBall Examples.B.shaft112 112 31900).
  - reflexivity.
  - vm_compute. right. left. reflexivity.
  - reflexivity.
  - reflexivity.
  - vm_compute. reflexivity.
  - vm_compute. reflexivity.
Defined.


(** ** Escaping and image URLs *)

Module EscapeFacts.
Import Markup.

Lemma occurs_app c x y : occurs c (x ++ y) = (occurs c x || occurs c y)%bool.
Proof.
  induction x as [|a x IH]; simpl; [reflexivity|].
  now rewrite IH, orb_assoc.
Qed.

(** After [replace(/c/g, by)] no [c] is left, as long as [by] has none. *)
Lemma replaceAll_removes c by_ s :
  occurs c by_ = false -> occurs c (replaceAll c by_ s) = false.
Proof.
  intros Hb. induction s as [|a s IH]; simpl; [reflexivity|].
  destruct (Ascii.eqb a c) eqn:E.
  - now rewrite occurs_app, Hb, IH.
  - simpl. now rewrite E, IH.
Qed.

(** A later replacement brings no [c] back, as long as its [by] has none. *)
Lemma replaceAll_keeps_absent c c' by_ s :
  occurs c by_ = false -> occurs c s = false ->
  occurs c (replaceAll c' by_ s) = false.
Proof.
  intros Hb. induction s as [|a s IH]; simpl; [reflexivity|].
  intros H. apply orb_false_iff in H as [Ha Hs].
  destruct (Ascii.eqb a c').
  - now rewrite occurs_app, Hb, IH.
  - simpl. now rewrite Ha, IH.
Qed.

Lemma append_assoc (x y z : string) : (x ++ y) ++ z = x ++ (y ++ z).
Proof.
  induction x as [|a x IH]; simpl; [reflexivity | now rewrite IH].
Qed.

Lemma replaceAll_app c by_ x y :
  replaceAll c by_ (x ++ y) = replaceAll c by_ x ++ replaceAll c by_ y.
Proof.
  induction x as [|a x IH]; simpl; [reflexivity|].
  rewrite IH. destruct (Ascii.eqb a c); [|reflexivity].
  now rewrite append_assoc.
Qed.

Lemma replaceAll_absent c by_ s :
  occurs c s = false -> replaceAll c by_ s = s.
Proof.
  induction s as [|a s IH]; simpl; [reflexivity|].
  intros H. apply orb_false_iff in H as [-> Hs]. now rewrite IH.
Qed.

(** The four passes of [escHtml] on one character. *)
Lemma escHtml_one a :
  replaceAll dquote "&quot;"
    (replaceAll gt "&gt;"
       (replaceAll lt "&lt;"
          (if Ascii.eqb a amp then "&amp;" else String a EmptyString)))
  = escHtmlChar a.
Proof.
  unfold escHtmlChar.
  destruct (Ascii.eqb a amp) eqn:E1; [reflexivity|].
  simpl replaceAll at 3.
  destruct (Ascii.eqb a lt) eqn:E2; [reflexivity|].
  simpl replaceAll at 2.
  destruct (Ascii.eqb a gt) eqn:E3; [reflexivity|].
  simpl. now destruct (Ascii.eqb a dquote).
Qed.

Lemma escHtml_flat s : escHtml s = flatMap escHtmlChar s.
Proof.
  induction s as [|a s IH]; [reflexivity|].
  simpl flatMap. rewrite <- IH, <- escHtml_one. unfold escHtml.
  rewrite <- !replaceAll_app. f_equal. f_equal. f_equal.
  simpl. now destruct (Ascii.eqb a amp).
Qed.

End EscapeFacts.

(** The four replacements of [escHtml], one after the other, come to one
    pass that turns each of the four special characters into its entity
    and copies every other character: no ampersand of an entity written by
    an earlier replacement is escaped again. *)
Theorem escHtml_escapes_each_character s :
  Markup.escHtml s = Markup.flatMap Markup.escHtmlChar s.
Proof. apply EscapeFacts.escHtml_flat. Qed.

(** Escaped text holds no [<], no [>] and no double quote, and text without
    any of the four special characters is left as it is. *)
Theorem escHtml_output_is_text s :
  Markup.occurs Markup.lt (Markup.escHtml s) = false /\
  Markup.occurs Markup.gt (Markup.escHtml s) = false /\
  Markup.occurs Markup.dquote (Markup.escHtml s) = false /\
  (Markup.occurs Markup.amp s = false ->
   Markup.occurs Markup.lt s = false ->
   Markup.occurs Markup.gt s = false ->
   Markup.occurs Markup.dquote s = false ->
   Markup.escHtml s = s).
Proof.
  unfold Markup.escHtml. repeat split.
  - do 2 (apply EscapeFacts.replaceAll_keeps_absent; [reflexivity|]).
    now apply EscapeFacts.replaceAll_removes.
  - apply EscapeFacts.replaceAll_keeps_absent; [reflexivity|].
    now apply EscapeFacts.replaceAll_removes.
  - now apply EscapeFacts.replaceAll_removes.
  - intros Ha Hl Hg Hq.
    now rewrite (EscapeFacts.replaceAll_absent Markup.amp),
      (EscapeFacts.replaceAll_absent Markup.lt),
      (EscapeFacts.replaceAll_absent Markup.gt),
      (EscapeFacts.replaceAll_absent Markup.dquote).
Qed.

(** An escaped attribute value holds neither kind of quote, so it cannot
    end the attribute it is written into. *)
Theorem escAttr_output_has_no_quote s :
  Markup.occurs Markup.dquote (Markup.escAttr s) = false /\
  Markup.occurs Markup.squote (Markup.escAttr s) = false.
Proof.
  unfold Markup.escAttr. split.
  - apply EscapeFacts.replaceAll_keeps_absent; [reflexivity|].
    now apply EscapeFacts.replaceAll_removes.
  - now apply EscapeFacts.replaceAll_removes.
Qed.

Module ImageFacts.
Import Markup.

Lemma afterLetters_extension ext tail :
  allLetters ext = true -> queryOrEnd tail = true ->
  afterLetters (ext ++ tail) = tail.
Proof.
  intros He Ht. induction ext as [|c ext IH]; simpl in *.
  - destruct tail as [|q tail]; [reflexivity|]. simpl in Ht.
    apply Ascii.eqb_eq in Ht; subst q. reflexivity.
  - apply andb_true_iff in He as [-> He]. now apply IH.
Qed.

Lemma extensionAt_extension c ext tail :
  isLetter c = true -> allLetters ext = true -> queryOrEnd tail = true ->
  extensionAt (String c ext ++ tail) = true.
Proof.
  intros Hc He Ht. unfold extensionAt.
  change (String c ext ++ tail) with (String c (ext ++ tail)) at 1.
  cbv iota. rewrite Hc.
  rewrite (afterLetters_extension (String c ext) tail); [exact Ht | | exact Ht].
  simpl. now rewrite Hc.
Qed.

(** What follows the run of letters of [r ++ "." ++ x] starts the same way
    whatever [x] is: the run ends at the dot at the latest. *)
Lemma queryOrEnd_afterLetters_dot r x y :
  queryOrEnd (afterLetters (r ++ String "." x))
  = queryOrEnd (afterLetters (r ++ String "." y)).
Proof.
  induction r as [|c r IH]; simpl; [reflexivity|].
  destruct (isLetter c); [exact IH | reflexivity].
Qed.

Lemma extensionAt_dot r x y :
  extensionAt (r ++ String "." x) = extensionAt (r ++ String "." y).
Proof.
  destruct r as [|c r]; [reflexivity|].
  unfold extensionAt.
  change (String c r ++ String "." x) with (String c (r ++ String "." x)).
  change (String c r ++ String "." y) with (String c (r ++ String "." y)).
  cbv iota. f_equal.
  apply (queryOrEnd_afterLetters_dot (String c r) x y).
Qed.

Lemma insert_after_stem ins stem rest :
  hasExtension (stem ++ ".") = false ->
  extensionAt rest = true ->
  insertBeforeExtension ins (stem ++ String "." rest)
  = stem ++ ins ++ String "." rest.
Proof.
  intros Hs Hr. induction stem as [|c stem IH].
  - simpl. now rewrite Hr.
  - change (String c stem ++ ".") with (String c (stem ++ ".")) in Hs.
    simpl hasExtension in Hs. apply orb_false_iff in Hs as [Hc Hs].
    change (String c stem ++ String "." rest)
      with (String c (stem ++ String "." rest)).
    simpl insertBeforeExtension.
    rewrite (extensionAt_dot stem rest EmptyString), Hc.
    now rewrite (IH Hs).
Qed.

Lemma insert_without_extension ins src :
  hasExtension src = false -> insertBeforeExtension ins src = src.
Proof.
  induction src as [|c r IH]; simpl; [reflexivity|].
  intros H. apply orb_false_iff in H as [-> H]. now rewrite IH.
Qed.

End ImageFacts.

(** For a URL made of a stem in which the pattern finds nothing, a dot, an
    extension of letters, and then nothing or a query string, [getImageUrl]
    puts [_<size>x] right in front of that dot and keeps everything else,
    query string included. *)
Theorem getImageUrl_sizes_before_extension stem c ext tail size :
  Markup.hasExtension (stem ++ ".") = false ->
  Markup.isLetter c = true ->
  Markup.allLetters ext = true ->
  Markup.queryOrEnd tail = true ->
  Markup.getImageUrl
    (Markup.ImageUrl (stem ++ String "." (String c ext ++ tail))) size
  = stem ++ ("_" ++ Markup.toString size ++ "x")
         ++ String "." (String c ext ++ tail).
Proof.
  intros Hs Hc He Ht. unfold Markup.getImageUrl.
  apply ImageFacts.insert_after_stem; [exact Hs|].
  now apply ImageFacts.extensionAt_extension.
Qed.

Lemma getImageUrl_sizes_before_extension_witness :
  Markup.getImageUrl
    (Markup.ImageUrl "https://cdn.shopify.com/s/files/1/bat.png?v=12") 200
  = "https://cdn.shopify.com/s/files/1/bat_200x.png?v=12".
Proof.
  apply (getImageUrl_sizes_before_extension
           "https://cdn.shopify.com/s/files/1/bat" "p"%char "ng" "?v=12" 200);
    reflexivity.
Defined.

(** Without an image, or with a source in which the pattern finds no
    extension, [getImageUrl] gives the source back unchanged (the empty
    string when there is no source). *)
Theorem getImageUrl_without_extension :
  (forall size, Markup.getImageUrl Markup.NoImage size = "") /\
  (forall size, Markup.getImageUrl (Markup.ImageObject None) size = "") /\
  (forall url size,
      Markup.hasExtension url = false ->
      Markup.getImageUrl (Markup.ImageUrl url) size = url) /\
  (forall url size,
      Markup.hasExtension url = false ->
      Markup.getImageUrl (Markup.ImageObject (Some url)) size = url).
Proof.
  repeat split; try reflexivity.
  - intros url size H. now apply ImageFacts.insert_without_extension.
  - intros url size H. unfold Markup.getImageUrl.
    destruct url; [reflexivity|].
    now apply ImageFacts.insert_without_extension.
Qed.

Lemma getImageUrl_without_extension_witness :
  Markup.getImageUrl (Markup.ImageUrl "https://cdn.shopify.com/files/bat") 200
  = "https://cdn.shopify.com/files/bat".
Proof.
  apply (proj1 (proj2 (proj2 getImageUrl_without_extension))). reflexivity.
Defined.

(** ** Headings and the embedded data *)

Lemma find_label_none (ls : list Headings.SportLabel) sport :
  (forall l, In l ls -> Headings.sportHandle l <> sport) ->
  find (fun l => String.eqb (Headings.sportHandle l) sport) ls = None.
Proof.
  induction ls as [|l ls IH]; simpl; intros H; [reflexivity|].
  destruct (String.eqb_spec (Headings.sportHandle l) sport) as [E|_].
  - exfalso. apply (H l); auto.
  - apply IH. intros l' Hl'. apply H. now right.
Qed.

(** The headings after a sport click depend on that sport alone, not on
    what was shown before; a sport without an entry in the labels (or any
    sport while the labels are undefined) brings back the cached defaults,
    which is what a reset shows; and a heading only ends up empty when its
    default is empty. *)
Theorem updateStepTitles_shows_label_or_default labels d t :
  (forall a b,
      Headings.updateStepTitles labels d b
        (Headings.updateStepTitles labels d a t)
      = Headings.updateStepTitles labels d b t) /\
  (forall b, Headings.updateStepTitles None d b t = Headings.resetTitles d t) /\
  (forall ls b,
      (forall l, In l ls -> Headings.sportHandle l <> b) ->
      Headings.updateStepTitles (Some ls) d b t = Headings.resetTitles d t) /\
  (forall b,
      Headings.typeTitle (Headings.updateStepTitles labels d b t) = Some "" ->
      Headings.defaultShaftTypeTitle d = "") /\
  (forall b,
      Headings.sizeTitle (Headings.updateStepTitles labels d b t) = Some "" ->
      Headings.defaultShaftSizeTitle d = "").
Proof.
  assert (Hor : forall ld pick fb,
             Headings.titleOr ld pick fb = "" -> fb = "").
  { intros [l|] pick fb; simpl; [|auto].
    destruct (pick l) as [[|c r]|]; simpl; auto; discriminate. }
  repeat split.
  - intros a b. unfold Headings.updateStepTitles.
    destruct t as [[x|] [y|]]; reflexivity.
  - intros ls b H. unfold Headings.updateStepTitles.
    now rewrite find_label_none.
  - intros b. unfold Headings.updateStepTitles. cbn [Headings.typeTitle].
    destruct (Headings.typeTitle t); [|discriminate].
    intros [= H]. now apply Hor in H.
  - intros b. unfold Headings.updateStepTitles. cbn [Headings.sizeTitle].
    destruct (Headings.sizeTitle t); [|discriminate].
    intros [= H]. now apply Hor in H.
Qed.

Lemma updateStepTitles_shows_label_or_default_witness :
  let labels := Some [Headings.mkSportLabel "softball" (Some "Pick a barrel") None] in
  let d := Headings.mkDefaults "Shaft type" "Shaft size" in
  Headings.updateStepTitles labels d "baseball"
    (Headings.updateStepTitles labels d "softball"
       (Headings.mkTitles (Some "Shaft type") (Some "Shaft size")))
  = Headings.mkTitles (Some "Shaft type") (Some "Shaft size").
Proof.
  intros labels d.
  destruct (updateStepTitles_shows_label_or_default labels d
              (Headings.mkTitles (Some "Shaft type") (Some "Shaft size")))
    as (Hlast & _ & Hnone & _).
  rewrite Hlast. unfold labels. rewrite Hnone; [reflexivity|].
  intros l [<- | []]. discriminate.
Defined.

Lemma updateStepTitles_label_free d t b :
  Headings.updateStepTitles None d b t = Headings.resetTitles d t.
Proof. reflexivity. Qed.

Lemma loadData_types_lost sportsEl typesEl sizesEl labelsEl :
  Feed.parsed sportsEl = None \/ Feed.parsed typesEl = None ->
  Feed.shaftTypes (Feed.loadData sportsEl typesEl sizesEl labelsEl Feed.constructed)
  = [].
Proof.
  unfold Feed.loadData.
  intros [H | H]; rewrite H; [reflexivity|].
  now destruct (Feed.parsed sportsEl).
Qed.

Lemma loadData_sizes_lost sportsEl typesEl sizesEl labelsEl :
  Feed.parsed sportsEl = None \/ Feed.parsed typesEl = None \/
  Feed.parsed sizesEl = None ->
  Feed.shaftSizes (Feed.loadData sportsEl typesEl sizesEl labelsEl Feed.constructed)
  = [].
Proof.
  unfold Feed.loadData.
  intros [H | [H | H]]; rewrite H.
  - reflexivity.
  - now destruct (Feed.parsed sportsEl).
  - now destruct (Feed.parsed sportsEl), (Feed.parsed typesEl).
Qed.

Lemma loadData_labels_lost sportsEl typesEl sizesEl labelsEl :
  Feed.parsed sportsEl = None \/ Feed.parsed typesEl = None \/
  Feed.parsed sizesEl = None \/ Feed.parsed labelsEl = None ->
  Feed.sportLabels (Feed.loadData sportsEl typesEl sizesEl labelsEl Feed.constructed)
  = None.
Proof.
  unfold Feed.loadData.
  intros [H | [H | [H | H]]]; rewrite H.
  - reflexivity.
  - now destruct (Feed.parsed sportsEl).
  - now destruct (Feed.parsed sportsEl), (Feed.parsed typesEl).
  - now destruct (Feed.parsed sportsEl), (Feed.parsed typesEl),
      (Feed.parsed sizesEl).
Qed.

(** One payload that does not parse costs every list that is read after
    it.  With the chip containers in the page: when the sports or the
    shaft types fail, no sport click offers a shaft type, however good the
    shaft types are in the first case; when one of the first three fails,
    no shaft-type click offers a size; and when any of the four fails, the
    labels stay undefined and every sport shows the default headings. *)
Theorem malformed_payload_empties_what_follows
        sportsEl typesEl sizesEl labelsEl tpl :
  let d := Feed.loadData sportsEl typesEl sizesEl labelsEl Feed.constructed in
  let cfg := Builder.mkConfig (Feed.catalogOf d) tpl in
  (Feed.parsed sportsEl = None \/ Feed.parsed typesEl = None ->
   Builder.has_shaftTypeChips tpl = true ->
   forall s sport t,
     Builder.offered (Builder.handleChipClick cfg "sport" sport s)
                     "shaft-type" t = false) /\
  (Feed.parsed sportsEl = None \/ Feed.parsed typesEl = None \/
   Feed.parsed sizesEl = None ->
   Builder.has_shaftSizeChips tpl = true ->
   forall s ty z,
     Builder.offered (Builder.handleChipClick cfg "shaft-type" ty s)
                     "shaft-size" z = false) /\
  (Feed.parsed sportsEl = None \/ Feed.parsed typesEl = None \/
   Feed.parsed sizesEl = None \/ Feed.parsed labelsEl = None ->
   forall defaults sport t,
     Headings.updateStepTitles (Feed.sportLabels d) defaults sport t
     = Headings.resetTitles defaults t).
Proof.
  intros d cfg. split; [|split].
  - intros H Hc s sport t.
    pose proof (loadData_types_lost sportsEl typesEl sizesEl labelsEl H) as E.
    fold d in E.
    unfold Builder.offered. simpl String.eqb. cbv iota.
    unfold Builder.handleChipClick, Builder.hideAccessoryPanels,
      Builder.hideShaftProduct, Builder.clearShaftSizeChips,
      Builder.hideStep, Builder.renderShaftTypes.
    simpl String.eqb. cbv iota.
    subst cfg. cbn [Builder.template Builder.data Feed.catalogOf
                    Builder.shaftTypes].
    rewrite Hc, E.
    destruct (Builder.has_shaftSizeChips tpl), (Builder.has_shaftDisplay tpl);
      reflexivity.
  - intros H Hc s ty z.
    pose proof (loadData_sizes_lost sportsEl typesEl sizesEl labelsEl H) as E.
    fold d in E.
    unfold Builder.offered. simpl String.eqb. cbv iota.
    unfold Builder.handleChipClick, Builder.hideAccessoryPanels,
      Builder.hideShaftProduct, Builder.renderShaftSizes.
    simpl String.eqb. cbv iota.
    subst cfg. cbn [Builder.template Builder.data Feed.catalogOf
                    Builder.shaftSizes].
    rewrite Hc, E.
    destruct (Builder.has_shaftDisplay tpl); reflexivity.
  - intros H defaults sport t.
    pose proof (loadData_labels_lost sportsEl typesEl sizesEl labelsEl H) as E.
    fold d in E. rewrite E.
    apply (updateStepTitles_label_free defaults t sport).
Qed.

Lemma malformed_payload_empties_what_follows_witness :
  let d := Feed.loadData Feed.Malformed
             (Feed.Parsed (Builder.shaftTypes (Builder.data Examples.B.catalog)))
             (Feed.Parsed (Builder.shaftSizes (Builder.data Examples.B.catalog)))
             Feed.Absent Feed.constructed in
  let cfg := Builder.mkConfig (Feed.catalogOf d)
                              (Builder.mkTemplate true true true) in
  Builder.offered (Builder.handleChipClick cfg "sport" "baseball" Builder.initial)
                  "shaft-type" "alloy" = false.
Proof.
  intros d cfg.
  apply (proj1 (malformed_payload_empties_what_follows
                  Feed.Malformed
                  (Feed.Parsed (Builder.shaftTypes (Builder.data Examples.B.catalog)))
                  (Feed.Parsed (Builder.shaftSizes (Builder.data Examples.B.catalog)))
                  Feed.Absent (Builder.mkTemplate true true true))).
  - left. reflexivity.
  - reflexivity.
Defined.

(** ** Reachable states *)

Lemma chip_step_reachable cfg field value s :
  Builder.reachable cfg s ->
  Builder.offered s field value = true ->
  Builder.reachable cfg (Builder.handleChipClick cfg field value s).
Proof.
  intros Hr Hoff.
  apply (Builder.reachable_step cfg (Builder.ChipClick field value) s Hr).
  - now intros f v [= <- <-].
  - discriminate.
Qed.

Lemma card_step_reachable cfg card s :
  Builder.reachable cfg s ->
  Builder.reachable cfg (Builder.handleProductCardClick card s).
Proof.
  intros Hr.
  apply (Builder.reachable_step cfg (Builder.CardClick card) s Hr);
    discriminate.
Qed.

Lemma withBall_reachable :
  Builder.reachable Examples.B.catalog Examples.B.withBall.
Proof.
  unfold Examples.B.withBall, Examples.B.withShaft111, Examples.B.chosen.
  do 2 apply card_step_reachable.
  apply chip_step_reachable; [|vm_compute; reflexivity].
  apply chip_step_reachable; [|vm_compute; reflexivity].
  apply chip_step_reachable; [|reflexivity].
  apply Builder.reachable_initial.
Qed.

(** *** The choices under clicks of every kind *)

Module ClicksFacts.
Import Builder Clicks.

Lemma tied_initial cfg : tied cfg initial.
Proof.
  repeat split; cbn; intros; try discriminate; try contradiction; reflexivity.
Qed.

Lemma tied_same_path cfg s s' :
  sport s' = sport s -> shaftType s' = shaftType s ->
  shaftSize s' = shaftSize s ->
  shaftTypeChips s' = shaftTypeChips s ->
  shaftSizeChips s' = shaftSizeChips s ->
  tied cfg s -> tied cfg s'.
Proof.
  unfold tied, pathInvariant. intros -> -> -> -> ->. trivial.
Qed.

Lemma tied_chooseSport cfg value s :
  tied cfg s -> tied cfg (handleChipClick cfg "sport" value s).
Proof.
  intros (_ & _ & _ & Hno_t & Hno_z).
  unfold tied, pathInvariant.
  unfold handleChipClick, hideAccessoryPanels, hideShaftProduct,
    clearShaftSizeChips, hideStep, renderShaftTypes.
  simpl String.eqb. cbv iota.
  destruct (has_shaftTypeChips (template cfg)) eqn:Ht,
           (has_shaftSizeChips (template cfg)) eqn:Hz,
           (has_shaftDisplay (template cfg)); cbn;
    repeat split; intros; try discriminate; try contradiction; auto;
    try (eexists; split; [reflexivity|];
         now apply BuilderFacts.typeChips_serve).
  all: try (rewrite Hno_t in * by reflexivity; contradiction).
  all: try (rewrite Hno_z in * by reflexivity; contradiction).
Qed.

Lemma tied_chooseShaftType cfg value s :
  inPage s "shaft-type" value = true ->
  tied cfg s -> tied cfg (handleChipClick cfg "shaft-type" value s).
Proof.
  unfold inPage. simpl String.eqb. cbv iota.
  intros Hin (Hpath & Hty & Hsz & Hno_t & Hno_z).
  apply BuilderFacts.In_existsb_eqb in Hin.
  destruct (Hty _ Hin) as (sp & Hsp & Hserve).
  unfold tied, pathInvariant.
  unfold handleChipClick, hideAccessoryPanels, hideShaftProduct,
    renderShaftSizes.
  simpl String.eqb. cbv iota.
  destruct (has_shaftSizeChips (template cfg)) eqn:Hz,
           (has_shaftDisplay (template cfg)); cbn;
    repeat split; intros; try discriminate; auto.
  all: try match goal with
           | H : Some _ = Some _ |- _ => injection H as <-
           end; eauto.
  all: try (eexists; split; [reflexivity|];
            now apply BuilderFacts.sizeChips_of_type).
  all: try (rewrite Hno_z in * by reflexivity; contradiction).
Qed.

Lemma tied_chooseShaftSize cfg value s :
  inPage s "shaft-size" value = true ->
  tied cfg s -> tied cfg (handleChipClick cfg "shaft-size" value s).
Proof.
  unfold inPage. simpl String.eqb. cbv iota.
  intros Hin (Hpath & Hty & Hsz & Hno_t & Hno_z).
  apply BuilderFacts.In_existsb_eqb in Hin.
  destruct (Hsz _ Hin) as (t & Ht & Hof).
  destruct Hpath as [Hp1 Hp2].
  unfold tied, pathInvariant.
  unfold handleChipClick, showAccessoryPanels, renderShaftProduct,
    hideShaftProduct.
  simpl String.eqb. cbv iota.
  destruct (has_shaftDisplay (template cfg)); cbn [negb].
  - destruct (sizeData cfg _) as [ss|]; [destruct (ss_shafts ss) as [[|v vs]|]|];
      cbn; repeat split; intros; auto;
      match goal with
      | H : Some _ = Some _ |- _ => injection H as <-; eauto
      end.
  - cbn; repeat split; intros; auto.
    match goal with
    | H : Some _ = Some _ |- _ => injection H as <-; eauto
    end.
Qed.

Lemma tied_handleChipClick cfg field value s :
  inPage s field value = true ->
  tied cfg s -> tied cfg (handleChipClick cfg field value s).
Proof.
  intros Hin Hs.
  destruct (String.eqb field "sport") eqn:E1.
  { apply String.eqb_eq in E1; subst. now apply tied_chooseSport. }
  destruct (String.eqb field "shaft-type") eqn:E2.
  { apply String.eqb_eq in E2; subst. now apply tied_chooseShaftType. }
  destruct (String.eqb field "shaft-size") eqn:E3.
  { apply String.eqb_eq in E3; subst. now apply tied_chooseShaftSize. }
  unfold handleChipClick. now rewrite E1, E2, E3.
Qed.

Lemma tied_handleProductCardClick cfg card s :
  tied cfg s -> tied cfg (handleProductCardClick card s).
Proof.
  apply tied_same_path; unfold handleProductCardClick, delete_shaft;
    destruct (negb (Js.truthy_str (variantId card)));
    destruct (Js.str_is (productType card) "shaft");
    repeat match goal with
           | |- context [match ?x with _ => _ end] => destruct x
           end; reflexivity.
Qed.

Lemma tied_handleRemoveFromSummary cfg k s :
  tied cfg s -> tied cfg (handleRemoveFromSummary k s).
Proof.
  apply tied_same_path; destruct k as [[|c r]|]; reflexivity.
Qed.

Lemma tied_handleQtyChange cfg k d s :
  tied cfg s -> tied cfg (handleQtyChange k d s).
Proof.
  apply tied_same_path; unfold handleQtyChange;
    destruct k as [[|c r]|]; try reflexivity;
    destruct (Obj.get _ _); try reflexivity;
    destruct (Js.lt _ _); reflexivity.
Qed.

Lemma reached_tied cfg s : reached cfg s -> tied cfg s.
Proof.
  induction 1 as [|e s Hr IH Hclick Hin].
  - apply tied_initial.
  - destruct e; cbn [step].
    + apply tied_handleChipClick; [now apply Hin | assumption].
    + now apply tied_handleProductCardClick.
    + now apply tied_handleRemoveFromSummary.
    + now apply tied_handleQtyChange.
    + discriminate.
Qed.

Lemma chip_step_reached cfg field value s :
  reached cfg s -> inPage s field value = true ->
  reached cfg (handleChipClick cfg field value s).
Proof.
  intros Hr Hin.
  apply (reached_step cfg (ChipClick field value) s Hr); [reflexivity|].
  now intros f v [= <- <-].
Qed.

Lemma card_step_reached cfg card s :
  reached cfg s -> reached cfg (handleProductCardClick card s).
Proof.
  intros Hr.
  apply (reached_step cfg (CardClick card) s Hr); [reflexivity | discriminate].
Qed.

Lemma withBall_reached : reached Examples.B.catalog Examples.B.withBall.
Proof.
  unfold Examples.B.withBall, Examples.B.withShaft111, Examples.B.chosen.
  do 2 apply card_step_reached.
  apply chip_step_reached; [|vm_compute; reflexivity].
  apply chip_step_reached; [|vm_compute; reflexivity].
  apply chip_step_reached; [|reflexivity].
  apply reached_initial.
Qed.

End ClicksFacts.

(** As long as no reset comes in between, the choices stay consistent under
    clicks of every kind: chips that are in the page (whether their step is
    shown or not), product cards, remove buttons and quantity buttons, in
    any order.  A chosen shaft type comes with a chosen sport that it
    lists, and a chosen shaft size with a chosen shaft type that it belongs
    to. *)
Theorem choices_consistent_without_reset cfg s :
  Clicks.reached cfg s -> Builder.pathInvariant cfg s.
Proof.
  intros H. apply ClicksFacts.reached_tied in H. apply H.
Qed.

Lemma choices_consistent_without_reset_witness :
  (Builder.sport Examples.B.withBall, Builder.shaftType Examples.B.withBall,
   Builder.shaftSize Examples.B.withBall)
  = (Some "baseball", Some "alloy", Some "31in") /\
  Builder.pathInvariant Examples.B.catalog Examples.B.withBall.
Proof.
  split; [reflexivity|].
  apply (choices_consistent_without_reset Examples.B.catalog).
  exact ClicksFacts.withBall_reached.
Defined.

Lemma reachable_entries_witness :
  Forall Builder.entry_ok (Builder.selectedProducts Examples.B.withBall).
Proof.
  apply (BuilderFacts.reachable_entries Examples.B.catalog).
  exact withBall_reachable.
Defined.

(** ** The older component: changing sport or shaft type *)

Lemma legacy_selected_hideShaftProduct cfg s :
  Legacy.selectedProducts (Legacy.hideShaftProduct cfg s)
  = Obj.delete "shaft" (Legacy.selectedProducts s).
Proof.
  unfold Legacy.hideShaftProduct.
  now destruct (Legacy.has_shaftDisplay (Legacy.template cfg)).
Qed.

Lemma legacy_selected_upstream cfg field value s k :
  field = "sport" \/ field = "shaft-type" ->
  Obj.get k (Legacy.selectedProducts (Legacy.handleChipClick cfg field value s))
  = if (String.eqb k "shaft" || Legacy.accessory_key k)%bool then None
    else Obj.get k (Legacy.selectedProducts s).
Proof.
  intros [-> | ->]; unfold Legacy.handleChipClick; simpl String.eqb; cbv iota;
    rewrite LegacyFacts.legacy_selected_hideAccessoryPanels,
      legacy_selected_hideShaftProduct.
  - unfold Legacy.clearShaftSizeChips, Legacy.hideStep, Legacy.renderShaftTypes.
    simpl String.eqb. cbv iota.
    destruct (Legacy.has_shaftTypeChips (Legacy.template cfg)),
             (Legacy.has_shaftSizeChips (Legacy.template cfg));
      cbn [Legacy.selectedProducts Legacy.delete_shaft Legacy.with_selected
           Legacy.with_path Legacy.with_typeChips Legacy.with_sizeChips negb];
      destruct (Legacy.accessory_key k);
      rewrite ?orb_true_r, ?orb_false_r; try reflexivity;
      (destruct (String.eqb k "shaft") eqn:E;
       [apply String.eqb_eq in E; subst k; apply ObjFacts.get_delete_same
       |apply String.eqb_neq in E;
        now rewrite !ObjFacts.get_delete_other by assumption]).
  - unfold Legacy.renderShaftSizes.
    destruct (Legacy.has_shaftSizeChips (Legacy.template cfg));
      cbn [Legacy.selectedProducts Legacy.delete_shaft Legacy.with_selected
           Legacy.with_path Legacy.with_sizeChips negb];
      destruct (Legacy.accessory_key k);
      rewrite ?orb_true_r, ?orb_false_r; try reflexivity;
      (destruct (String.eqb k "shaft") eqn:E;
       [apply String.eqb_eq in E; subst k; apply ObjFacts.get_delete_same
       |apply String.eqb_neq in E;
        now rewrite !ObjFacts.get_delete_other by assumption]).
Qed.

(** In the older component too, a new sport or a new shaft type removes the
    shaft entry and every ball and pineapple entry and forgets the shaft
    size, and leaves entries under other keys alone. *)
Theorem legacy_upstream_change_clears_downstream cfg field value s :
  field = "sport" \/ field = "shaft-type" ->
  let s' := Legacy.handleChipClick cfg field value s in
  Legacy.shaftSize s' = None /\
  Obj.get "shaft" (Legacy.selectedProducts s') = None /\
  (forall k, Legacy.accessory_key k = true ->
             Obj.get k (Legacy.selectedProducts s') = None) /\
  (forall k, k <> "shaft" -> Legacy.accessory_key k = false ->
             Obj.get k (Legacy.selectedProducts s')
             = Obj.get k (Legacy.selectedProducts s)).
Proof.
  intros Hf s'. split; [|split; [|split]].
  - subst s'. destruct Hf as [-> | ->];
      unfold Legacy.handleChipClick, Legacy.hideAccessoryPanels,
        Legacy.hideShaftProduct, Legacy.clearShaftSizeChips, Legacy.hideStep,
        Legacy.renderShaftTypes, Legacy.renderShaftSizes;
      simpl String.eqb; cbv iota;
      destruct (Legacy.has_shaftTypeChips (Legacy.template cfg)),
               (Legacy.has_shaftSizeChips (Legacy.template cfg)),
               (Legacy.has_shaftDisplay (Legacy.template cfg)); reflexivity.
  - subst s'. now rewrite legacy_selected_upstream.
  - intros k Hk. subst s'. rewrite legacy_selected_upstream, Hk by assumption.
    now rewrite orb_true_r.
  - intros k Hk Ha. subst s'. rewrite legacy_selected_upstream, Ha by assumption.
    apply String.eqb_neq in Hk. now rewrite Hk.
Qed.

Lemma legacy_upstream_change_clears_downstream_witness :
  let s' := Legacy.handleChipClick Examples.L.catalog "sport" "softball"
              Examples.L.withShaft111 in
  Legacy.shaftSize s' = None /\
  Obj.get "shaft" (Legacy.selectedProducts s') = None.
Proof.
  intros s'.
  destruct (legacy_upstream_change_clears_downstream Examples.L.catalog
              "sport" "softball" Examples.L.withShaft111 (or_introl eq_refl))
    as (H1 & H2 & _).
  split; assumption.
Defined.

(** ** Sizing an image twice *)

Module ResizeFacts.
Import Markup.

Lemma queryOrEnd_afterLetters_stop r c1 x c2 y :
  isLetter c1 = false -> isLetter c2 = false ->
  Ascii.eqb c1 "?" = Ascii.eqb c2 "?" ->
  queryOrEnd (afterLetters (r ++ String c1 x))
  = queryOrEnd (afterLetters (r ++ String c2 y)).
Proof.
  intros H1 H2 Hq. induction r as [|c r IH]; simpl.
  - now rewrite H1, H2.
  - destruct (isLetter c); [exact IH | reflexivity].
Qed.

Lemma extensionAt_stop r c1 x c2 y :
  isLetter c1 = false -> isLetter c2 = false ->
  Ascii.eqb c1 "?" = Ascii.eqb c2 "?" ->
  extensionAt (r ++ String c1 x) = extensionAt (r ++ String c2 y).
Proof.
  intros H1 H2 Hq. destruct r as [|c r].
  - simpl. now rewrite H1, H2.
  - unfold extensionAt.
    change (String c r ++ String c1 x) with (String c (r ++ String c1 x)).
    change (String c r ++ String c2 y) with (String c (r ++ String c2 y)).
    cbv iota. f_equal.
    now apply (queryOrEnd_afterLetters_stop (String c r)).
Qed.

(** A stem that the pattern leaves alone is still left alone once the
    first size suffix has been put behind it. *)
Lemma stem_with_suffix stem :
  hasExtension (stem ++ ".") = false ->
  hasExtension (stem ++ "_200x.") = false.
Proof.
  induction stem as [|c stem IH]; [reflexivity|].
  change (String c stem ++ ".") with (String c (stem ++ ".")).
  change (String c stem ++ "_200x.") with (String c (stem ++ "_200x.")).
  simpl hasExtension. intros H. apply orb_false_iff in H as [Hc Hs].
  rewrite (IH Hs), orb_false_r.
  now rewrite (extensionAt_stop stem "_" "200x." "." EmptyString).
Qed.

End ResizeFacts.

(** [renderShaftProduct] sizes the shaft image to 200 and the card's image
    source is what the older [updateSummary] sizes again to 120: the second
    call does not replace the first suffix, it puts its own behind it. *)
Theorem getImageUrl_stacks_suffixes stem c ext tail :
  Markup.hasExtension (stem ++ ".") = false ->
  Markup.isLetter c = true ->
  Markup.allLetters ext = true ->
  Markup.queryOrEnd tail = true ->
  Markup.getImageUrl
    (Markup.ImageUrl
       (Markup.getImageUrl
          (Markup.ImageUrl (stem ++ String "." (String c ext ++ tail))) 200))
    120
  = stem ++ "_200x" ++ "_120x" ++ String "." (String c ext ++ tail).
Proof.
  intros Hs Hc He Ht. unfold Markup.getImageUrl at 2.
  rewrite ImageFacts.insert_after_stem;
    [|exact Hs | now apply ImageFacts.extensionAt_extension].
  change ("_" ++ Markup.toString 200 ++ "x") with "_200x".
  rewrite <- EscapeFacts.append_assoc.
  unfold Markup.getImageUrl.
  rewrite ImageFacts.insert_after_stem.
  - change ("_" ++ Markup.toString 120 ++ "x") with "_120x".
    now rewrite !EscapeFacts.append_assoc.
  - rewrite EscapeFacts.append_assoc. now apply ResizeFacts.stem_with_suffix.
  - now apply ImageFacts.extensionAt_extension.
Qed.

Lemma getImageUrl_stacks_suffixes_witness :
  Markup.getImageUrl
    (Markup.ImageUrl
       (Markup.getImageUrl
          (Markup.ImageUrl "https://cdn.shopify.com/s/files/1/bat.png?v=12") 200))
    120
  = "https://cdn.shopify.com/s/files/1/bat_200x_120x.png?v=12".
Proof.
  apply (getImageUrl_stacks_suffixes
           "https://cdn.shopify.com/s/files/1/bat" "p"%char "ng" "?v=12");
    reflexivity.
Defined.
